(** * QuickBooksImporter: the invoice / purchase-order import pipeline

    A shallow embedding of [import_script.py], [quickbooks_client.py],
    [config.py] and the tables of [models.py], followed by the properties
    of the pipeline that the specification states.

    Conventions of the embedding
    - Python code that raises, logs or touches the SQLAlchemy session is
      written in the monad [M]: a state transformer over [State] whose
      result is [Ok], [Raise] (a Python exception in flight) or [Diverge]
      (the unbounded pagination loop ran out of fuel).
    - The python-quickbooks SDK, the HTTP session, Azure Blob Storage and
      the database engine are collaborators outside the repository.  The
      first three are records of functions ([QuickBooks],
      [BlobServiceClient]); the engine is the function [engine_rejects]
      that may refuse any flush (constraint violation, lost connection).
      Every theorem holds for all of them.
    - [logger.debug] lines and the traceback dump carry no state the
      pipeline reads; [logger.debug] lines are left out. *)

From Stdlib Require Import ZArith List String Ascii Bool Lia DecimalString.
Import ListNotations.
Local Open Scope string_scope.
Local Open Scope Z_scope.

Set Implicit Arguments.

(** ** Python values *)

Module Py.

(** Truthiness of an attribute holding [None] or a [str]. *)
Definition truthy (o : option string) : bool :=
  match o with
  | Some s => negb (s =? "")%string
  | None => false
  end.

(** Truthiness of an attribute holding [None] or an object. *)
Definition is_set {A : Type} (o : option A) : bool :=
  match o with
  | Some _ => true
  | None => false
  end.

(** [x] when it is a non-empty [str], for [if not x: ...] guards. *)
Definition nonempty (o : option string) : option string :=
  match o with
  | Some s => if (s =? "")%string then None else Some s
  | None => None
  end.

(** An optional attribute inside an f-string. *)
Definition fmt (o : option string) : string :=
  match o with
  | Some s => s
  | None => "None"
  end.

(** [s.lower()] on ASCII letters. *)
Definition lower_ascii (c : ascii) : ascii :=
  let n := nat_of_ascii c in
  if andb (Nat.leb 65 n) (Nat.leb n 90) then ascii_of_nat (n + 32) else c.

Fixpoint lower (s : string) : string :=
  match s with
  | EmptyString => EmptyString
  | String c s' => String (lower_ascii c) (lower s')
  end.

(** [s.endswith(suffix)] *)
Definition endswith (s suffix : string) : bool :=
  let n := String.length s in
  let k := String.length suffix in
  andb (Nat.leb k n) (substring (n - k) k s =? suffix)%string.

(** [x == s] for an attribute that is [None] or a [str]. *)
Definition str_eq (o : option string) (s : string) : bool :=
  match o with
  | Some x => (x =? s)%string
  | None => false
  end.

(** [n] when it is an [int] other than 0, for [if limit: ...]. *)
Definition nonzero (o : option Z) : option Z :=
  match o with
  | Some n => if n =? 0 then None else Some n
  | None => None
  end.

(** [str(n)] for an [int]. *)
Definition str (z : Z) : string := NilZero.string_of_int (Z.to_int z).

(** [len(xs)] *)
Definition len {A : Type} (xs : list A) : Z := Z.of_nat (List.length xs).

End Py.

(** ** [decimal.Decimal]

    A decimal is a coefficient and an exponent, as in Python; subtraction
    aligns both operands on the smaller exponent, so it is exact (results
    stay far below the 28 digits of the default context: the columns are
    [Numeric(12, 2)]). *)

Module Decimal.

Record t := mk { coefficient : Z; exponent : Z }.

(** [Decimal(n)] for an [int]: what Python does to the [0] of
    [x - 0]. *)
Definition of_int (z : Z) : t := mk z 0.

(** The coefficient of [d] read at exponent [e] (for [e <= exponent d]). *)
Definition rescale (e : Z) (d : t) : Z :=
  coefficient d * 10 ^ (exponent d - e).

Definition sub (a b : t) : t :=
  let e := Z.min (exponent a) (exponent b) in
  mk (rescale e a - rescale e b) e.

(** [d == 0] *)
Definition is_zero (d : t) : bool := coefficient d =? 0.

(** [x or default] on an attribute that is [None] or a number. *)
Definition or_else (x : option t) (default : t) : t :=
  match x with
  | Some d => if is_zero d then default else d
  | None => default
  end.

End Decimal.

(** ** Exceptions *)

Inductive ExnClass :=
| Exception          (* raise Exception(...) and anything not listed *)
| ValueError
| AttributeError
| RequestException   (* requests.exceptions.RequestException *)
| HTTPError          (* its subclass raised by raise_for_status *)
| QuickbooksException
| IntegrityError     (* and the other sqlalchemy.exc errors of a flush *)
| AzureError.

Record Exn := { exn_class : ExnClass; exn_msg : string }.

Definition is_RequestException (e : Exn) : bool :=
  match exn_class e with
  | RequestException | HTTPError => true
  | _ => false
  end.

(** ** Remote records (python-quickbooks objects) *)

Module qbo.

Record Ref := { value : option string; name : option string }.

Record LinkedTxn := { TxnId : string; TxnType : string }.

Record TxnTaxDetail := { TotalTax : Decimal.t }.

(** [ItemBasedExpenseLineDetail] and [SalesItemLineDetail] *)
Record LineDetail := {
  ItemRef : option Ref;
  TaxCodeRef : option Ref;
  Qty : option Decimal.t;
  UnitPrice : option Decimal.t
}.

Record Line := {
  Description : option string;
  DetailType : string;
  ItemBasedExpenseLineDetail : option LineDetail;
  SalesItemLineDetail : option LineDetail
}.

Module PurchaseOrder.
Record t := {
  Id : string;
  DocNumber : option string;
  TxnDate : option string;
  POStatus : option string;
  TotalAmt : Decimal.t;
  TxnTaxDetail : option qbo.TxnTaxDetail;
  PrivateNote : option string;
  Memo : option string;
  VendorRef : option Ref;
  Line : list qbo.Line
}.
End PurchaseOrder.

Module Invoice.
Record t := {
  Id : string;
  DocNumber : option string;
  TxnDate : option string;
  DueDate : option string;
  Balance : Decimal.t;
  TotalAmt : Decimal.t;
  TxnTaxDetail : option qbo.TxnTaxDetail;
  CustomerMemo : option string;
  PrivateNote : option string;
  LinkedTxn : list qbo.LinkedTxn;
  Line : list qbo.Line
}.
End Invoice.

Record EmailAddress := { Address : option string }.
Record PhoneNumber := { FreeFormNumber : option string }.

Module Vendor.
Record t := {
  Id : string;
  DisplayName : option string;
  PrimaryEmailAddr : option EmailAddress;
  PrimaryPhone : option PhoneNumber
}.
End Vendor.

Module Item.
Record t := {
  Id : string;
  Name : option string;
  Type_ : option string   (* Type *)
}.
End Item.

Module Attachable.
Record t := {
  FileName : option string;
  FileAccessUri : option string
}.
End Attachable.

Record CompanyInfo := { CompanyName : string }.

(** [requests.Response] of the authenticated session *)
Record Response := { status_code : Z; content : string }.

End qbo.

(** The remote service as the SDK shows it to the pipeline: every call
    returns its result or raises. *)
Record QuickBooks := {
  CompanyInfo_all : Exn + list qbo.CompanyInfo;
  Invoice_query : string -> Exn + list qbo.Invoice.t;
  PurchaseOrder_get : string -> Exn + qbo.PurchaseOrder.t;
  Supplier_get : string -> Exn + qbo.Vendor.t;
  Item_get : string -> Exn + qbo.Item.t;
  Attachable_where : string -> Exn + list qbo.Attachable.t;
  session_get : string -> Exn + qbo.Response
}.

(** Azure: [upload_blob container blob_name content content_type] returns
    the URL of the blob or raises. *)
Record BlobServiceClient := {
  upload_blob : string -> string -> string -> string -> Exn + string
}.

(** ** The tables of models.py

    A row carries its primary key [id]; the other columns hold what the
    pipeline assigns to them.  Foreign keys are [option Z]: the ORM
    attribute may be [None]. *)

Module models.

Module Project.
Record t := { id : Z; name : string }.
End Project.

Module User.
Record t := { id : Z; email : string; hashed_password : string }.
End User.

Module Supplier.
Record t := {
  id : Z;
  name : string;
  email : option string;
  phone : option string
}.
End Supplier.

Module Material.
Record t := { id : Z; name : string; unit : string }.
End Material.

Module LPO.
Record t := {
  id : Z;
  lpo_number : string;
  lpo_date : option string;
  status : option string;
  subtotal : Decimal.t;
  tax_total : Decimal.t;
  grand_total : Decimal.t;
  message_to_supplier : option string;
  memo : option string;
  payment_mode : option string;
  supplier_id : option Z;
  project_id : option Z;
  created_by_id : option Z
}.
End LPO.

Module LPOItem.
Record t := {
  id : Z;
  description : option string;
  quantity : Decimal.t;
  rate : Decimal.t;
  tax_rate : Decimal.t;
  lpo_id : option Z;
  material_id : option Z
}.
End LPOItem.

Module LPOAttachment.
Record t := {
  id : Z;
  blob_url : string;
  file_name : option string;
  lpo_id : option Z
}.
End LPOAttachment.

Module Invoice.
Record t := {
  id : Z;
  invoice_number : string;
  invoice_date : option string;
  invoice_due_date : option string;
  lpo_id : option Z;
  status : string;
  subtotal : Decimal.t;
  tax_total : Decimal.t;
  grand_total : Decimal.t;
  message_to_customer : option string;
  memo : option string;
  payment_mode : option string;
  supplier_id : option Z;
  project_id : option Z;
  created_by_id : option Z
}.
End Invoice.

Module InvoiceItem.
Record t := {
  id : Z;
  description : option string;
  quantity : Decimal.t;
  rate : Decimal.t;
  tax_rate : Decimal.t;
  invoice_id : option Z;
  material_id : option Z
}.
End InvoiceItem.

Module InvoiceAttachment.
Record t := {
  id : Z;
  blob_url : string;
  file_name : option string;
  invoice_id : option Z
}.
End InvoiceAttachment.

End models.

(** ** The database and the SQLAlchemy session

    [material_requisitions] and the two association tables of models.py
    are never touched by the import and are left out. *)

Record Store := {
  suppliers : list models.Supplier.t;
  materials : list models.Material.t;
  projects : list models.Project.t;
  users : list models.User.t;
  lpos : list models.LPO.t;
  lpo_items : list models.LPOItem.t;
  lpo_attachments : list models.LPOAttachment.t;
  invoices : list models.Invoice.t;
  invoice_items : list models.InvoiceItem.t;
  invoice_attachments : list models.InvoiceAttachment.t
}.

Definition empty_store : Store :=
  {| suppliers := []; materials := []; projects := []; users := [];
     lpos := []; lpo_items := []; lpo_attachments := [];
     invoices := []; invoice_items := []; invoice_attachments := [] |}.

(** The rows of [b] inserted after those of [a], table by table. *)
Definition store_app (a b : Store) : Store :=
  {| suppliers := suppliers a ++ suppliers b;
     materials := materials a ++ materials b;
     projects := projects a ++ projects b;
     users := users a ++ users b;
     lpos := lpos a ++ lpos b;
     lpo_items := lpo_items a ++ lpo_items b;
     lpo_attachments := lpo_attachments a ++ lpo_attachments b;
     invoices := invoices a ++ invoices b;
     invoice_items := invoice_items a ++ invoice_items b;
     invoice_attachments := invoice_attachments a ++ invoice_attachments b |}.

(** A mapped class: where its rows live in a [Store] and its primary
    key. *)
Record Table (R : Type) := {
  rows : Store -> list R;
  with_rows : list R -> Store -> Store;
  pk : R -> Z
}.

Module tables.

Definition Supplier : Table models.Supplier.t :=
  {| rows := suppliers;
     with_rows := fun l s =>
       {| suppliers := l; materials := materials s; projects := projects s;
          users := users s; lpos := lpos s; lpo_items := lpo_items s;
          lpo_attachments := lpo_attachments s; invoices := invoices s;
          invoice_items := invoice_items s;
          invoice_attachments := invoice_attachments s |};
     pk := models.Supplier.id |}.

Definition Material : Table models.Material.t :=
  {| rows := materials;
     with_rows := fun l s =>
       {| suppliers := suppliers s; materials := l; projects := projects s;
          users := users s; lpos := lpos s; lpo_items := lpo_items s;
          lpo_attachments := lpo_attachments s; invoices := invoices s;
          invoice_items := invoice_items s;
          invoice_attachments := invoice_attachments s |};
     pk := models.Material.id |}.

Definition Project : Table models.Project.t :=
  {| rows := projects;
     with_rows := fun l s =>
       {| suppliers := suppliers s; materials := materials s; projects := l;
          users := users s; lpos := lpos s; lpo_items := lpo_items s;
          lpo_attachments := lpo_attachments s; invoices := invoices s;
          invoice_items := invoice_items s;
          invoice_attachments := invoice_attachments s |};
     pk := models.Project.id |}.

Definition User : Table models.User.t :=
  {| rows := users;
     with_rows := fun l s =>
       {| suppliers := suppliers s; materials := materials s;
          projects := projects s; users := l; lpos := lpos s;
          lpo_items := lpo_items s;
          lpo_attachments := lpo_attachments s; invoices := invoices s;
          invoice_items := invoice_items s;
          invoice_attachments := invoice_attachments s |};
     pk := models.User.id |}.

Definition LPO : Table models.LPO.t :=
  {| rows := lpos;
     with_rows := fun l s =>
       {| suppliers := suppliers s; materials := materials s;
          projects := projects s; users := users s; lpos := l;
          lpo_items := lpo_items s;
          lpo_attachments := lpo_attachments s; invoices := invoices s;
          invoice_items := invoice_items s;
          invoice_attachments := invoice_attachments s |};
     pk := models.LPO.id |}.

Definition LPOItem : Table models.LPOItem.t :=
  {| rows := lpo_items;
     with_rows := fun l s =>
       {| suppliers := suppliers s; materials := materials s;
          projects := projects s; users := users s; lpos := lpos s;
          lpo_items := l;
          lpo_attachments := lpo_attachments s; invoices := invoices s;
          invoice_items := invoice_items s;
          invoice_attachments := invoice_attachments s |};
     pk := models.LPOItem.id |}.

Definition LPOAttachment : Table models.LPOAttachment.t :=
  {| rows := lpo_attachments;
     with_rows := fun l s =>
       {| suppliers := suppliers s; materials := materials s;
          projects := projects s; users := users s; lpos := lpos s;
          lpo_items := lpo_items s;
          lpo_attachments := l; invoices := invoices s;
          invoice_items := invoice_items s;
          invoice_attachments := invoice_attachments s |};
     pk := models.LPOAttachment.id |}.

Definition Invoice : Table models.Invoice.t :=
  {| rows := invoices;
     with_rows := fun l s =>
       {| suppliers := suppliers s; materials := materials s;
          projects := projects s; users := users s; lpos := lpos s;
          lpo_items := lpo_items s;
          lpo_attachments := lpo_attachments s; invoices := l;
          invoice_items := invoice_items s;
          invoice_attachments := invoice_attachments s |};
     pk := models.Invoice.id |}.

Definition InvoiceItem : Table models.InvoiceItem.t :=
  {| rows := invoice_items;
     with_rows := fun l s =>
       {| suppliers := suppliers s; materials := materials s;
          projects := projects s; users := users s; lpos := lpos s;
          lpo_items := lpo_items s;
          lpo_attachments := lpo_attachments s; invoices := invoices s;
          invoice_items := l;
          invoice_attachments := invoice_attachments s |};
     pk := models.InvoiceItem.id |}.

Definition InvoiceAttachment : Table models.InvoiceAttachment.t :=
  {| rows := invoice_attachments;
     with_rows := fun l s =>
       {| suppliers := suppliers s; materials := materials s;
          projects := projects s; users := users s; lpos := lpos s;
          lpo_items := lpo_items s;
          lpo_attachments := lpo_attachments s; invoices := invoices s;
          invoice_items := invoice_items s;
          invoice_attachments := l |};
     pk := models.InvoiceAttachment.id |}.

End tables.

(** A session over the database.
    - [committed]: the database as other connections see it;
    - [txn]: the database as this session's open transaction sees it
      (committed rows and the rows its flushes inserted); queries read it,
      the session being created with [autoflush=False];
    - [new]: the objects added and not flushed yet ([session.new]).

    The primary key of an object is reserved when it is added.  SQLAlchemy
    assigns it at the flush that inserts the row; the pipeline reads [.id]
    only from loaded or flushed objects, and the rows of one table are
    inserted in the order they were added, so the keys are the same. *)
Record Session := {
  committed : Store;
  txn : Store;
  new : Store
}.

(** The key the database generates next for a table holding [ids]. *)
Definition next_id (ids : list Z) : Z := 1 + fold_right Z.max 0 ids.

(** ** config.py *)

Module config.

Record Env := {
  AZURE_CONNECTION_STRING : option string;
  AZURE_CONTAINER_NAME : string;
  QB_CLIENT_ID : option string;
  QB_CLIENT_SECRET : option string;
  QB_ENVIRONMENT : option string;
  QB_REDIRECT_URI : option string;
  QB_ACCESS_TOKEN : option string;
  QB_REFRESH_TOKEN : option string;
  QB_REALM_ID : option string
}.

Definition all_qb_keys_present (c : Env) : bool :=
  forallb Py.truthy
    [QB_CLIENT_ID c; QB_CLIENT_SECRET c; QB_ACCESS_TOKEN c;
     QB_REFRESH_TOKEN c; QB_REALM_ID c].

Definition auth_keys_present (c : Env) : bool :=
  forallb Py.truthy [QB_CLIENT_ID c; QB_CLIENT_SECRET c; QB_REDIRECT_URI c].

End config.

(** ** The state of a run and the monad of the pipeline *)

Inductive Level := DEBUG | INFO | WARNING | ERROR | CRITICAL.

(** [db] is the session [db] of [process_imports]; [log] is what the
    logger received, oldest first; the three counters are the local
    variables of [process_imports]; [uuids] counts the [uuid.uuid4()]
    calls made so far. *)
Record State := {
  db : Session;
  log : list (Level * string);
  success_count : Z;
  skipped_count : Z;
  fail_count : Z;
  uuids : nat
}.

Definition set_db (d : Session) (s : State) : State :=
  {| db := d; log := log s; success_count := success_count s;
     skipped_count := skipped_count s; fail_count := fail_count s;
     uuids := uuids s |}.

Definition set_log (l : list (Level * string)) (s : State) : State :=
  {| db := db s; log := l; success_count := success_count s;
     skipped_count := skipped_count s; fail_count := fail_count s;
     uuids := uuids s |}.

Definition set_counts (ok skipped failed : Z) (s : State) : State :=
  {| db := db s; log := log s; success_count := ok;
     skipped_count := skipped; fail_count := failed;
     uuids := uuids s |}.

Definition set_uuids (n : nat) (s : State) : State :=
  {| db := db s; log := log s; success_count := success_count s;
     skipped_count := skipped_count s; fail_count := fail_count s;
     uuids := n |}.

Inductive Result (A : Type) :=
| Ok (a : A)
| Raise (e : Exn)
| Diverge.
Arguments Raise {A} e.
Arguments Diverge {A}.

Definition M (A : Type) : Type := State -> Result A * State.

Definition ret {A : Type} (a : A) : M A := fun s => (Ok a, s).

Definition bind {A B : Type} (m : M A) (k : A -> M B) : M B :=
  fun s =>
    match m s with
    | (Ok a, s') => k a s'
    | (Raise e, s') => (Raise e, s')
    | (Diverge, s') => (Diverge, s')
    end.

Definition raise {A : Type} (e : Exn) : M A := fun s => (Raise e, s).

(** [try: body  except Exception as e: handler e] *)
Definition try_except {A : Type} (body : M A) (handler : Exn -> M A) : M A :=
  fun s =>
    match body s with
    | (Raise e, s') => handler e s'
    | r => r
    end.

(** [try: body  finally: final] *)
Definition try_finally {A : Type} (body : M A) (final : M unit) : M A :=
  fun s =>
    match body s with
    | (Diverge, s') => (Diverge, s')
    | (r, s') =>
        match final s' with
        | (Ok _, s'') => (r, s'')
        | (Raise e, s'') => (Raise e, s'')
        | (Diverge, s'') => (Diverge, s'')
        end
    end.

Declare Scope py_scope.
Delimit Scope py_scope with py.
Notation "x <- m ;; k" := (bind m (fun x => k))
  (at level 61, m at next level, right associativity) : py_scope.
Notation "m ;; k" := (bind m (fun _ => k))
  (at level 61, right associativity) : py_scope.
Local Open Scope py_scope.

(** [for x in xs: body x] *)
Fixpoint for_each {A : Type} (xs : list A) (body : A -> M unit) : M unit :=
  match xs with
  | [] => ret tt
  | x :: xs' => body x ;; for_each xs' body
  end.

(** [if c: body] *)
Definition when (c : bool) (body : M unit) : M unit :=
  if c then body else ret tt.

Module logger.
Definition emit (lvl : Level) (msg : string) : M unit :=
  fun s => (Ok tt, set_log (log s ++ [(lvl, msg)]) s).
Definition info := emit INFO.
Definition warning := emit WARNING.
Definition error := emit ERROR.
Definition critical := emit CRITICAL.
End logger.

(** The counters of [process_imports]. *)
Definition incr_success : M unit :=
  fun s => (Ok tt, set_counts (success_count s + 1) (skipped_count s)
                              (fail_count s) s).
Definition incr_skipped : M unit :=
  fun s => (Ok tt, set_counts (success_count s) (skipped_count s + 1)
                              (fail_count s) s).
Definition incr_fail : M unit :=
  fun s => (Ok tt, set_counts (success_count s) (skipped_count s)
                              (fail_count s + 1) s).

(** A run of the script over a database: the state [process_imports]
    starts from. *)
Definition initial_state (database : Store) : State :=
  {| db := {| committed := database; txn := database; new := empty_store |};
     log := [];
     success_count := 0; skipped_count := 0; fail_count := 0;
     uuids := 0 |}.

(** ** quickbooks_client.py: the token file

    [update_env_file] rewrites the file [.env] in place.  The file is the
    list of its lines as [readlines] returns them, each with its line
    end, or [None] when it does not exist; [FileIO] is what the operating
    system does to the three file operations of the function. *)

Module env_file.

(** The line end [f.write] adds to a token line. *)
Definition LF : string := String (ascii_of_nat 10) EmptyString.

(** [line.startswith(prefix)] *)
Definition startswith (line prefix : string) : bool :=
  String.prefix prefix line.

Record FileIO := {
  (** [open(env_path, 'r')] or [readlines] raises *)
  read_error : option Exn;
  (** [open(env_path, 'w')] raises: the file is left as it is *)
  open_write_error : option Exn;
  (** the write of line number [k] (from 0) raises: the file, truncated
      when it was opened, keeps the lines written before *)
  write_error : option (nat * Exn)
}.

(** The line the loop writes for [line]. *)
Definition rewritten (new_access_token new_refresh_token : option string)
    (line : string) : string :=
  if startswith line "QB_ACCESS_TOKEN=" then
    "QB_ACCESS_TOKEN=" ++ Py.fmt new_access_token ++ LF
  else if startswith line "QB_REFRESH_TOKEN=" then
    "QB_REFRESH_TOKEN=" ++ Py.fmt new_refresh_token ++ LF
  else line.

(** The file afterwards and the records logged. *)
Definition update_env_file (io : FileIO)
    (new_access_token new_refresh_token : option string)
    (file : option (list string))
  : option (list string) * list (Level * string) :=
  match file with
  | None =>
      (None, [(WARNING, ".env file not found. Cannot persist new tokens.")])
  | Some lines =>
      let failed (content : list string) (e : Exn) :=
        (Some content,
         [(ERROR, "Error updating .env file: " ++ exn_msg e
                  ++ ". New tokens will not be saved.")]) in
      let updated (content : list string) :=
        (Some content,
         [(INFO, "Successfully updated .env file with new refresh token.")]) in
      match read_error io with
      | Some e => failed lines e
      | None =>
          match open_write_error io with
          | Some e => failed lines e
          | None =>
              let written :=
                map (rewritten new_access_token new_refresh_token) lines in
              match write_error io with
              | Some (k, e) =>
                  if (k <? List.length lines)%nat
                  then failed (firstn k written) e
                  else updated written
              | None => updated written
              end
          end
      end
  end.

(** The two attributes of [auth_client] the callback reads. *)
Record AuthClient := {
  access_token : option string;
  refresh_token : option string
}.

Definition token_refreshed_callback (io : FileIO) (auth_client : AuthClient)
    (file : option (list string))
  : option (list string) * list (Level * string) :=
  let (file', records) :=
    update_env_file io (access_token auth_client)
                    (refresh_token auth_client) file in
  (file', (INFO, "QuickBooks token was refreshed.") :: records).

(** File operations that all succeed. *)
Definition no_error : FileIO :=
  {| read_error := None; open_write_error := None; write_error := None |}.

(** A line that [update_env_file] replaces. *)
Definition is_token_line (line : string) : bool :=
  orb (startswith line "QB_ACCESS_TOKEN=")
      (startswith line "QB_REFRESH_TOKEN=").

End env_file.

(** ** get_oauth_tokens.py

    The script that obtains the first tokens.  Its collaborators are the
    intuit-oauth client, the browser and the one-request HTTP server;
    what it does is what it prints, the pages it opens, the response it
    sends and the exchanges it asks for. *)

Module get_oauth_tokens.

(** [parse_qs(urlparse(path).query)]: the parameters of the query, each
    with the values given for it; [parse_qs] lists no parameter without
    a value, so the values are a first one and the others. *)
Definition Query : Type := list (string * (string * list string)).

(** [key in query_components] and [query_components[key]] *)
Fixpoint lookup (key : string) (q : Query) : option (string * list string) :=
  match q with
  | [] => None
  | (k, v) :: q' => if (k =? key)%string then Some v else lookup key q'
  end.

(** What the handler sends: [send_response], the one [send_header], and
    the chunks written to [wfile]. *)
Record Response := {
  status : Z;
  content_type : string;
  body : list string
}.

(** The module globals [auth_code] and [realm_id]. *)
Record Globals := {
  auth_code : option string;
  realm_id : option string
}.

(** [OAuthCallbackHandler.do_GET] for a request whose path parses to
    [query_components]. *)
Definition do_GET (query_components : Query) (g : Globals)
  : Globals * Response :=
  match lookup "code" query_components,
        lookup "realmId" query_components with
  | Some (code, _), Some (realm, _) =>
      ({| auth_code := Some code; realm_id := Some realm |},
       {| status := 200;
          content_type := "text/html";
          body :=
            ["<html><head><title>Success!</title></head>";
             "<body style='font-family: sans-serif; text-align: center; padding-top: 50px;'>";
             "<h1>Authentication Successful!</h1>";
             "<p>You can close this window and return to your terminal.</p>";
             "</body></html>"] |})
  | _, _ =>
      (g,
       {| status := 400;
          content_type := "text/html";
          body :=
            ["<html><body><h1>Error</h1><p>Could not parse auth code and realmId from redirect.</p></body></html>"] |})
  end.

(** The attributes of [auth_client] after [get_bearer_token]. *)
Record Tokens := {
  access_token : option string;
  refresh_token : option string;
  token_realm_id : option string
}.

(** [AuthClient(...)] built from the configuration. *)
Record AuthClient := {
  (** [get_authorization_url([Scopes.ACCOUNTING])] *)
  get_authorization_url : string;
  (** [get_bearer_token(auth_code, realm_id=realm_id)] *)
  get_bearer_token : string -> string -> Exn + Tokens
}.

(** What [socketserver.TCPServer(("", PORT), OAuthCallbackHandler)] and
    its [handle_request()] come to. *)
Inductive Server :=
| OSError (e : Exn)        (* the server cannot be started *)
| Failed (e : Exn)         (* any other exception *)
| Request (path : string). (* one request is handled *)

(** The effects of a run of the script. *)
Record Run := {
  globals : Globals;
  stdout : list string;             (* the [print] calls *)
  browser : list string;            (* the [webbrowser.open] calls *)
  responses : list Response;        (* sent by the handler *)
  exchanges : list (string * string)  (* the [get_bearer_token] calls *)
}.

Definition LF : string := String (ascii_of_nat 10) EmptyString.

Definition get_tokens (cfg : config.Env) (auth_client : AuthClient)
    (parse_qs : string -> Query) (server : Server) (g : Globals) : Run :=
  if negb (config.auth_keys_present cfg) then
    {| globals := g;
       stdout :=
         ["Error: QB_CLIENT_ID, QB_CLIENT_SECRET, or QB_REDIRECT_URI not found in .env file.";
          "Please follow Step 1 in README.md first."];
       browser := []; responses := []; exchanges := [] |}
  else
    let auth_url := get_authorization_url auth_client in
    let started :=
      ["--- QuickBooks Initial Authentication ---";
       LF ++ "Starting a temporary web server at http://localhost:8000 ...";
       LF ++ "Your browser should open. If not, please visit this URL:"
          ++ LF ++ auth_url ++ LF;
       "Please log in to QuickBooks and authorize the app.";
       "Waiting for you to authorize..."] in
    match server with
    | OSError e =>
        {| globals := g;
           stdout :=
             List.app started
             [LF ++ "Error: Could not start web server on port 8000.";
              "Another service might be using it, or you may have a permissions issue.";
              "Please stop the other service and try again.";
              "Details: " ++ exn_msg e];
           browser := [auth_url]; responses := []; exchanges := [] |}
    | Failed e =>
        {| globals := g;
           stdout := List.app started ["An unexpected error occurred: " ++ exn_msg e];
           browser := [auth_url]; responses := []; exchanges := [] |}
    | Request path =>
        let (g', response) := do_GET (parse_qs path) g in
        let received :=
          List.app started ["Authorization received! Shutting down web server."] in
        match Py.nonempty (auth_code g'), Py.nonempty (realm_id g') with
        | Some code, Some realm =>
            let exchanging :=
              List.app received ["Exchanging authorization code for tokens..."] in
            match get_bearer_token auth_client code realm with
            | inr tokens =>
                {| globals := g';
                   stdout :=
                     List.app exchanging
                     [LF ++ "--- SUCCESS! ---";
                      "Your tokens are ready. Copy these values into your .env file:" ++ LF;
                      "--------------------------------------------------";
                      "QB_ACCESS_TOKEN=" ++ Py.fmt (access_token tokens);
                      "QB_REFRESH_TOKEN=" ++ Py.fmt (refresh_token tokens);
                      "QB_REALM_ID=" ++ Py.fmt (token_realm_id tokens);
                      "--------------------------------------------------"];
                   browser := [auth_url]; responses := [response];
                   exchanges := [(code, realm)] |}
            | inl e =>
                {| globals := g';
                   stdout :=
                     List.app exchanging
                     [LF ++ "Error getting tokens: " ++ exn_msg e;
                      "Please try running the script again."];
                   browser := [auth_url]; responses := [response];
                   exchanges := [(code, realm)] |}
            end
        | _, _ =>
            {| globals := g';
               stdout :=
                 List.app received
                 [LF ++ "Error: Could not get authorization code or realmId. Please try again."];
               browser := [auth_url]; responses := [response];
               exchanges := [] |}
        end
    end.

(** The script: [get_tokens()] with the globals as the module sets
    them. *)
Definition main (cfg : config.Env) (auth_client : AuthClient)
    (parse_qs : string -> Query) (server : Server) : Run :=
  get_tokens cfg auth_client parse_qs server
    {| auth_code := None; realm_id := None |}.

End get_oauth_tokens.

(** ** A small remote data set, for the examples that close the file *)

Module Example.

Definition cfg : config.Env :=
  {| config.AZURE_CONNECTION_STRING := Some "UseDevelopmentStorage=true";
     config.AZURE_CONTAINER_NAME := "quickbooks-imports";
     config.QB_CLIENT_ID := Some "client-id";
     config.QB_CLIENT_SECRET := Some "client-secret";
     config.QB_ENVIRONMENT := Some "sandbox";
     config.QB_REDIRECT_URI := None;
     config.QB_ACCESS_TOKEN := Some "access-token";
     config.QB_REFRESH_TOKEN := Some "refresh-token";
     config.QB_REALM_ID := Some "4620816365" |}.

(** The same environment without QB_REALM_ID. *)
Definition cfg_without_realm : config.Env :=
  {| config.AZURE_CONNECTION_STRING := Some "UseDevelopmentStorage=true";
     config.AZURE_CONTAINER_NAME := "quickbooks-imports";
     config.QB_CLIENT_ID := Some "client-id";
     config.QB_CLIENT_SECRET := Some "client-secret";
     config.QB_ENVIRONMENT := Some "sandbox";
     config.QB_REDIRECT_URI := None;
     config.QB_ACCESS_TOKEN := Some "access-token";
     config.QB_REFRESH_TOKEN := Some "refresh-token";
     config.QB_REALM_ID := None |}.

(** An engine that accepts every flush. *)
Definition accepts (seen pending : Store) : option Exn := None.


Definition uuid4 (n : nat) : string := "uuid" ++ Py.str (Z.of_nat n).

Definition format_exc (e : Exn) : string :=
  "Traceback (most recent call last): " ++ exn_msg e.

Definition blob : BlobServiceClient :=
  {| upload_blob := fun container blob_name content content_type =>
       inr ("https://blobs.test/" ++ container ++ "/" ++ blob_name) |}.

Definition from_connection_string (connection_string : string)
  : Exn + BlobServiceClient := inr blob.

Definition acme : qbo.Vendor.t :=
  {| qbo.Vendor.Id := "56";
     qbo.Vendor.DisplayName := Some "Acme Supplies";
     qbo.Vendor.PrimaryEmailAddr :=
       Some {| qbo.Address := Some "sales@acme.test" |};
     qbo.Vendor.PrimaryPhone := None |}.

(** Another vendor record with the same display name. *)
Definition acme_again : qbo.Vendor.t :=
  {| qbo.Vendor.Id := "57";
     qbo.Vendor.DisplayName := Some "Acme Supplies";
     qbo.Vendor.PrimaryEmailAddr := None;
     qbo.Vendor.PrimaryPhone :=
       Some {| qbo.FreeFormNumber := Some "555-0100" |} |}.

Definition cement : qbo.Item.t :=
  {| qbo.Item.Id := "11";
     qbo.Item.Name := Some "Cement";
     qbo.Item.Type_ := Some "Inventory" |}.

(** The item of that name once its remote type has changed. *)
Definition cement_as_service : qbo.Item.t :=
  {| qbo.Item.Id := "11";
     qbo.Item.Name := Some "Cement";
     qbo.Item.Type_ := Some "Service" |}.

Definition labour : qbo.Item.t :=
  {| qbo.Item.Id := "12";
     qbo.Item.Name := Some "Labour";
     qbo.Item.Type_ := Some "Service" |}.

Definition ref (v : string) : qbo.Ref :=
  {| qbo.value := Some v; qbo.name := None |}.

Definition expense_line (item tax : string) : qbo.Line :=
  {| qbo.Description := Some "Cement 50kg";
     qbo.DetailType := "ItemBasedExpenseLineDetail";
     qbo.ItemBasedExpenseLineDetail :=
       Some {| qbo.ItemRef := Some (ref item);
               qbo.TaxCodeRef := Some (ref tax);
               qbo.Qty := Some (Decimal.mk 2 0);
               qbo.UnitPrice := Some (Decimal.mk 5000 (-2)) |};
     qbo.SalesItemLineDetail := None |}.

Definition sales_line (item tax : string) : qbo.Line :=
  {| qbo.Description := Some "As ordered";
     qbo.DetailType := "SalesItemLineDetail";
     qbo.ItemBasedExpenseLineDetail := None;
     qbo.SalesItemLineDetail :=
       Some {| qbo.ItemRef := Some (ref item);
               qbo.TaxCodeRef := Some (ref tax);
               qbo.Qty := Some (Decimal.mk 1 0);
               qbo.UnitPrice := None |} |}.

(** Total 105.00, tax 5.00. *)
Definition po_1001 : qbo.PurchaseOrder.t :=
  {| qbo.PurchaseOrder.Id := "201";
     qbo.PurchaseOrder.DocNumber := Some "PO-1001";
     qbo.PurchaseOrder.TxnDate := Some "2025-05-02";
     qbo.PurchaseOrder.POStatus := Some "Open";
     qbo.PurchaseOrder.TotalAmt := Decimal.mk 10500 (-2);
     qbo.PurchaseOrder.TxnTaxDetail :=
       Some {| qbo.TotalTax := Decimal.mk 500 (-2) |};
     qbo.PurchaseOrder.PrivateNote := None;
     qbo.PurchaseOrder.Memo := Some "Site A";
     qbo.PurchaseOrder.VendorRef := Some (ref "56");
     qbo.PurchaseOrder.Line := [expense_line "11" "TAX"] |}.

(** A purchase order without vendor reference. *)
Definition po_1002 : qbo.PurchaseOrder.t :=
  {| qbo.PurchaseOrder.Id := "202";
     qbo.PurchaseOrder.DocNumber := Some "PO-1002";
     qbo.PurchaseOrder.TxnDate := Some "2025-05-03";
     qbo.PurchaseOrder.POStatus := Some "Open";
     qbo.PurchaseOrder.TotalAmt := Decimal.mk 1000 (-2);
     qbo.PurchaseOrder.TxnTaxDetail := None;
     qbo.PurchaseOrder.PrivateNote := None;
     qbo.PurchaseOrder.Memo := None;
     qbo.PurchaseOrder.VendorRef := None;
     qbo.PurchaseOrder.Line := [] |}.

Definition invoice (id number : string) (linked : list qbo.LinkedTxn)
  : qbo.Invoice.t :=
  {| qbo.Invoice.Id := id;
     qbo.Invoice.DocNumber := Some number;
     qbo.Invoice.TxnDate := Some "2025-05-10";
     qbo.Invoice.DueDate := Some "2025-06-09";
     qbo.Invoice.Balance := Decimal.mk 0 (-2);
     qbo.Invoice.TotalAmt := Decimal.mk 10500 (-2);
     qbo.Invoice.TxnTaxDetail :=
       Some {| qbo.TotalTax := Decimal.mk 500 (-2) |};
     qbo.Invoice.CustomerMemo := None;
     qbo.Invoice.PrivateNote := None;
     qbo.Invoice.LinkedTxn := linked;
     qbo.Invoice.Line := [sales_line "11" "NON"; sales_line "12" "TAX"] |}.

Definition linked (id type : string) : qbo.LinkedTxn :=
  {| qbo.TxnId := id; qbo.TxnType := type |}.

(** Linked to PO-1001: imported. *)
Definition inv_1 : qbo.Invoice.t :=
  invoice "1" "INV-1" [linked "201" "PurchaseOrder"].

(** Linked to a bill only. *)
Definition inv_2 : qbo.Invoice.t :=
  invoice "2" "INV-2" [linked "77" "Bill"].

(** Linked to PO-1002, which has no vendor: fails. *)
Definition inv_3 : qbo.Invoice.t :=
  invoice "3" "INV-3" [linked "202" "PurchaseOrder"].

(** Its first purchase order cannot be fetched; a second one could. *)
Definition inv_4 : qbo.Invoice.t :=
  invoice "4" "INV-4"
    [linked "77" "Bill"; linked "404" "PurchaseOrder";
     linked "201" "PurchaseOrder"].

Definition not_found (what id : string) : Exn :=
  {| exn_class := QuickbooksException;
     exn_msg := what ++ " " ++ id ++ " not found" |}.

(** The remote service holding [invoices]: the limited query and the
    first page of the unlimited one return them all. *)
Definition client (invoices : list qbo.Invoice.t) : QuickBooks :=
  {| CompanyInfo_all := inr [{| qbo.CompanyName := "Sandbox Company" |}];
     Invoice_query := fun query =>
       if orb (Py.endswith query "' MAXRESULTS 10")
              (Py.endswith query " STARTPOSITION 1 MAXRESULTS 100")
       then inr invoices else inr [];
     PurchaseOrder_get := fun id =>
       if (id =? "201")%string then inr po_1001
       else if (id =? "202")%string then inr po_1002
       else inl (not_found "PurchaseOrder" id);
     Supplier_get := fun id =>
       if (id =? "56")%string then inr acme
       else inl (not_found "Vendor" id);
     Item_get := fun id =>
       if (id =? "11")%string then inr cement
       else if (id =? "12")%string then inr labour
       else inl (not_found "Item" id);
     Attachable_where := fun query =>
       inr [{| qbo.Attachable.FileName := Some "scan.PDF";
               qbo.Attachable.FileAccessUri :=
                 Some "https://files.test/scan" |}];
     session_get := fun url =>
       inr {| qbo.status_code := 200; qbo.content := "%PDF-1.7" |} |}.

(** No invoice of this data set fails. *)
Definition clean : QuickBooks := client [inv_1; inv_2; inv_4; inv_1].

(** One invoice of this data set fails. *)
Definition with_failure : QuickBooks := client [inv_3].

(** Linked to PO-1001, like INV-1. *)
Definition inv_5 : qbo.Invoice.t :=
  invoice "5" "INV-5" [linked "201" "PurchaseOrder"].

(** The supplier row and the order row that importing INV-1 into an
    empty database creates. *)
Definition acme_row : models.Supplier.t :=
  {| models.Supplier.id := 1;
     models.Supplier.name := "Acme Supplies";
     models.Supplier.email := Some "sales@acme.test";
     models.Supplier.phone := None |}.

(** An engine that refuses every flush: the database is read-only. *)
Definition read_only (seen pending : Store) : option Exn :=
  Some {| exn_class := IntegrityError;
          exn_msg := "attempt to write a readonly database" |}.

Definition unauthorized : Exn :=
  {| exn_class := QuickbooksException; exn_msg := "401 Unauthorized" |}.

Definition timed_out : Exn :=
  {| exn_class := QuickbooksException; exn_msg := "Read timed out." |}.

(** [clean], except that every page of the invoice query after the first
    one times out. *)
Definition second_page_fails : QuickBooks :=
  {| CompanyInfo_all := CompanyInfo_all clean;
     Invoice_query := fun query =>
       if Py.endswith query " STARTPOSITION 1 MAXRESULTS 100"
       then inr [inv_1; inv_2] else inl timed_out;
     PurchaseOrder_get := PurchaseOrder_get clean;
     Supplier_get := Supplier_get clean;
     Item_get := Item_get clean;
     Attachable_where := Attachable_where clean;
     session_get := session_get clean |}.

(** A [.env] file without token lines. *)
Definition dotenv_without_tokens : list string :=
  ["DATABASE_URL=sqlite:///procurement.db" ++ env_file.LF;
   "QB_CLIENT_ID=client-id" ++ env_file.LF;
   "QB_REALM_ID=4620816365" ++ env_file.LF].

(** [cfg] with the redirect URI of the initial authentication. *)
Definition cfg_with_redirect : config.Env :=
  {| config.AZURE_CONNECTION_STRING := config.AZURE_CONNECTION_STRING cfg;
     config.AZURE_CONTAINER_NAME := config.AZURE_CONTAINER_NAME cfg;
     config.QB_CLIENT_ID := config.QB_CLIENT_ID cfg;
     config.QB_CLIENT_SECRET := config.QB_CLIENT_SECRET cfg;
     config.QB_ENVIRONMENT := config.QB_ENVIRONMENT cfg;
     config.QB_REDIRECT_URI := Some "http://localhost:8000/callback";
     config.QB_ACCESS_TOKEN := None;
     config.QB_REFRESH_TOKEN := None;
     config.QB_REALM_ID := None |}.

(** An OAuth client that grants every exchange. *)
Definition auth_client : get_oauth_tokens.AuthClient :=
  {| get_oauth_tokens.get_authorization_url :=
       "https://appcenter.intuit.com/connect/oauth2?client_id=client-id";
     get_oauth_tokens.get_bearer_token := fun code realm =>
       inr {| get_oauth_tokens.access_token := Some ("access-for-" ++ code);
              get_oauth_tokens.refresh_token := Some "refresh-1";
              get_oauth_tokens.token_realm_id := Some realm |} |}.

(** The query parameters of the two redirects of the examples. *)
Definition parse_qs (path : string) : get_oauth_tokens.Query :=
  if (path =? "/callback?code=abc&realmId=4620816365")%string then
    [("code", ("abc", [])); ("realmId", ("4620816365", []))]
  else if (path =? "/callback?error=access_denied")%string then
    [("error", ("access_denied", []))]
  else [].

Definition default_project : models.Project.t :=
  {| models.Project.id := 1;
     models.Project.name := "Default Imported Project" |}.

Definition default_user : models.User.t :=
  {| models.User.id := 1;
     models.User.email := "import_admin@yourcompany.com";
     models.User.hashed_password := "!!!SET-A-DUMMY-PASSWORD-HERE!!!" |}.

End Example.

Section Pipeline.

(** The collaborators and the environment of a run. *)

(** The database engine: given the rows the transaction sees and the
    rows a flush is about to insert, the error it answers with, if
    any. *)
Variable engine_rejects : Store -> Store -> option Exn.

(** [str(uuid.uuid4())] for the n-th call. *)
Variable uuid4 : nat -> string.

(** [traceback.format_exc()] while handling [e]. *)
Variable format_exc : Exn -> string.

(** The values config.py read from the environment. *)
Variable cfg : config.Env.

(** [BlobServiceClient.from_connection_string] *)
Variable from_connection_string : string -> Exn + BlobServiceClient.

(** [AuthClient(...)] then [QuickBooks(...)] with the configured
    credentials. *)
Variable QuickBooks_connect : Exn + QuickBooks.

(** A bound on the number of pages the unlimited invoice query is
    followed for; beyond it the run counts as not terminating. *)
Variable page_fuel : nat.

(** *** The session *)

(** [session.add(obj)], [obj] being given as a function of its primary
    key. *)
Definition session_add {R : Type} (T : Table R) (obj : Z -> R) : M R :=
  fun s =>
    let d := db s in
    let r := obj (next_id (map (pk T) (rows T (txn d) ++ rows T (new d)))) in
    (Ok r,
     set_db {| committed := committed d;
               txn := txn d;
               new := with_rows T (rows T (new d) ++ [r]) (new d) |} s).

(** [session.flush()] *)
Definition session_flush : M unit :=
  fun s =>
    let d := db s in
    match engine_rejects (txn d) (new d) with
    | Some e => (Raise e, s)
    | None =>
        (Ok tt,
         set_db {| committed := committed d;
                   txn := store_app (txn d) (new d);
                   new := empty_store |} s)
    end.

(** [session.commit()]: flush, then make the transaction durable. *)
Definition session_commit : M unit :=
  session_flush ;;
  fun s =>
    let d := db s in
    (Ok tt,
     set_db {| committed := txn d; txn := txn d; new := empty_store |} s).

(** [session.rollback()] *)
Definition session_rollback : M unit :=
  fun s =>
    let d := db s in
    (Ok tt,
     set_db {| committed := committed d;
               txn := committed d;
               new := empty_store |} s).

(** [session.close()]: what was not committed is lost. *)
Definition session_close : M unit := session_rollback.

(** [config.SessionLocal()] *)
Definition SessionLocal : M unit :=
  fun s =>
    let d := db s in
    (Ok tt,
     set_db {| committed := committed d;
               txn := committed d;
               new := empty_store |} s).

(** [session.query(T).filter_by(...).first()]; no autoflush. *)
Definition query_first {R : Type} (T : Table R) (filter_by : R -> bool)
  : M (option R) :=
  fun s => (Ok (find filter_by (rows T (txn (db s)))), s).

(** *** quickbooks_client.py *)

Definition get_qb_client : M (option QuickBooks) :=
  let failed (e : Exn) : M (option QuickBooks) :=
    logger.error ("Failed to initialize QuickBooks client: " ++ exn_msg e) ;;
    logger.error "Please check your QB_... credentials in the .env file." ;;
    logger.error
      "If this is your first time, run 'python get_oauth_tokens.py' first." ;;
    ret None in
  match QuickBooks_connect with
  | inl e => failed e
  | inr client =>
      match CompanyInfo_all client with
      | inl e => failed e
      | inr company_info_list =>
          match company_info_list with
          | c :: _ =>
              logger.info
                ("QuickBooks connection successful for company: "
                 ++ qbo.CompanyName c ++ " (ID: "
                 ++ Py.fmt (config.QB_REALM_ID cfg) ++ ")")
          | [] =>
              logger.warning
                ("QuickBooks connection successful but could not fetch CompanyInfo (ID: "
                 ++ Py.fmt (config.QB_REALM_ID cfg) ++ ")")
          end ;;
          ret (Some client)
      end
  end.

(** The [while True] loop of [get_invoices]. *)
Fixpoint get_invoices_pages (fuel : nat) (client : QuickBooks)
    (query : string) (start_pos : Z) (all_invoices : list qbo.Invoice.t)
  : Result (list qbo.Invoice.t) :=
  match fuel with
  | O => Diverge
  | S fuel' =>
      let max_results := 100 in
      let paginated_query :=
        query ++ " STARTPOSITION " ++ Py.str start_pos
              ++ " MAXRESULTS " ++ Py.str max_results in
      match Invoice_query client paginated_query with
      | inl e => Raise e
      | inr [] => Ok all_invoices
      | inr invoices_batch =>
          get_invoices_pages fuel' client query (start_pos + max_results)
                             (all_invoices ++ invoices_batch)
      end
  end.

Definition get_invoices (client : QuickBooks) (start_date end_date : string)
    (limit : option Z) : M (list qbo.Invoice.t) :=
  let query :=
    "SELECT * FROM Invoice WHERE TxnDate >= '" ++ start_date
      ++ "' AND TxnDate <= '" ++ end_date ++ "'" in
  let failed (e : Exn) : M (list qbo.Invoice.t) :=
    logger.error ("Error fetching invoices from QB: " ++ exn_msg e) ;;
    ret [] in
  match Py.nonzero limit with
  | Some l =>
      let query := query ++ " MAXRESULTS " ++ Py.str l in
      match Invoice_query client query with
      | inl e => failed e
      | inr invoices =>
          logger.info ("QB: Found " ++ Py.str (Py.len invoices)
                       ++ " invoices (limit of " ++ Py.str l ++ ").") ;;
          ret invoices
      end
  | None =>
      match get_invoices_pages page_fuel client query 1 [] with
      | Diverge => fun s => (Diverge, s)
      | Raise e => failed e
      | Ok all_invoices =>
          logger.info ("QB: Found a total of "
                       ++ Py.str (Py.len all_invoices) ++ " invoices.") ;;
          ret all_invoices
      end
  end.

(** The [for txn in invoice.LinkedTxn] loop of [get_lpo_for_invoice]. *)
Fixpoint get_lpo_for_invoice_loop (client : QuickBooks)
    (txns : list qbo.LinkedTxn) : M (option qbo.PurchaseOrder.t) :=
  match txns with
  | [] => ret None
  | txn :: rest =>
      if (qbo.TxnType txn =? "PurchaseOrder")%string then
        let lpo_id := qbo.TxnId txn in
        match PurchaseOrder_get client lpo_id with
        | inr lpo => ret (Some lpo)
        | inl e =>
            logger.error ("QB: Error fetching linked LPO " ++ lpo_id
                          ++ ": " ++ exn_msg e) ;;
            ret None
        end
      else get_lpo_for_invoice_loop client rest
  end.

Definition get_lpo_for_invoice (client : QuickBooks)
    (invoice : qbo.Invoice.t) : M (option qbo.PurchaseOrder.t) :=
  match qbo.Invoice.LinkedTxn invoice with
  | [] => ret None
  | txns => get_lpo_for_invoice_loop client txns
  end.

Definition get_supplier (client : QuickBooks) (supplier_id : string)
  : M (option qbo.Vendor.t) :=
  match Supplier_get client supplier_id with
  | inr supplier => ret (Some supplier)
  | inl e =>
      logger.error ("QB: Error fetching Supplier " ++ supplier_id
                    ++ ": " ++ exn_msg e) ;;
      ret None
  end.

Definition get_material (client : QuickBooks) (item_id : string)
  : M (option qbo.Item.t) :=
  match Item_get client item_id with
  | inr item => ret (Some item)
  | inl e =>
      logger.error ("QB: Error fetching Item " ++ item_id
                    ++ ": " ++ exn_msg e) ;;
      ret None
  end.

Definition get_attachments (client : QuickBooks)
    (object_type object_id : string) : M (list qbo.Attachable.t) :=
  let query :=
    "SELECT * FROM Attachable WHERE AttachableRef.EntityRef.value = '"
      ++ object_id ++ "' AND AttachableRef.EntityRef.type = '"
      ++ object_type ++ "'" in
  match Attachable_where client query with
  | inr attachments => ret attachments
  | inl e =>
      logger.error ("QB: Error fetching attachments for " ++ object_type
                    ++ " " ++ object_id ++ ": " ++ exn_msg e) ;;
      ret []
  end.

(** [None], the content, or an exception that is not a
    [RequestException] and so escapes the function. *)
Definition download_attachment (client : QuickBooks)
    (attachment : qbo.Attachable.t) : M (option string) :=
  match Py.nonempty (qbo.Attachable.FileAccessUri attachment) with
  | None =>
      logger.warning ("QB: Attachment "
                      ++ Py.fmt (qbo.Attachable.FileName attachment)
                      ++ " has no FileAccessUri. Skipping.") ;;
      ret None
  | Some download_url =>
      let failed (e : Exn) : M (option string) :=
        if is_RequestException e then
          logger.error ("QB: Failed to download attachment "
                        ++ Py.fmt (qbo.Attachable.FileName attachment)
                        ++ ": " ++ exn_msg e) ;;
          ret None
        else raise e in
      match session_get client download_url with
      | inl e => failed e
      | inr response =>
          (* response.raise_for_status() *)
          if andb (400 <=? qbo.status_code response)
                  (qbo.status_code response <? 600)
          then failed {| exn_class := HTTPError;
                         exn_msg := Py.str (qbo.status_code response)
                                    ++ " Error for url: " ++ download_url |}
          else ret (Some (qbo.content response))
      end
  end.

(** *** import_script.py: helpers *)

Definition get_azure_blob_service_client : M (option BlobServiceClient) :=
  match Py.nonempty (config.AZURE_CONNECTION_STRING cfg) with
  | None =>
      logger.warning
        "Azure Connection String not configured. Cannot upload attachments." ;;
      ret None
  | Some connection_string =>
      match from_connection_string connection_string with
      | inr client => ret (Some client)
      | inl e =>
          logger.error ("Failed to connect to Azure Blob Storage: "
                        ++ exn_msg e) ;;
          ret None
      end
  end.

(** [str(uuid.uuid4())] *)
Definition uuid_uuid4 : M string :=
  fun s => (Ok (uuid4 (uuids s)), set_uuids (S (uuids s)) s).

Definition upload_attachment_to_azure
    (blob_service_client : option BlobServiceClient)
    (file_name file_content : string) : M (option string) :=
  match blob_service_client with
  | None =>
      logger.warning ("Skipping upload for " ++ file_name
                      ++ ": Blob service client is not available.") ;;
      ret None
  | Some client =>
      u <- uuid_uuid4 ;;
      let unique_file_name := u ++ "-" ++ file_name in
      let content_type :=
        if Py.endswith (Py.lower file_name) ".pdf" then "application/pdf"
        else if Py.endswith (Py.lower file_name) ".txt" then "text/plain"
        else if Py.endswith (Py.lower file_name) ".png" then "image/png"
        else if orb (Py.endswith (Py.lower file_name) ".jpg")
                    (Py.endswith (Py.lower file_name) ".jpeg")
             then "image/jpeg"
        else "application/octet-stream" in
      match upload_blob client (config.AZURE_CONTAINER_NAME cfg)
                        unique_file_name file_content content_type with
      | inr url => ret (Some url)
      | inl e =>
          logger.error ("Failed to upload attachment " ++ file_name
                        ++ " to Azure: " ++ exn_msg e) ;;
          ret None
      end
  end.

Definition get_or_create_supplier (qb_supplier : qbo.Vendor.t)
  : M models.Supplier.t :=
  match Py.nonempty (qbo.Vendor.DisplayName qb_supplier) with
  | None =>
      raise {| exn_class := ValueError;
               exn_msg := "QB Supplier ID " ++ qbo.Vendor.Id qb_supplier
                          ++ " has no DisplayName." |}
  | Some supplier_name =>
      db_supplier <-
        query_first tables.Supplier
          (fun r => (models.Supplier.name r =? supplier_name)%string) ;;
      match db_supplier with
      | Some db_supplier => ret db_supplier
      | None =>
          logger.info ("Creating new supplier: " ++ supplier_name) ;;
          new_supplier <-
            session_add tables.Supplier (fun id =>
              {| models.Supplier.id := id;
                 models.Supplier.name := supplier_name;
                 models.Supplier.email :=
                   match qbo.Vendor.PrimaryEmailAddr qb_supplier with
                   | Some a => qbo.Address a
                   | None => None
                   end;
                 models.Supplier.phone :=
                   match qbo.Vendor.PrimaryPhone qb_supplier with
                   | Some p => qbo.FreeFormNumber p
                   | None => None
                   end |}) ;;
          session_flush ;;   (* Flush to get the new ID *)
          ret new_supplier
      end
  end.

Definition get_or_create_material (qb_item : qbo.Item.t)
  : M models.Material.t :=
  match Py.nonempty (qbo.Item.Name qb_item) with
  | None =>
      raise {| exn_class := ValueError;
               exn_msg := "QB Item ID " ++ qbo.Item.Id qb_item
                          ++ " has no Name." |}
  | Some material_name =>
      db_material <-
        query_first tables.Material
          (fun r => (models.Material.name r =? material_name)%string) ;;
      match db_material with
      | Some db_material => ret db_material
      | None =>
          logger.info ("Creating new material: " ++ material_name) ;;
          let unit :=
            if Py.str_eq (qbo.Item.Type_ qb_item) "Service" then "service"
            else if Py.str_eq (qbo.Item.Type_ qb_item) "Inventory" then "each"
            else "nos" in
          new_material <-
            session_add tables.Material (fun id =>
              {| models.Material.id := id;
                 models.Material.name := material_name;
                 models.Material.unit := unit |}) ;;
          session_flush ;;   (* Flush to get the new ID *)
          ret new_material
      end
  end.

Definition get_default_project : M models.Project.t :=
  let project_name := "Default Imported Project" in
  db_project <-
    query_first tables.Project
      (fun r => (models.Project.name r =? project_name)%string) ;;
  match db_project with
  | Some db_project => ret db_project
  | None =>
      logger.info ("Creating '" ++ project_name ++ "'") ;;
      db_project <-
        session_add tables.Project (fun id =>
          {| models.Project.id := id; models.Project.name := project_name |}) ;;
      session_flush ;;
      ret db_project
  end.

Definition get_default_user : M models.User.t :=
  let admin_email := "import_admin@yourcompany.com" in
  db_user <-
    query_first tables.User
      (fun r => (models.User.email r =? admin_email)%string) ;;
  match db_user with
  | Some db_user => ret db_user
  | None =>
      logger.info ("Creating default user '" ++ admin_email ++ "'") ;;
      db_user <-
        session_add tables.User (fun id =>
          {| models.User.id := id;
             models.User.email := admin_email;
             models.User.hashed_password :=
               "!!!SET-A-DUMMY-PASSWORD-HERE!!!" |}) ;;
      session_flush ;;
      ret db_user
  end.

(** [detail.ItemRef.value] when [detail.ItemRef] and its value are set:
    the guard [if not detail.ItemRef or not detail.ItemRef.value]. *)
Definition item_ref_value (detail : qbo.LineDetail) : option string :=
  match qbo.ItemRef detail with
  | Some ref => Py.nonempty (qbo.value ref)
  | None => None
  end.

(** The tax rate of a line, as both item loops compute it: 5% when a tax
    code is attached and is not 'NON'. *)
Definition line_tax_rate (detail : qbo.LineDetail) : Decimal.t :=
  match qbo.TaxCodeRef detail with
  | Some ref =>
      if negb (Py.str_eq (qbo.value ref) "NON")
      then Decimal.mk 5 (-2)     (* Decimal("0.05") *)
      else Decimal.mk 0 (-2)     (* Decimal("0.00") *)
  | None => Decimal.mk 0 (-2)
  end.

(** What reading an attribute of [None] raises. *)
Definition none_has_no_attribute (attr : string) : Exn :=
  {| exn_class := AttributeError;
     exn_msg := "'NoneType' object has no attribute '" ++ attr ++ "'" |}.

(** [models.LPOItem(...)], lines 162-169; [id] is the key the row gets. *)
Definition new_lpo_item (line : qbo.Line) (detail : qbo.LineDetail)
    (tax_rate : Decimal.t) (db_lpo : models.LPO.t)
    (db_material : models.Material.t) (id : Z) : models.LPOItem.t :=
  {| models.LPOItem.id := id;
     models.LPOItem.description := qbo.Description line;
     models.LPOItem.quantity :=
       Decimal.or_else (qbo.Qty detail) (Decimal.mk 0 (-1));
     models.LPOItem.rate :=
       Decimal.or_else (qbo.UnitPrice detail) (Decimal.mk 0 (-1));
     models.LPOItem.tax_rate := tax_rate;
     models.LPOItem.lpo_id := Some (models.LPO.id db_lpo);
     models.LPOItem.material_id := Some (models.Material.id db_material) |}.

(** [models.InvoiceItem(...)], lines 195-203. *)
Definition new_invoice_item (line : qbo.Line) (detail : qbo.LineDetail)
    (tax_rate : Decimal.t) (db_invoice : models.Invoice.t)
    (db_material : models.Material.t) (id : Z) : models.InvoiceItem.t :=
  {| models.InvoiceItem.id := id;
     models.InvoiceItem.description := qbo.Description line;
     models.InvoiceItem.quantity :=
       Decimal.or_else (qbo.Qty detail) (Decimal.mk 0 (-1));
     models.InvoiceItem.rate :=
       Decimal.or_else (qbo.UnitPrice detail) (Decimal.mk 0 (-1));
     models.InvoiceItem.tax_rate := tax_rate;
     models.InvoiceItem.invoice_id := Some (models.Invoice.id db_invoice);
     models.InvoiceItem.material_id :=
       Some (models.Material.id db_material) |}.

(** The body of the loop of [process_lpo_items]. *)
Definition process_lpo_item (qb_client : QuickBooks) (db_lpo : models.LPO.t)
    (line : qbo.Line) : M unit :=
  if (qbo.DetailType line =? "ItemBasedExpenseLineDetail")%string then
    match qbo.ItemBasedExpenseLineDetail line with
    | None => raise (none_has_no_attribute "ItemRef")
    | Some detail =>
        match item_ref_value detail with
        | None =>
            logger.warning ("Skipping LPO item (no ItemRef): "
                            ++ Py.fmt (qbo.Description line))
        | Some item_id =>
            qb_item <- get_material qb_client item_id ;;
            match qb_item with
            | None =>
                logger.error ("Could not find QB Item " ++ item_id
                              ++ ". Skipping LPO item.")
            | Some qb_item =>
                db_material <- get_or_create_material qb_item ;;
                let tax_rate := line_tax_rate detail in
                session_add tables.LPOItem
                  (new_lpo_item line detail tax_rate db_lpo db_material) ;;
                ret tt
            end
        end
    end
  else ret tt.

Definition process_lpo_items (qb_client : QuickBooks)
    (qb_lpo : qbo.PurchaseOrder.t) (db_lpo : models.LPO.t) : M unit :=
  for_each (qbo.PurchaseOrder.Line qb_lpo) (process_lpo_item qb_client db_lpo).

(** The body of the loop of [process_invoice_items]. *)
Definition process_invoice_item (qb_client : QuickBooks)
    (db_invoice : models.Invoice.t) (line : qbo.Line) : M unit :=
  if (qbo.DetailType line =? "SalesItemLineDetail")%string then
    match qbo.SalesItemLineDetail line with
    | None => raise (none_has_no_attribute "ItemRef")
    | Some detail =>
        match item_ref_value detail with
        | None =>
            logger.warning ("Skipping Invoice item (no ItemRef): "
                            ++ Py.fmt (qbo.Description line))
        | Some item_id =>
            qb_item <- get_material qb_client item_id ;;
            match qb_item with
            | None =>
                logger.error ("Could not find QB Item " ++ item_id
                              ++ ". Skipping Invoice item.")
            | Some qb_item =>
                db_material <- get_or_create_material qb_item ;;
                let tax_rate := line_tax_rate detail in
                session_add tables.InvoiceItem
                  (new_invoice_item line detail tax_rate db_invoice
                                    db_material) ;;
                ret tt
            end
        end
    end
  else ret tt.

Definition process_invoice_items (qb_client : QuickBooks)
    (qb_invoice : qbo.Invoice.t) (db_invoice : models.Invoice.t) : M unit :=
  for_each (qbo.Invoice.Line qb_invoice)
           (process_invoice_item qb_client db_invoice).

(** The body of the loop of [process_attachments]; [db_object] is the
    primary key of the owning row. *)
Definition process_attachment (qb_client : QuickBooks)
    (blob_service_client : option BlobServiceClient)
    (qb_object_type qb_object_id : string) (db_object : Z)
    (att : qbo.Attachable.t) : M unit :=
  match Py.nonempty (qbo.Attachable.FileName att) with
  | None =>
      logger.warning ("Skipping attachment for " ++ qb_object_type ++ " "
                      ++ qb_object_id ++ ": No file name.")
  | Some file_name =>
      file_content <- download_attachment qb_client att ;;
      match Py.nonempty file_content with
      | None => ret tt   (* Download failed, already logged *)
      | Some file_content =>
          blob_url <- upload_attachment_to_azure blob_service_client
                                                 file_name file_content ;;
          match Py.nonempty blob_url with
          | None => ret tt   (* Upload failed, already logged *)
          | Some blob_url =>
              if (qb_object_type =? "PurchaseOrder")%string then
                session_add tables.LPOAttachment (fun id =>
                  {| models.LPOAttachment.id := id;
                     models.LPOAttachment.blob_url := blob_url;
                     models.LPOAttachment.file_name := Some file_name;
                     models.LPOAttachment.lpo_id := Some db_object |}) ;;
                ret tt
              else if (qb_object_type =? "Invoice")%string then
                session_add tables.InvoiceAttachment (fun id =>
                  {| models.InvoiceAttachment.id := id;
                     models.InvoiceAttachment.blob_url := blob_url;
                     models.InvoiceAttachment.file_name := Some file_name;
                     models.InvoiceAttachment.invoice_id := Some db_object |}) ;;
                ret tt
              else ret tt
          end
      end
  end.

Definition process_attachments (qb_client : QuickBooks)
    (blob_service_client : option BlobServiceClient)
    (qb_object_type qb_object_id : string) (db_object : Z) : M unit :=
  qb_attachments <- get_attachments qb_client qb_object_type qb_object_id ;;
  for_each qb_attachments
    (process_attachment qb_client blob_service_client
                        qb_object_type qb_object_id db_object).

(** *** import_script.py: [process_imports] *)

(** [x.TxnTaxDetail.TotalTax if x.TxnTaxDetail else 0] *)
Definition total_tax (detail : option qbo.TxnTaxDetail) : Decimal.t :=
  match detail with
  | Some d => qbo.TotalTax d
  | None => Decimal.of_int 0
  end.

(** [models.LPO(...)], lines 330-343; [id] is the key the row gets. *)
Definition new_lpo (qb_lpo : qbo.PurchaseOrder.t) (lpo_number : string)
    (db_supplier : models.Supplier.t) (default_project : models.Project.t)
    (default_user : models.User.t) (id : Z) : models.LPO.t :=
  {| models.LPO.id := id;
     models.LPO.lpo_number := lpo_number;
     models.LPO.lpo_date := qbo.PurchaseOrder.TxnDate qb_lpo;
     models.LPO.status := qbo.PurchaseOrder.POStatus qb_lpo;
     models.LPO.subtotal :=
       Decimal.sub (qbo.PurchaseOrder.TotalAmt qb_lpo)
                   (total_tax (qbo.PurchaseOrder.TxnTaxDetail qb_lpo));
     models.LPO.tax_total :=
       total_tax (qbo.PurchaseOrder.TxnTaxDetail qb_lpo);
     models.LPO.grand_total := qbo.PurchaseOrder.TotalAmt qb_lpo;
     models.LPO.message_to_supplier := qbo.PurchaseOrder.PrivateNote qb_lpo;
     models.LPO.memo := qbo.PurchaseOrder.Memo qb_lpo;
     models.LPO.payment_mode := None;
     models.LPO.supplier_id := Some (models.Supplier.id db_supplier);
     models.LPO.project_id := Some (models.Project.id default_project);
     models.LPO.created_by_id := Some (models.User.id default_user) |}.

(** [models.Invoice(...)], lines 362-377. *)
Definition new_invoice (qb_invoice : qbo.Invoice.t) (invoice_number : string)
    (db_lpo : models.LPO.t) (id : Z) : models.Invoice.t :=
  {| models.Invoice.id := id;
     models.Invoice.invoice_number := invoice_number;
     models.Invoice.invoice_date := qbo.Invoice.TxnDate qb_invoice;
     models.Invoice.invoice_due_date := qbo.Invoice.DueDate qb_invoice;
     models.Invoice.lpo_id := Some (models.LPO.id db_lpo);
     models.Invoice.status :=
       if Decimal.is_zero (qbo.Invoice.Balance qb_invoice)
       then "Paid" else "Pending";
     models.Invoice.subtotal :=
       Decimal.sub (qbo.Invoice.TotalAmt qb_invoice)
                   (total_tax (qbo.Invoice.TxnTaxDetail qb_invoice));
     models.Invoice.tax_total :=
       total_tax (qbo.Invoice.TxnTaxDetail qb_invoice);
     models.Invoice.grand_total := qbo.Invoice.TotalAmt qb_invoice;
     models.Invoice.message_to_customer := qbo.Invoice.CustomerMemo qb_invoice;
     models.Invoice.memo := qbo.Invoice.PrivateNote qb_invoice;
     models.Invoice.payment_mode := None;
     models.Invoice.supplier_id := models.LPO.supplier_id db_lpo;
     models.Invoice.project_id := models.LPO.project_id db_lpo;
     models.Invoice.created_by_id := models.LPO.created_by_id db_lpo |}.

(** Lines 318-354: the branch [if not db_lpo] of [process_imports]. *)
Definition create_lpo (qb_client : QuickBooks)
    (blob_service_client : option BlobServiceClient)
    (default_project : models.Project.t) (default_user : models.User.t)
    (qb_lpo : qbo.PurchaseOrder.t) (lpo_number : string) : M models.LPO.t :=
  logger.info ("LPO " ++ lpo_number ++ " not found. Creating new LPO.") ;;
  match match qbo.PurchaseOrder.VendorRef qb_lpo with
        | Some ref => Py.nonempty (qbo.value ref)
        | None => None
        end with
  | None =>
      raise {| exn_class := Exception;
               exn_msg := "LPO " ++ lpo_number
                          ++ " has no Supplier (VendorRef)." |}
  | Some vendor_id =>
      qb_supplier <- get_supplier qb_client vendor_id ;;
      match qb_supplier with
      | None =>
          raise {| exn_class := Exception;
                   exn_msg := "Supplier ID " ++ vendor_id
                              ++ " not found in QB." |}
      | Some qb_supplier =>
          db_supplier <- get_or_create_supplier qb_supplier ;;
          db_lpo <-
            session_add tables.LPO
              (new_lpo qb_lpo lpo_number db_supplier
                       default_project default_user) ;;
          process_lpo_items qb_client qb_lpo db_lpo ;;
          process_attachments qb_client blob_service_client "PurchaseOrder"
            (qbo.PurchaseOrder.Id qb_lpo) (models.LPO.id db_lpo) ;;
          (* flush so the LPO gets an ID before the Invoice uses it *)
          session_flush ;;
          logger.info ("Successfully created new LPO " ++ lpo_number
                       ++ " (ID: " ++ Py.str (models.LPO.id db_lpo) ++ ")") ;;
          ret db_lpo
      end
  end.

(** Lines 292-389: the body of the inner [try] of [process_imports]. *)
Definition import_invoice (qb_client : QuickBooks)
    (blob_service_client : option BlobServiceClient)
    (default_project : models.Project.t) (default_user : models.User.t)
    (qb_invoice : qbo.Invoice.t) (invoice_number : string) : M unit :=
  existing_invoice <-
    query_first tables.Invoice
      (fun r => (models.Invoice.invoice_number r =? invoice_number)%string) ;;
  match existing_invoice with
  | Some _ =>
      logger.warning ("Skipping Invoice " ++ invoice_number
                      ++ ": Already exists in database.") ;;
      incr_skipped
  | None =>
      qb_lpo <- get_lpo_for_invoice qb_client qb_invoice ;;
      match qb_lpo with
      | None =>
          logger.warning ("Skipping Invoice " ++ invoice_number
                          ++ ": No related LPO (PurchaseOrder) found in QB.") ;;
          incr_skipped
      | Some qb_lpo =>
          match Py.nonempty (qbo.PurchaseOrder.DocNumber qb_lpo) with
          | None =>
              logger.warning ("Skipping Invoice " ++ invoice_number
                              ++ ": Linked LPO " ++ qbo.PurchaseOrder.Id qb_lpo
                              ++ " has no LPO Number (DocNumber).") ;;
              incr_skipped
          | Some lpo_number =>
              db_lpo <-
                query_first tables.LPO
                  (fun r => (models.LPO.lpo_number r =? lpo_number)%string) ;;
              db_lpo <-
                match db_lpo with
                | None =>
                    create_lpo qb_client blob_service_client
                               default_project default_user qb_lpo lpo_number
                | Some db_lpo =>
                    logger.info ("Found existing LPO " ++ lpo_number
                                 ++ " (ID: " ++ Py.str (models.LPO.id db_lpo)
                                 ++ "). Linking to it.") ;;
                    ret db_lpo
                end ;;
              logger.info ("Creating new Invoice " ++ invoice_number) ;;
              db_invoice <-
                session_add tables.Invoice
                  (new_invoice qb_invoice invoice_number db_lpo) ;;
              process_invoice_items qb_client qb_invoice db_invoice ;;
              process_attachments qb_client blob_service_client "Invoice"
                (qbo.Invoice.Id qb_invoice) (models.Invoice.id db_invoice) ;;
              (* Commit this one transaction (Invoice + new LPO if any) *)
              session_commit ;;
              logger.info ("--- SUCCESSFULLY IMPORTED INVOICE "
                           ++ invoice_number ++ " ---") ;;
              incr_success
          end
      end
  end.

(** Lines 391-396: the handler of the inner [try]. *)
Definition invoice_failed (invoice_number : string) (e : Exn) : M unit :=
  logger.error ("--- FAILED to process Invoice " ++ invoice_number ++ ": "
                ++ exn_msg e ++ " ---") ;;
  logger.error (format_exc e) ;;
  session_rollback ;;   (* Roll back changes for this specific invoice *)
  incr_fail.

(** Lines 285-396: the body of [for qb_invoice in qb_invoices]. *)
Definition process_invoice (qb_client : QuickBooks)
    (blob_service_client : option BlobServiceClient)
    (default_project : models.Project.t) (default_user : models.User.t)
    (qb_invoice : qbo.Invoice.t) : M unit :=
  match Py.nonempty (qbo.Invoice.DocNumber qb_invoice) with
  | None =>
      logger.warning ("Skipping QB Invoice ID " ++ qbo.Invoice.Id qb_invoice
                      ++ ": It has no Invoice Number (DocNumber).") ;;
      incr_skipped
  | Some invoice_number =>
      try_except
        (import_invoice qb_client blob_service_client
                        default_project default_user qb_invoice invoice_number)
        (invoice_failed invoice_number)
  end.

(** Lines 253-254: [datetime.date(2025, 4, 1)] and
    [datetime.date(2025, 9, 30)] as f-strings print them. *)
Definition start_date : string := "2025-04-01".
Definition end_date : string := "2025-09-30".

(** Lines 403-406: the [finally] block. *)
Definition finish : M unit :=
  session_close ;;
  logger.info "--- Import Process Finished ---" ;;
  fun s =>
    logger.info ("Summary: " ++ Py.str (success_count s) ++ " Succeeded, "
                 ++ Py.str (skipped_count s) ++ " Skipped, "
                 ++ Py.str (fail_count s) ++ " Failed.") s.

(** Lines 276-396: the body of the outer [try]. *)
Definition import_all (qb_client : QuickBooks)
    (blob_service_client : option BlobServiceClient) (limit : option Z)
  : M unit :=
  (* Get default user/project to assign all items to *)
  default_project <- get_default_project ;;
  default_user <- get_default_user ;;
  (* 1. Fetch Invoices from QuickBooks *)
  qb_invoices <- get_invoices qb_client start_date end_date limit ;;
  logger.info ("Found " ++ Py.str (Py.len qb_invoices)
               ++ " invoices in QB to process.") ;;
  for_each qb_invoices
    (process_invoice qb_client blob_service_client
                     default_project default_user).

(** Lines 398-402: the handler of the outer [try]. *)
Definition critical_error (e : Exn) : M unit :=
  logger.critical ("A critical error occurred: " ++ exn_msg e
                   ++ ". Rolling back any pending changes.") ;;
  logger.critical (format_exc e) ;;
  session_rollback.

Definition process_imports (limit : option Z) : M unit :=
  if negb (config.all_qb_keys_present cfg) then
    logger.critical "Missing QuickBooks credentials in .env file." ;;
    logger.critical
      "Please run 'python get_oauth_tokens.py' first and copy the tokens to .env"
  else
    logger.info "--- Starting Import Process ---" ;;
    logger.info ("Fetching Invoices from " ++ start_date
                 ++ " to " ++ end_date) ;;
    match Py.nonzero limit with
    | Some l =>
        logger.warning ("*** TEST MODE: Importing at most " ++ Py.str l
                        ++ " invoices. ***")
    | None => ret tt
    end ;;
    SessionLocal ;;
    blob_service_client <- get_azure_blob_service_client ;;
    qb_client <- get_qb_client ;;
    match qb_client with
    | None =>
        logger.critical "Failed to connect to QuickBooks. Exiting." ;;
        session_close
    | Some qb_client =>
        (fun s => (Ok tt, set_counts 0 0 0 s)) ;;
        try_finally
          (try_except (import_all qb_client blob_service_client limit)
                      critical_error)
          finish
    end.

(** The script itself ([if __name__ == "__main__":]): it parses [--limit]
    and calls [process_imports]; nothing in it calls [sys.exit], so the
    interpreter ends with status 0 when the call returns and with status 1
    when an exception escapes it. *)
Definition main (limit : option Z) : M Z :=
  fun s =>
    match process_imports limit s with
    | (Ok _, s') => (Ok 0, s')
    | (Raise _, s') => (Ok 1, s')
    | (Diverge, s') => (Diverge, s')
    end.

(** ** Vocabulary of the properties *)

(** Every row the session holds: inserted by a flush or still pending. *)
Definition all (d : Session) : Store := store_app (txn d) (new d).

(** The store whose only rows are the rows [l] of table [T]. *)
Definition only {R : Type} (T : Table R) (l : list R) : Store :=
  with_rows T l empty_store.

(** The three counters of the summary. *)
Definition counts (s : State) : Z * Z * Z :=
  (success_count s, skipped_count s, fail_count s).




(** The first linked transaction of type 'PurchaseOrder'. *)
Definition first_purchase_order (txns : list qbo.LinkedTxn)
  : option qbo.LinkedTxn :=
  find (fun txn => (qbo.TxnType txn =? "PurchaseOrder")%string) txns.

(** The value [get_lpo_for_invoice] returns. *)
Definition linked_lpo (client : QuickBooks) (invoice : qbo.Invoice.t)
  : option qbo.PurchaseOrder.t :=
  match first_purchase_order (qbo.Invoice.LinkedTxn invoice) with
  | Some txn =>
      match PurchaseOrder_get client (qbo.TxnId txn) with
      | inr lpo => Some lpo
      | inl _ => None
      end
  | None => None
  end.

(** What [get_lpo_for_invoice] logs. *)
Definition linked_lpo_log (client : QuickBooks) (invoice : qbo.Invoice.t)
  : list (Level * string) :=
  match first_purchase_order (qbo.Invoice.LinkedTxn invoice) with
  | Some txn =>
      match PurchaseOrder_get client (qbo.TxnId txn) with
      | inr _ => []
      | inl e =>
          [(ERROR, "QB: Error fetching linked LPO " ++ qbo.TxnId txn
                   ++ ": " ++ exn_msg e)]
      end
  | None => []
  end.

(** The four skip conditions of the loop body, over the invoice rows the
    transaction sees. *)
Definition skips (client : QuickBooks) (seen : list models.Invoice.t)
    (invoice : qbo.Invoice.t) : bool :=
  match Py.nonempty (qbo.Invoice.DocNumber invoice) with
  | None => true
  | Some n =>
      match find (fun r => (models.Invoice.invoice_number r =? n)%string)
                 seen with
      | Some _ => true
      | None =>
          match linked_lpo client invoice with
          | None => true
          | Some lpo =>
              match Py.nonempty (qbo.PurchaseOrder.DocNumber lpo) with
              | None => true
              | Some _ => false
              end
          end
      end
  end.

(** The NOT NULL foreign keys of [lpos] in models.py. *)
Definition lpo_not_null (l : models.LPO.t) : Prop :=
  models.LPO.supplier_id l <> None /\
  models.LPO.project_id l <> None /\
  models.LPO.created_by_id l <> None.

(** An invoice row linked to a purchase order of [orders] and carrying
    that order's supplier, project and user, none of them null. *)
Definition linked_to_order (orders : list models.LPO.t)
    (r : models.Invoice.t) : Prop :=
  exists l,
    In l orders /\
    models.Invoice.lpo_id r = Some (models.LPO.id l) /\
    models.Invoice.supplier_id r = models.LPO.supplier_id l /\
    models.Invoice.project_id r = models.LPO.project_id l /\
    models.Invoice.created_by_id r = models.LPO.created_by_id l /\
    models.Invoice.supplier_id r <> None /\
    models.Invoice.project_id r <> None /\
    models.Invoice.created_by_id r <> None.

(** The laws of a table: adding rows to it is appending a store that holds
    only them. *)
Definition table_law {R : Type} (T : Table R) : Prop :=
  forall (l : list R) (s : Store),
    with_rows T (rows T s ++ l) s = store_app s (only T l).

(** A computation that only reads and logs: it returns [v] from every
    state and leaves the session and the counters as they are. *)
Definition reads_only {A : Type} (m : M A) (v : A) : Prop :=
  forall s, exists s',
    m s = (Ok v, s') /\ db s' = db s /\ counts s' = counts s.

(** The session [config.SessionLocal()] opens on the committed rows of
    [d]. *)
Definition opened (d : Session) : Session :=
  {| committed := committed d; txn := committed d; new := empty_store |}.

(** The filters of [get_default_project] and [get_default_user]. *)
Definition is_default_project (r : models.Project.t) : bool :=
  (models.Project.name r =? "Default Imported Project")%string.

Definition is_default_user (r : models.User.t) : bool :=
  (models.User.email r =? "import_admin@yourcompany.com")%string.

(** The state of the session between two invoices of the loop, as far as
    the header tables go: nothing is pending and the transaction sees the
    committed headers only; the purchase orders respect the NOT NULL
    constraints; every invoice row is one of [before] or is linked to its
    order. *)
Definition headers_linked (before : list models.Invoice.t) (s : State)
  : Prop :=
  new (db s) = empty_store /\
  lpos (txn (db s)) = lpos (committed (db s)) /\
  invoices (txn (db s)) = invoices (committed (db s)) /\
  Forall lpo_not_null (lpos (committed (db s))) /\
  forall r, In r (invoices (committed (db s))) ->
    In r before \/ linked_to_order (lpos (committed (db s))) r.

(** What a helper of the loop body may do to the state: it leaves the
    committed rows and the counters alone, it terminates, and when it
    returns [a] the rows it added form a store [x] with [Q a x]. *)
Definition frame (s s' : State) : Prop :=
  committed (db s') = committed (db s) /\ counts s' = counts s.

Definition helper {A : Type} (m : M A) (Q : A -> Store -> Prop) : Prop :=
  forall s r s',
    m s = (r, s') ->
    frame s s' /\ r <> Diverge /\
    forall a, r = Ok a ->
      exists x, Q a x /\ all (db s') = store_app (all (db s)) x.

(** The rows an imported invoice adds: its header, and the header of its
    purchase order when that order was not in the database yet. *)
Definition imports (qb_invoice : qbo.Invoice.t) (invoice_number : string)
    (qb_lpo : qbo.PurchaseOrder.t) (lpo_number : string)
    (default_project : models.Project.t) (default_user : models.User.t)
    (seen : list models.LPO.t) (db_lpo : models.LPO.t) (x : Store) : Prop :=
  (exists id, invoices x = [new_invoice qb_invoice invoice_number db_lpo id]) /\
  ((find (fun r => (models.LPO.lpo_number r =? lpo_number)%string) seen
      = Some db_lpo /\ lpos x = []) \/
   (find (fun r => (models.LPO.lpo_number r =? lpo_number)%string) seen
      = None /\ lpos x = [db_lpo] /\
    exists db_supplier id,
      db_lpo = new_lpo qb_lpo lpo_number db_supplier
                       default_project default_user id)).

(** A computation that ends in the commit of the transaction: it
    terminates; when it raises, the committed rows and the counters are
    untouched; when it returns, the session holds nothing uncommitted,
    the rows [x] it added are committed with [Q x], and one more success
    is counted. *)
Definition commits (m : M unit) (Q : Store -> Prop) : Prop :=
  forall s r s',
    m s = (r, s') ->
    match r with
    | Diverge => False
    | Raise _ => frame s s'
    | Ok _ =>
        exists x,
          Q x /\
          committed (db s') = store_app (all (db s)) x /\
          txn (db s') = committed (db s') /\
          new (db s') = empty_store /\
          counts s' = (success_count s + 1, skipped_count s, fail_count s)
    end.

(** Rows of neither header table. *)
Definition no_headers (x : Store) : Prop :=
  invoices x = [] /\ lpos x = [].

(** What resolving a default row does to a session with nothing pending. *)
Definition default_resolved (s : State) {A : Type} (r : Result A) (s' : State)
  : Prop :=
  match r with
  | Ok _ =>
      committed (db s') = committed (db s) /\ counts s' = counts s /\
      new (db s') = empty_store /\
      exists y, txn (db s') = store_app (txn (db s)) y /\ no_headers y
  | Raise _ => committed (db s') = committed (db s) /\ counts s' = counts s
  | Diverge => False
  end.

(** Rows that leave the purchase orders as they are: no supplier, order,
    order line or order attachment among them. *)
Definition order_untouched (x : Store) : Prop :=
  suppliers x = [] /\ lpos x = [] /\ lpo_items x = [] /\
  lpo_attachments x = [].

(** The business keys of the two header tables are pairwise distinct:
    no two invoice rows share an invoice number, no two purchase orders a
    document number. *)
Definition numbers_unique (x : Store) : Prop :=
  NoDup (map models.Invoice.invoice_number (invoices x)) /\
  NoDup (map models.LPO.lpo_number (lpos x)).

(** A property of added rows that holds of no row added and survives
    adding more. *)
Definition closed (P : Store -> Prop) : Prop :=
  P empty_store /\ forall a b, P a -> P b -> P (store_app a b).

(** ** Lemmas on stores and sessions *)

Lemma store_app_assoc (a b c : Store) :
  store_app (store_app a b) c = store_app a (store_app b c).
Proof. unfold store_app; simpl. now rewrite <- !app_assoc. Qed.

Lemma store_app_empty_r (a : Store) : store_app a empty_store = a.
Proof. destruct a; unfold store_app; simpl. now rewrite !app_nil_r. Qed.

Lemma store_app_empty_l (a : Store) : store_app empty_store a = a.
Proof. now destruct a. Qed.

Lemma closed_no_headers : closed no_headers.
Proof.
  split; [now split|].
  intros a b [Ha1 Ha2] [Hb1 Hb2]; split; simpl.
  - now rewrite Ha1, Hb1.
  - now rewrite Ha2, Hb2.
Qed.

Ltac table_law_tac :=
  intros l s; destruct s; unfold only, store_app; simpl;
  now rewrite ?app_nil_r.

Lemma law_Supplier : table_law tables.Supplier.
Proof. table_law_tac. Qed.
Lemma law_Material : table_law tables.Material.
Proof. table_law_tac. Qed.
Lemma law_Project : table_law tables.Project.
Proof. table_law_tac. Qed.
Lemma law_User : table_law tables.User.
Proof. table_law_tac. Qed.
Lemma law_LPO : table_law tables.LPO.
Proof. table_law_tac. Qed.
Lemma law_LPOItem : table_law tables.LPOItem.
Proof. table_law_tac. Qed.
Lemma law_LPOAttachment : table_law tables.LPOAttachment.
Proof. table_law_tac. Qed.
Lemma law_Invoice : table_law tables.Invoice.
Proof. table_law_tac. Qed.
Lemma law_InvoiceItem : table_law tables.InvoiceItem.
Proof. table_law_tac. Qed.
Lemma law_InvoiceAttachment : table_law tables.InvoiceAttachment.
Proof. table_law_tac. Qed.

Create HintDb tables.
#[local] Hint Resolve law_Supplier law_Material law_Project law_User law_LPO
  law_LPOItem law_LPOAttachment law_Invoice law_InvoiceItem
  law_InvoiceAttachment : tables.

(** ** Lemmas on the monad *)

Lemma bind_inv {A B : Type} (m : M A) (k : A -> M B) s r s' :
  bind m k s = (r, s') ->
  (exists a s1, m s = (Ok a, s1) /\ k a s1 = (r, s')) \/
  (exists e, m s = (Raise e, s') /\ r = Raise e) \/
  (m s = (Diverge, s') /\ r = Diverge).
Proof.
  unfold bind. destruct (m s) as [[a|e|] s1]; intros H.
  - left. now exists a, s1.
  - right; left. inversion H; subst. now exists e.
  - right; right. now inversion H.
Qed.

Lemma bind_ok {A B : Type} (m : M A) (k : A -> M B) s a s1 :
  m s = (Ok a, s1) -> bind m k s = k a s1.
Proof. unfold bind. now intros ->. Qed.

Lemma frame_refl s : frame s s.
Proof. now split. Qed.

Lemma frame_trans s1 s2 s3 : frame s1 s2 -> frame s2 s3 -> frame s1 s3.
Proof. intros [A B] [C D]. split; congruence. Qed.

Lemma helper_weaken {A : Type} (m : M A) (Q Q' : A -> Store -> Prop) :
  helper m Q -> (forall a x, Q a x -> Q' a x) -> helper m Q'.
Proof.
  intros H W s r s' E. destruct (H s r s' E) as (F & D & K).
  repeat split; try apply F; auto.
  intros a ->. destruct (K a eq_refl) as (x & Qx & Ex). eauto.
Qed.

Lemma helper_ret {A : Type} (a : A) (Q : A -> Store -> Prop) :
  Q a empty_store -> helper (ret a) Q.
Proof.
  intros HQ s r s' E. inversion E; subst. split; [apply frame_refl|].
  split; [discriminate|]. intros b Hb. inversion Hb; subst.
  exists empty_store. now rewrite store_app_empty_r.
Qed.

Lemma helper_raise {A : Type} (e : Exn) (Q : A -> Store -> Prop) :
  helper (raise e) Q.
Proof.
  intros s r s' E. inversion E; subst. split; [apply frame_refl|].
  split; discriminate.
Qed.

Lemma helper_bind {A B : Type} (m : M A) (k : A -> M B)
    (Q1 : A -> Store -> Prop) (Q2 : A -> B -> Store -> Prop)
    (Q : B -> Store -> Prop) :
  helper m Q1 ->
  (forall a, helper (k a) (Q2 a)) ->
  (forall a b x1 x2, Q1 a x1 -> Q2 a b x2 -> Q b (store_app x1 x2)) ->
  helper (bind m k) Q.
Proof.
  intros Hm Hk HQ s r s' E.
  destruct (bind_inv _ _ _ E) as [(a & s1 & E1 & E2)|[(e & E1 & ->)|(E1 & ->)]].
  - destruct (Hm _ _ _ E1) as (F1 & _ & K1).
    destruct (Hk a _ _ _ E2) as (F2 & D2 & K2).
    split; [eapply frame_trans; eauto|]. split; [assumption|].
    intros b ->. destruct (K1 a eq_refl) as (x1 & Q1x & X1).
    destruct (K2 b eq_refl) as (x2 & Q2x & X2).
    exists (store_app x1 x2). split; [eauto|].
    now rewrite X2, X1, store_app_assoc.
  - destruct (Hm _ _ _ E1) as (F1 & _ & _). split; [assumption|].
    split; discriminate.
  - destruct (Hm _ _ _ E1) as (_ & D & _). now elim D.
Qed.

(** The same for helpers whose added rows all satisfy one closed
    property. *)
Lemma helper_seq {A B : Type} (P : Store -> Prop) (m : M A) (k : A -> M B) :
  closed P ->
  helper m (fun _ => P) ->
  (forall a, helper (k a) (fun _ => P)) ->
  helper (bind m k) (fun _ => P).
Proof.
  intros [_ C] Hm Hk.
  apply helper_bind with (Q1 := fun _ => P) (Q2 := fun _ _ => P); auto.
Qed.

Lemma helper_unit {A : Type} (P : Store -> Prop) (a : A) :
  closed P -> helper (ret a) (fun _ => P).
Proof. intros [E _]. now apply helper_ret. Qed.

Lemma helper_emit (P : Store -> Prop) lvl msg :
  closed P -> helper (logger.emit lvl msg) (fun _ => P).
Proof.
  intros [E _] s r s' H. inversion H; subst.
  split; [now split|]. split; [discriminate|].
  intros a _. exists empty_store. split; [assumption|].
  simpl. now rewrite store_app_empty_r.
Qed.

Lemma helper_uuid (P : Store -> Prop) :
  closed P -> helper uuid_uuid4 (fun _ => P).
Proof.
  intros [E _] s r s' H. inversion H; subst.
  split; [now split|]. split; [discriminate|].
  intros a _. exists empty_store. split; [assumption|].
  simpl. now rewrite store_app_empty_r.
Qed.

Lemma helper_query_first {R : Type} (P : Store -> Prop) (T : Table R) p :
  closed P -> helper (query_first T p) (fun _ => P).
Proof.
  intros [E _] s r s' H. inversion H; subst.
  split; [apply frame_refl|]. split; [discriminate|].
  intros a _. exists empty_store. split; [assumption|].
  now rewrite store_app_empty_r.
Qed.

Lemma helper_flush (P : Store -> Prop) :
  closed P -> helper session_flush (fun _ => P).
Proof.
  intros [E _] s r s' H. unfold session_flush in H.
  destruct (engine_rejects (txn (db s)) (new (db s))); inversion H; subst.
  - split; [apply frame_refl|]. split; discriminate.
  - split; [now split|]. split; [discriminate|].
    intros a _. exists empty_store. split; [assumption|].
    unfold all; simpl. now rewrite !store_app_empty_r.
Qed.

Lemma helper_add {R : Type} (T : Table R) (obj : Z -> R) :
  table_law T ->
  helper (session_add T obj)
         (fun r x => x = only T [r] /\ exists id, r = obj id).
Proof.
  intros L s r s' H. unfold session_add in H. inversion H; subst; clear H.
  split; [now split|]. split; [discriminate|].
  intros a Ha. inversion Ha; subst; clear Ha.
  eexists. split; [split; [reflexivity|eauto]|].
  unfold all; simpl. now rewrite L, store_app_assoc.
Qed.

Lemma helper_add_closed {R : Type} (P : Store -> Prop) (T : Table R)
    (obj : Z -> R) :
  table_law T -> (forall r, P (only T [r])) ->
  helper (session_add T obj) (fun _ => P).
Proof.
  intros L HP. eapply helper_weaken; [apply helper_add, L|].
  intros a x [-> _]. apply HP.
Qed.

Lemma helper_for_each {A : Type} (P : Store -> Prop) (xs : list A)
    (body : A -> M unit) :
  closed P ->
  (forall x, helper (body x) (fun _ => P)) ->
  helper (for_each xs body) (fun _ => P).
Proof.
  intros C Hb. induction xs as [|x xs IH]; simpl.
  - now apply helper_unit.
  - apply helper_seq; auto.
Qed.

(** ** The helpers of the loop body only add rows *)

Ltac helper_tac C :=
  cbv zeta;
  repeat first
    [ apply helper_seq; [exact C | | intros ?]
    | apply helper_unit; exact C
    | apply helper_raise
    | apply helper_emit; exact C
    | apply helper_uuid; exact C
    | apply helper_query_first; exact C
    | apply helper_flush; exact C
    | apply helper_for_each; [exact C | intros ?]
    | match goal with
      | |- helper (match ?x with _ => _ end) _ => destruct x
      | |- helper (if ?x then _ else _) _ => destruct x
      end ].

Section Helpers.

Variable P : Store -> Prop.
Hypothesis C : closed P.

Lemma helper_get_supplier client supplier_id :
  helper (get_supplier client supplier_id) (fun _ => P).
Proof. unfold get_supplier. helper_tac C. Qed.

Lemma helper_get_material client item_id :
  helper (get_material client item_id) (fun _ => P).
Proof. unfold get_material. helper_tac C. Qed.

Lemma helper_get_attachments client object_type object_id :
  helper (get_attachments client object_type object_id) (fun _ => P).
Proof. unfold get_attachments. helper_tac C. Qed.

Lemma helper_download_attachment client attachment :
  helper (download_attachment client attachment) (fun _ => P).
Proof. unfold download_attachment. helper_tac C. Qed.

Lemma helper_upload_attachment_to_azure blob file_name file_content :
  helper (upload_attachment_to_azure blob file_name file_content)
         (fun _ => P).
Proof. unfold upload_attachment_to_azure. helper_tac C. Qed.

Lemma helper_get_lpo_for_invoice client invoice :
  helper (get_lpo_for_invoice client invoice) (fun _ => P).
Proof.
  unfold get_lpo_for_invoice.
  assert (L : forall txns,
             helper (get_lpo_for_invoice_loop client txns) (fun _ => P)).
  { induction txns as [|txn rest IH]; simpl; helper_tac C. exact IH. }
  destruct (qbo.Invoice.LinkedTxn invoice); [helper_tac C|apply L].
Qed.

Lemma helper_get_or_create_supplier qb_supplier :
  (forall r, P (only tables.Supplier [r])) ->
  helper (get_or_create_supplier qb_supplier) (fun _ => P).
Proof.
  intros HP. unfold get_or_create_supplier. helper_tac C.
  apply helper_add_closed; auto with tables.
Qed.

Lemma helper_get_or_create_material qb_item :
  (forall r, P (only tables.Material [r])) ->
  helper (get_or_create_material qb_item) (fun _ => P).
Proof.
  intros HP. unfold get_or_create_material. helper_tac C.
  apply helper_add_closed; auto with tables.
Qed.

Lemma helper_process_attachments client blob object_type object_id db_object :
  (forall r, P (only tables.LPOAttachment [r])) ->
  (forall r, P (only tables.InvoiceAttachment [r])) ->
  helper (process_attachments client blob object_type object_id db_object)
         (fun _ => P).
Proof.
  intros H1 H2. unfold process_attachments.
  apply helper_seq; [exact C|apply helper_get_attachments|intros atts].
  apply helper_for_each; [exact C|intros att].
  unfold process_attachment.
  destruct (Py.nonempty (qbo.Attachable.FileName att)); [|helper_tac C].
  apply helper_seq; [exact C|apply helper_download_attachment|intros fc].
  destruct (Py.nonempty fc); [|helper_tac C].
  apply helper_seq;
    [exact C|apply helper_upload_attachment_to_azure|intros url].
  helper_tac C; apply helper_add_closed; auto with tables.
Qed.

Lemma helper_process_lpo_items client qb_lpo db_lpo :
  (forall r, P (only tables.Material [r])) ->
  (forall r, P (only tables.LPOItem [r])) ->
  helper (process_lpo_items client qb_lpo db_lpo) (fun _ => P).
Proof.
  intros H1 H2. unfold process_lpo_items.
  apply helper_for_each; [exact C|intros line].
  unfold process_lpo_item.
  destruct (qbo.DetailType line =? "ItemBasedExpenseLineDetail")%string;
    [|helper_tac C].
  destruct (qbo.ItemBasedExpenseLineDetail line) as [detail|]; [|helper_tac C].
  destruct (item_ref_value detail) as [item_id|]; [|helper_tac C].
  apply helper_seq; [exact C|apply helper_get_material|intros [qb_item|]];
    [|helper_tac C].
  apply helper_seq;
    [exact C|now apply helper_get_or_create_material|intros mat].
  helper_tac C. apply helper_add_closed; auto with tables.
Qed.

Lemma helper_process_invoice_items client qb_invoice db_invoice :
  (forall r, P (only tables.Material [r])) ->
  (forall r, P (only tables.InvoiceItem [r])) ->
  helper (process_invoice_items client qb_invoice db_invoice) (fun _ => P).
Proof.
  intros H1 H2. unfold process_invoice_items.
  apply helper_for_each; [exact C|intros line].
  unfold process_invoice_item.
  destruct (qbo.DetailType line =? "SalesItemLineDetail")%string;
    [|helper_tac C].
  destruct (qbo.SalesItemLineDetail line) as [detail|]; [|helper_tac C].
  destruct (item_ref_value detail) as [item_id|]; [|helper_tac C].
  apply helper_seq; [exact C|apply helper_get_material|intros [qb_item|]];
    [|helper_tac C].
  apply helper_seq;
    [exact C|now apply helper_get_or_create_material|intros mat].
  helper_tac C. apply helper_add_closed; auto with tables.
Qed.

End Helpers.

Lemma helper_ok {A : Type} (m : M A) (Q : A -> Store -> Prop) s a s1 :
  helper m Q -> m s = (Ok a, s1) ->
  frame s s1 /\ exists x, Q a x /\ all (db s1) = store_app (all (db s)) x.
Proof.
  intros H E. destruct (H _ _ _ E) as (F & _ & K). split; [exact F|].
  now apply K.
Qed.

Lemma helper_frame {A : Type} (m : M A) (Q : A -> Store -> Prop) s r s1 :
  helper m Q -> m s = (r, s1) -> frame s s1 /\ r <> Diverge.
Proof. intros H E. destruct (H _ _ _ E) as (F & D & _). now split. Qed.
Arguments helper_ok {A m Q s a s1}.
Arguments helper_frame {A m Q s r s1}.

(** A helper run before a computation with a richer postcondition. *)
Lemma helper_then {A B : Type} (P : Store -> Prop) (m : M A) (k : A -> M B)
    (Q : B -> Store -> Prop) :
  helper m (fun _ => P) ->
  (forall a, helper (k a) Q) ->
  (forall b x1 x2, P x1 -> Q b x2 -> Q b (store_app x1 x2)) ->
  helper (bind m k) Q.
Proof.
  intros Hm Hk HQ.
  apply helper_bind with (Q1 := fun _ => P) (Q2 := fun _ => Q); auto.
Qed.

Lemma set_log_same s : set_log (log s) s = s.
Proof. now destruct s. Qed.

Lemma get_lpo_for_invoice_value client invoice s :
  get_lpo_for_invoice client invoice s =
    (Ok (linked_lpo client invoice),
     set_log (log s ++ linked_lpo_log client invoice) s).
Proof.
  unfold get_lpo_for_invoice, linked_lpo, linked_lpo_log.
  assert (L : forall txns,
    get_lpo_for_invoice_loop client txns s =
      (Ok match first_purchase_order txns with
          | Some txn =>
              match PurchaseOrder_get client (qbo.TxnId txn) with
              | inr lpo => Some lpo
              | inl _ => None
              end
          | None => None
          end,
       set_log (log s ++
         match first_purchase_order txns with
         | Some txn =>
             match PurchaseOrder_get client (qbo.TxnId txn) with
             | inr _ => []
             | inl e =>
                 [(ERROR, "QB: Error fetching linked LPO " ++ qbo.TxnId txn
                          ++ ": " ++ exn_msg e)]
             end
         | None => []
         end) s)).
  { induction txns as [|txn rest IH]; simpl.
    - now rewrite app_nil_r, set_log_same.
    - destruct (qbo.TxnType txn =? "PurchaseOrder")%string; [|exact IH].
      destruct (PurchaseOrder_get client (qbo.TxnId txn)); simpl.
      + reflexivity.
      + now rewrite app_nil_r, set_log_same. }
  destruct (qbo.Invoice.LinkedTxn invoice) as [|txn rest].
  - simpl. now rewrite app_nil_r, set_log_same.
  - apply L.
Qed.

Lemma helper_create_lpo client blob dp du qb_lpo lpo_number :
  helper (create_lpo client blob dp du qb_lpo lpo_number)
    (fun db_lpo x =>
       invoices x = [] /\ lpos x = [db_lpo] /\
       exists db_supplier id,
         db_lpo = new_lpo qb_lpo lpo_number db_supplier dp du id).
Proof.
  pose proof closed_no_headers as C.
  assert (pre : forall (b : models.LPO.t) x1 x2,
    no_headers x1 ->
    (invoices x2 = [] /\ lpos x2 = [b] /\
     exists db_supplier id,
       b = new_lpo qb_lpo lpo_number db_supplier dp du id) ->
    invoices (store_app x1 x2) = [] /\ lpos (store_app x1 x2) = [b] /\
    exists db_supplier id,
      b = new_lpo qb_lpo lpo_number db_supplier dp du id).
  { intros b x1 x2 [A1 A2] (B1 & B2 & B3). simpl.
    rewrite A1, A2, B1, B2. auto. }
  unfold create_lpo.
  eapply helper_then; [apply helper_emit, C| |exact pre]. intros _.
  destruct (match qbo.PurchaseOrder.VendorRef qb_lpo with
            | Some ref => Py.nonempty (qbo.value ref)
            | None => None
            end) as [vendor_id|]; [|apply helper_raise].
  eapply helper_then; [apply helper_get_supplier, C| |exact pre].
  intros [qb_supplier|]; [|apply helper_raise].
  eapply helper_then;
    [apply helper_get_or_create_supplier; [exact C|now split]| |exact pre].
  intros db_supplier.
  eapply helper_bind with
    (Q2 := fun a b x => no_headers x /\ b = a);
    [apply helper_add, law_LPO| |].
  - intros db_lpo.
    eapply helper_then with (P := no_headers).
    + apply helper_process_lpo_items; [exact C|now split|now split].
    + intros _. eapply helper_then with (P := no_headers).
      * apply helper_process_attachments; [exact C|now split|now split].
      * intros _. eapply helper_then with (P := no_headers);
          [apply helper_flush, C| |].
        -- intros _. eapply helper_then with (P := no_headers);
             [apply helper_emit, C| |].
           ++ intros _. apply helper_ret. split; [now split|reflexivity].
           ++ intros b x1 x2 H1 [H2 ->]. split; [now apply C|reflexivity].
        -- intros b x1 x2 H1 [H2 ->]. split; [now apply C|reflexivity].
      * intros b x1 x2 H1 [H2 ->]. split; [now apply C|reflexivity].
    + intros b x1 x2 H1 [H2 ->]. split; [now apply C|reflexivity].
  - intros a b x1 x2 [-> (id & ->)] [[H1 H2] ->]. simpl.
    rewrite H1, H2. eauto.
Qed.

(** ** The loop body, case by case *)

Lemma commits_bind {A : Type} (m : M A) (k : A -> M unit)
    (Q1 : A -> Store -> Prop) (Q2 : A -> Store -> Prop) (Q : Store -> Prop) :
  helper m Q1 ->
  (forall a, commits (k a) (Q2 a)) ->
  (forall a x1 x2, Q1 a x1 -> Q2 a x2 -> Q (store_app x1 x2)) ->
  commits (bind m k) Q.
Proof.
  intros Hm Hk HQ s r s' E.
  destruct (bind_inv _ _ _ E) as [(a & s1 & E1 & E2)|[(e & E1 & ->)|(E1 & ->)]].
  - destruct (helper_ok Hm E1) as ((F1 & F2) & x1 & Q1x & X1).
    specialize (Hk a _ _ _ E2). destruct r as [u|e|]; [|  |exact Hk].
    + destruct Hk as (x2 & Q2x & X2 & T & N & K).
      exists (store_app x1 x2). split; [eauto|].
      split; [now rewrite X2, X1, store_app_assoc|].
      split; [assumption|]. split; [assumption|].
      unfold counts in *. inversion F2 as [[A1 A2 A3]].
      rewrite K, A1, A2, A3. reflexivity.
    + eapply frame_trans; [split|]; eauto.
  - apply (helper_frame Hm E1).
  - now apply (helper_frame Hm E1).
Qed.

Lemma commits_then {A : Type} (P : Store -> Prop) (m : M A)
    (k : A -> M unit) (Q : Store -> Prop) :
  helper m (fun _ => P) ->
  (forall a, commits (k a) Q) ->
  (forall x1 x2, P x1 -> Q x2 -> Q (store_app x1 x2)) ->
  commits (bind m k) Q.
Proof.
  intros Hm Hk HQ.
  apply commits_bind with (Q1 := fun _ => P) (Q2 := fun _ => Q); auto.
Qed.

Lemma commits_commit msg :
  commits (session_commit ;; logger.info msg ;; incr_success)
          (fun x => x = empty_store).
Proof.
  intros s r s' E. unfold session_commit, session_flush, bind in E.
  destruct (engine_rejects (txn (db s)) (new (db s)));
    inversion E; subst; clear E.
  - apply frame_refl.
  - exists empty_store. simpl. unfold all.
    now rewrite store_app_empty_r.
Qed.

Lemma commits_invoice client blob inv n db_lpo :
  commits
    (logger.info ("Creating new Invoice " ++ n) ;;
     db_invoice <- session_add tables.Invoice (new_invoice inv n db_lpo) ;;
     process_invoice_items client inv db_invoice ;;
     process_attachments client blob "Invoice" (qbo.Invoice.Id inv)
       (models.Invoice.id db_invoice) ;;
     session_commit ;;
     logger.info ("--- SUCCESSFULLY IMPORTED INVOICE " ++ n ++ " ---") ;;
     incr_success)
    (fun x => (exists id, invoices x = [new_invoice inv n db_lpo id]) /\
              lpos x = []).
Proof.
  pose proof closed_no_headers as C.
  eapply commits_then; [apply helper_emit, C| |].
  2:{ intros x1 x2 [A1 A2] [(id & B1) B2]. simpl. rewrite A1, A2, B1, B2.
      split; [exists id|]; reflexivity. }
  intros _.
  eapply commits_bind with (Q2 := fun _ => no_headers);
    [apply helper_add, law_Invoice| |].
  2:{ intros a x1 x2 [-> (id & ->)] [B1 B2]. simpl. rewrite B1, B2.
      split; [exists id|]; reflexivity. }
  intros db_invoice.
  eapply commits_then;
    [apply helper_process_invoice_items; [exact C|now split|now split]| |].
  2:{ intros x1 x2 H1 H2. now apply C. }
  intros _.
  eapply commits_then;
    [apply helper_process_attachments; [exact C|now split|now split]| |].
  2:{ intros x1 x2 H1 H2. now apply C. }
  intros _. intros s r s' E. pose proof (@commits_commit _ _ _ _ E) as K.
  destruct r; auto. destruct K as (x & -> & K). exists empty_store.
  split; [apply C|exact K].
Qed.

Lemma import_invoice_cases client blob dp du inv n s r s' :
  Py.nonempty (qbo.Invoice.DocNumber inv) = Some n ->
  import_invoice client blob dp du inv n s = (r, s') ->
  match r with
  | Diverge => False
  | Raise e =>
      frame s s' /\ skips client (invoices (txn (db s))) inv = false
  | Ok _ =>
      (skips client (invoices (txn (db s))) inv = true /\
       db s' = db s /\
       counts s' = (success_count s, skipped_count s + 1, fail_count s))
      \/
      (skips client (invoices (txn (db s))) inv = false /\
       exists qb_lpo lpo_number db_lpo x,
         linked_lpo client inv = Some qb_lpo /\
         Py.nonempty (qbo.PurchaseOrder.DocNumber qb_lpo) = Some lpo_number /\
         imports inv n qb_lpo lpo_number dp du (lpos (txn (db s))) db_lpo x /\
         committed (db s') = store_app (all (db s)) x /\
         txn (db s') = committed (db s') /\
         new (db s') = empty_store /\
         counts s' = (success_count s + 1, skipped_count s, fail_count s))
  end.
Proof.
  intros Hn H. unfold import_invoice in H.
  unfold bind at 1 in H. unfold query_first at 1 in H.
  unfold skips. rewrite Hn.
  destruct (find _ (rows tables.Invoice (txn (db s)))) as [dup|] eqn:Hdup.
  { inversion H; subst; clear H. simpl in Hdup. rewrite Hdup. left. auto. }
  simpl in Hdup. rewrite Hdup.
  erewrite bind_ok in H by apply get_lpo_for_invoice_value.
  destruct (linked_lpo client inv) as [qb_lpo|] eqn:Hl.
  2:{ inversion H; subst; clear H. left. auto. }
  destruct (Py.nonempty (qbo.PurchaseOrder.DocNumber qb_lpo))
    as [lpo_number|] eqn:Hln.
  2:{ inversion H; subst; clear H. left. auto. }
  set (s0 := set_log (log s ++ linked_lpo_log client inv) s) in *.
  unfold bind at 1 in H. unfold query_first at 1 in H.
  change (rows tables.LPO (txn (db s0))) with (lpos (txn (db s))) in H.
  assert (K : commits
    (db_lpo0 <-
       match find (fun r => (models.LPO.lpo_number r =? lpo_number)%string)
                  (lpos (txn (db s))) with
       | Some db_lpo0 =>
           logger.info
             ("Found existing LPO " ++ lpo_number ++ " (ID: "
              ++ Py.str (models.LPO.id db_lpo0) ++ "). Linking to it.") ;;
           ret db_lpo0
       | None => create_lpo client blob dp du qb_lpo lpo_number
       end ;;
     logger.info ("Creating new Invoice " ++ n) ;;
     db_invoice <- session_add tables.Invoice (new_invoice inv n db_lpo0) ;;
     process_invoice_items client inv db_invoice ;;
     process_attachments client blob "Invoice" (qbo.Invoice.Id inv)
       (models.Invoice.id db_invoice) ;;
     session_commit ;;
     logger.info ("--- SUCCESSFULLY IMPORTED INVOICE " ++ n ++ " ---") ;;
     incr_success)
    (fun x => exists db_lpo,
       imports inv n qb_lpo lpo_number dp du (lpos (txn (db s))) db_lpo x)).
  { destruct (find _ (lpos (txn (db s)))) as [l|] eqn:Hfind.
    - eapply commits_bind with
        (Q1 := fun a x => no_headers x /\ a = l)
        (Q2 := fun a x =>
           (exists id, invoices x = [new_invoice inv n a id]) /\ lpos x = []).
      + eapply helper_then with (P := no_headers);
          [apply helper_emit, closed_no_headers| |].
        * intros _. apply helper_ret. split; [now split|reflexivity].
        * intros b x1 x2 H1 [H2 ->].
          split; [now apply closed_no_headers|reflexivity].
      + intros a. apply commits_invoice.
      + intros a x1 x2 [[A1 A2] ->] [(id & B1) B2]. exists l.
        split; simpl; [rewrite A1, B1; exists id; reflexivity|].
        left. rewrite A2, B2. auto.
    - eapply commits_bind with
        (Q2 := fun a x =>
           (exists id, invoices x = [new_invoice inv n a id]) /\ lpos x = []).
      + apply helper_create_lpo.
      + intros a. apply commits_invoice.
      + intros a x1 x2 (A1 & A2 & A3) [(id & B1) B2]. exists a.
        split; simpl; [rewrite A1, B1; exists id; reflexivity|].
        right. rewrite A2, B2. auto. }
  specialize (K _ _ _ H). destruct r as [u|e|]; [| |exact K].
  - right. split; [reflexivity|].
    destruct K as (x & (db_lpo & I) & K).
    exists qb_lpo, lpo_number, db_lpo, x. auto.
  - split; [|reflexivity]. destruct K as [K1 K2]. now split.
Qed.

Lemma process_invoice_cases client blob dp du inv s :
  exists s',
    process_invoice client blob dp du inv s = (Ok tt, s') /\
    ((skips client (invoices (txn (db s))) inv = true /\
      db s' = db s /\
      counts s' = (success_count s, skipped_count s + 1, fail_count s))
     \/
     (skips client (invoices (txn (db s))) inv = false /\
      (exists n e s_raise,
         Py.nonempty (qbo.Invoice.DocNumber inv) = Some n /\
         import_invoice client blob dp du inv n s = (Raise e, s_raise)) /\
      committed (db s') = committed (db s) /\
      txn (db s') = committed (db s) /\
      new (db s') = empty_store /\
      counts s' = (success_count s, skipped_count s, fail_count s + 1))
     \/
     (skips client (invoices (txn (db s))) inv = false /\
      exists n qb_lpo lpo_number db_lpo x,
        Py.nonempty (qbo.Invoice.DocNumber inv) = Some n /\
        linked_lpo client inv = Some qb_lpo /\
        Py.nonempty (qbo.PurchaseOrder.DocNumber qb_lpo) = Some lpo_number /\
        imports inv n qb_lpo lpo_number dp du (lpos (txn (db s))) db_lpo x /\
        committed (db s') = store_app (all (db s)) x /\
        txn (db s') = committed (db s') /\
        new (db s') = empty_store /\
        counts s' = (success_count s + 1, skipped_count s, fail_count s))).
Proof.
  unfold process_invoice.
  destruct (Py.nonempty (qbo.Invoice.DocNumber inv)) as [n|] eqn:Hn.
  2:{ eexists. split; [reflexivity|]. left. unfold skips. rewrite Hn. auto. }
  unfold try_except.
  destruct (import_invoice client blob dp du inv n s) as [r s1] eqn:E.
  pose proof (import_invoice_cases _ _ _ _ _ _ Hn E) as K.
  destruct r as [[]|e|]; [| |contradiction].
  - exists s1. split; [reflexivity|]. destruct K as [K|[K1 K2]]; [now left|].
    right; right. split; [assumption|].
    destruct K2 as (qb_lpo & lpo_number & db_lpo & x & K2).
    exists n, qb_lpo, lpo_number, db_lpo, x. split; [reflexivity|exact K2].
  - destruct K as [[F1 F2] K]. eexists. split; [reflexivity|].
    right; left. split; [assumption|]. split; [eauto|]. simpl.
    unfold counts in *. inversion F2 as [[A1 A2 A3]].
    rewrite F1, A1, A2, A3. auto.
Qed.

(** The loop over the invoices always runs to its end. *)
Lemma for_each_process_invoice_total client blob dp du invs :
  forall s, exists s',
    for_each invs (process_invoice client blob dp du) s = (Ok tt, s').
Proof.
  induction invs as [|inv invs IH]; intros s; simpl.
  - now exists s.
  - destruct (process_invoice_cases client blob dp du inv s) as (s1 & E & _).
    erewrite bind_ok by exact E. apply IH.
Qed.

Lemma first_purchase_order_none txns :
  Forall (fun txn => qbo.TxnType txn <> "PurchaseOrder") txns ->
  first_purchase_order txns = None.
Proof.
  unfold first_purchase_order. induction 1 as [|txn rest H _ IH]; simpl.
  - reflexivity.
  - apply String.eqb_neq in H. now rewrite H.
Qed.

Lemma first_purchase_order_found pre txn post :
  Forall (fun txn => qbo.TxnType txn <> "PurchaseOrder") pre ->
  qbo.TxnType txn = "PurchaseOrder" ->
  first_purchase_order (List.app pre (txn :: post)) = Some txn.
Proof.
  unfold first_purchase_order. intros H Ht.
  induction H as [|t rest H _ IH]; simpl.
  - now rewrite Ht.
  - apply String.eqb_neq in H. now rewrite H.
Qed.

(** The loop body on an invoice that is not a duplicate and for which
    [get_lpo_for_invoice] returns [None]. *)
Lemma process_invoice_no_lpo client blob dp du inv n s :
  Py.nonempty (qbo.Invoice.DocNumber inv) = Some n ->
  find (fun r => (models.Invoice.invoice_number r =? n)%string)
       (invoices (txn (db s))) = None ->
  linked_lpo client inv = None ->
  process_invoice client blob dp du inv s =
    (Ok tt,
     set_counts (success_count s) (skipped_count s + 1) (fail_count s)
       (set_log
          (log s ++ linked_lpo_log client inv ++
           [(WARNING, "Skipping Invoice " ++ n
                      ++ ": No related LPO (PurchaseOrder) found in QB.")])
          s)).
Proof.
  intros Hn Hdup Hl. unfold process_invoice. rewrite Hn.
  unfold try_except, import_invoice.
  unfold bind at 1. unfold query_first at 1.
  change (rows tables.Invoice (txn (db s))) with (invoices (txn (db s))).
  rewrite Hdup. erewrite bind_ok by apply get_lpo_for_invoice_value.
  rewrite Hl. cbn. now rewrite <- app_assoc.
Qed.

Lemma find_app_some {A : Type} (p : A -> bool) l l' x :
  find p l = Some x -> find p (l ++ l')%list = Some x.
Proof.
  induction l as [|a l IH]; simpl; [discriminate|].
  destruct (p a); auto.
Qed.

Lemma find_app_none {A : Type} (p : A -> bool) l l' :
  find p l = None -> find p (l ++ l')%list = find p l'.
Proof.
  induction l as [|a l IH]; simpl; [reflexivity|].
  destruct (p a); [discriminate|auto].
Qed.

Lemma filter_find_none {A : Type} (p : A -> bool) l :
  find p l = None -> filter p l = [].
Proof.
  induction l as [|a l IH]; simpl; [reflexivity|].
  destruct (p a); [discriminate|auto].
Qed.





(** ** The run around the loop *)

Lemma reads_only_ret {A : Type} (v : A) : reads_only (ret v) v.
Proof. intros s. now exists s. Qed.

Lemma reads_only_emit lvl msg {A : Type} (m : M A) (v : A) :
  reads_only m v -> reads_only (logger.emit lvl msg ;; m) v.
Proof.
  intros H s. unfold bind, logger.emit.
  destruct (H (set_log (log s ++ [(lvl, msg)]) s)) as (s' & E & D & K).
  exists s'. now rewrite E.
Qed.

Lemma reads_only_blob :
  exists v, reads_only get_azure_blob_service_client v.
Proof.
  unfold get_azure_blob_service_client.
  destruct (Py.nonempty (config.AZURE_CONNECTION_STRING cfg)) as [c|].
  - destruct (from_connection_string c) as [e|client].
    + exists None. apply reads_only_emit, reads_only_ret.
    + exists (Some client). apply reads_only_ret.
  - exists None. apply reads_only_emit, reads_only_ret.
Qed.

Lemma reads_only_qb_client :
  exists v, reads_only get_qb_client v.
Proof.
  unfold get_qb_client.
  destruct QuickBooks_connect as [e|client].
  - exists None. repeat apply reads_only_emit. apply reads_only_ret.
  - destruct (CompanyInfo_all client) as [e|[|c l]].
    + exists None. repeat apply reads_only_emit.
      apply reads_only_ret.
    + exists (Some client). apply reads_only_emit, reads_only_ret.
    + exists (Some client). apply reads_only_emit, reads_only_ret.
Qed.

Lemma reads_only_get_invoices client a b limit :
  (forall s, get_invoices client a b limit s = (Diverge, s)) \/
  exists v, reads_only (get_invoices client a b limit) v.
Proof.
  unfold get_invoices. destruct (Py.nonzero limit) as [l|].
  - right. destruct (Invoice_query client _) as [e|invoices].
    + exists []. apply reads_only_emit, reads_only_ret.
    + exists invoices. apply reads_only_emit, reads_only_ret.
  - destruct (get_invoices_pages _ _ _ _ _) as [v|e|].
    + right. exists v. apply reads_only_emit, reads_only_ret.
    + right. exists []. apply reads_only_emit, reads_only_ret.
    + now left.
Qed.

Lemma reads_only_run {A B : Type} (m : M A) (v : A) (k : A -> M B) s :
  reads_only m v ->
  exists s', bind m k s = k v s' /\ db s' = db s /\ counts s' = counts s.
Proof.
  intros H. destruct (H s) as (s' & E & D & K). exists s'.
  split; [now apply bind_ok|now split].
Qed.

Lemma reads_only_inj {A : Type} (m : M A) (v w : A) :
  reads_only m v -> reads_only m w -> v = w.
Proof.
  intros Hv Hw. destruct (Hv (initial_state empty_store)) as (s1 & E1 & _).
  destruct (Hw (initial_state empty_store)) as (s2 & E2 & _).
  rewrite E1 in E2. now inversion E2.
Qed.

Lemma get_default_project_found s p :
  find is_default_project (projects (txn (db s))) = Some p ->
  get_default_project s = (Ok p, s).
Proof.
  intros H. unfold get_default_project, bind, query_first. simpl.
  unfold is_default_project in H. now rewrite H.
Qed.

Lemma get_default_user_found s u :
  find is_default_user (users (txn (db s))) = Some u ->
  get_default_user s = (Ok u, s).
Proof.
  intros H. unfold get_default_user, bind, query_first. simpl.
  unfold is_default_user in H. now rewrite H.
Qed.

Lemma get_default_project_cases s r s' :
  new (db s) = empty_store ->
  get_default_project s = (r, s') ->
  default_resolved s r s' /\
  (forall p, r = Ok p ->
     find is_default_project (projects (txn (db s'))) <> None).
Proof.
  intros Hnew E. unfold get_default_project in E.
  unfold bind, query_first, session_add, session_flush in E. simpl in E.
  fold is_default_project in E.
  destruct (find is_default_project (projects (txn (db s)))) as [p|] eqn:Hf.
  - inversion E; subst; clear E. split.
    + repeat split; auto. exists empty_store.
      split; [now rewrite store_app_empty_r|now split].
    + intros q _. congruence.
  - simpl in E. destruct (engine_rejects _ _); inversion E; subst; clear E.
    + split; [now split|discriminate].
    + split.
      * repeat split; auto. simpl. rewrite Hnew. eexists.
        split; [reflexivity|now split].
      * intros q _. simpl. rewrite Hnew. simpl.
        rewrite find_app_none by exact Hf. simpl. discriminate.
Qed.

Lemma get_default_user_cases s r s' :
  new (db s) = empty_store ->
  get_default_user s = (r, s') ->
  default_resolved s r s' /\
  (forall u, r = Ok u ->
     find is_default_user (users (txn (db s'))) <> None).
Proof.
  intros Hnew E. unfold get_default_user in E.
  unfold bind, query_first, session_add, session_flush in E. simpl in E.
  fold is_default_user in E.
  destruct (find is_default_user (users (txn (db s)))) as [p|] eqn:Hf.
  - inversion E; subst; clear E. split.
    + repeat split; auto. exists empty_store.
      split; [now rewrite store_app_empty_r|now split].
    + intros q _. congruence.
  - simpl in E. destruct (engine_rejects _ _); inversion E; subst; clear E.
    + split; [now split|discriminate].
    + split.
      * repeat split; auto. simpl. rewrite Hnew. eexists.
        split; [reflexivity|now split].
      * intros q _. simpl. rewrite Hnew. simpl.
        rewrite find_app_none by exact Hf. simpl. discriminate.
Qed.

(** ** Invariants of the loop *)

Lemma skips_mono client seen more inv :
  skips client seen inv = true ->
  skips client (seen ++ more) inv = true.
Proof.
  unfold skips.
  destruct (Py.nonempty (qbo.Invoice.DocNumber inv)) as [n|]; [|auto].
  destruct (find _ seen) as [r|] eqn:Hf.
  - intros _. now rewrite (find_app_some _ _ more Hf).
  - intros H. now destruct (find _ (seen ++ more)%list).
Qed.

Lemma find_app_last {A : Type} (p : A -> bool) l x :
  p x = true -> find p (l ++ [x])%list <> None.
Proof.
  intros Hp. induction l as [|a l IH]; simpl.
  - now rewrite Hp.
  - now destruct (p a).
Qed.

Lemma skips_after_import client seen inv n db_lpo id :
  Py.nonempty (qbo.Invoice.DocNumber inv) = Some n ->
  skips client (seen ++ [new_invoice inv n db_lpo id]) inv = true.
Proof.
  intros Hn. unfold skips. rewrite Hn.
  destruct (find _ _) eqn:Hf; [reflexivity|].
  exfalso. revert Hf. apply find_app_last. simpl. apply String.eqb_refl.
Qed.

Lemma all_nothing_pending d : new d = empty_store -> all d = txn d.
Proof. intros H. unfold all. now rewrite H, store_app_empty_r. Qed.

(** A step of the loop counts the invoice exactly once and never lowers a
    counter. *)
Lemma process_invoice_counts client blob dp du inv s s' :
  process_invoice client blob dp du inv s = (Ok tt, s') ->
  success_count s <= success_count s' /\
  skipped_count s <= skipped_count s' /\
  fail_count s <= fail_count s' /\
  success_count s' + skipped_count s' + fail_count s' =
    success_count s + skipped_count s + fail_count s + 1.
Proof.
  intros E.
  destruct (process_invoice_cases client blob dp du inv s) as (s1 & E1 & K).
  rewrite E in E1. inversion E1; subst s1; clear E1.
  destruct K as [(_ & _ & K)|[(_ & _ & _ & _ & _ & K)|(_ & K)]].
  - unfold counts in K. inversion K. lia.
  - unfold counts in K. inversion K. lia.
  - destruct K as (n & qb_lpo & lpo_number & db_lpo & x & _ & _ & _ & _ & _
                   & _ & _ & K).
    unfold counts in K. inversion K. lia.
Qed.

Lemma for_each_process_invoice_counts client blob dp du invs :
  forall s s',
    for_each invs (process_invoice client blob dp du) s = (Ok tt, s') ->
    success_count s <= success_count s' /\
    skipped_count s <= skipped_count s' /\
    fail_count s <= fail_count s' /\
    success_count s' + skipped_count s' + fail_count s' =
      success_count s + skipped_count s + fail_count s
      + Z.of_nat (List.length invs).
Proof.
  induction invs as [|inv invs IH]; intros s s' E.
  - inversion E; subst. simpl. lia.
  - simpl in E.
    destruct (process_invoice_cases client blob dp du inv s) as (s1 & E1 & _).
    erewrite bind_ok in E by exact E1.
    apply process_invoice_counts in E1. apply IH in E.
    cbn [List.length]. rewrite Nat2Z.inj_succ. lia.
Qed.

(** A run of the loop in which no invoice fails: the transaction only
    grows, whatever was imported is committed, and afterwards every
    invoice of the list meets a skip condition. *)
Lemma for_each_no_failure client blob dp du invs :
  forall s s',
    new (db s) = empty_store ->
    for_each invs (process_invoice client blob dp du) s = (Ok tt, s') ->
    fail_count s' = fail_count s ->
    new (db s') = empty_store /\
    (exists y, txn (db s') = store_app (txn (db s)) y) /\
    ((success_count s' = success_count s /\ db s' = db s) \/
     (success_count s < success_count s' /\
      committed (db s') = txn (db s'))) /\
    Forall (fun inv => skips client (invoices (txn (db s'))) inv = true) invs.
Proof.
  induction invs as [|inv invs IH]; intros s s' Hnew E Hf.
  - inversion E; subst. split; [assumption|]. split.
    + exists empty_store. now rewrite store_app_empty_r.
    + split; [now left|constructor].
  - simpl in E.
    destruct (process_invoice_cases client blob dp du inv s) as (s1 & E1 & K).
    erewrite bind_ok in E by exact E1.
    pose proof (process_invoice_counts _ _ _ _ _ _ E1) as C1.
    pose proof (for_each_process_invoice_counts _ _ _ _ _ _ E) as C2.
    destruct K as [(Hs & Hdb & K)|[(_ & _ & _ & _ & _ & K)|(_ & K)]].
    + (* skipped *)
      unfold counts in K. inversion K as [[K1 K2 K3]].
      assert (Hnew1 : new (db s1) = empty_store) by now rewrite Hdb.
      destruct (IH s1 s' Hnew1 E ltac:(lia)) as (N & (y & Y) & S & F).
      rewrite Hdb in Y. split; [exact N|]. split; [eauto|].
      split.
      * destruct S as [[S1 S2]|[S1 S2]]; [left|right]; split;
          try congruence; lia.
      * constructor; [|exact F]. rewrite Y. simpl. now apply skips_mono.
    + (* failed *)
      unfold counts in K. inversion K. lia.
    + (* imported *)
      destruct K as (n & qb_lpo & lpo_number & db_lpo & x & Hn & _ & _
                     & [(id & Hi) _] & Hcm & Htx & Hnew1 & K).
      unfold counts in K. inversion K as [[K1 K2 K3]].
      rewrite (all_nothing_pending _ Hnew) in Hcm.
      destruct (IH s1 s' Hnew1 E ltac:(lia)) as (N & (y & Y) & S & F).
      assert (T1 : txn (db s1) = store_app (txn (db s)) x) by congruence.
      split; [exact N|]. split.
      * exists (store_app x y). now rewrite Y, T1, store_app_assoc.
      * split.
        -- right. split; [lia|].
           destruct S as [[_ S2]|[_ S2]]; [|exact S2].
           now rewrite S2.
        -- constructor; [|exact F]. rewrite Y, T1. simpl.
           rewrite Hi. apply skips_mono. now apply skips_after_import.
Qed.

(** A run of the loop over invoices that all meet a skip condition. *)
Lemma for_each_all_skipped client blob dp du invs :
  forall s,
    Forall (fun inv => skips client (invoices (txn (db s))) inv = true)
           invs ->
    exists s',
      for_each invs (process_invoice client blob dp du) s = (Ok tt, s') /\
      db s' = db s /\
      counts s' = (success_count s,
                   skipped_count s + Z.of_nat (List.length invs),
                   fail_count s).
Proof.
  induction invs as [|inv invs IH]; intros s F.
  - exists s. split; [reflexivity|]. split; [reflexivity|].
    unfold counts. simpl. now rewrite Z.add_0_r.
  - inversion F as [|? ? Hs F']; subst.
    destruct (process_invoice_cases client blob dp du inv s) as (s1 & E1 & K).
    destruct K as [(_ & Hdb & K)|[(Hn & _)|(Hn & _)]]; try congruence.
    rewrite <- Hdb in F'. destruct (IH s1 F') as (s' & E & D & C).
    exists s'. cbn [for_each]. erewrite bind_ok by exact E1.
    split; [exact E|]. split; [congruence|].
    unfold counts in *. inversion K as [[K1 K2 K3]].
    cbn [List.length]. rewrite C, K1, K2, K3, Nat2Z.inj_succ.
    f_equal. f_equal. lia.
Qed.

Lemma linked_to_order_mono orders more r :
  linked_to_order orders r -> linked_to_order (orders ++ more) r.
Proof.
  intros (l & Hin & H). exists l. split; [|exact H].
  apply in_or_app. now left.
Qed.

Lemma process_invoice_headers_linked client blob dp du before inv s s' :
  headers_linked before s ->
  process_invoice client blob dp du inv s = (Ok tt, s') ->
  headers_linked before s'.
Proof.
  intros (Hnew & Hl & Hi & Hnn & Hlink) E.
  destruct (process_invoice_cases client blob dp du inv s) as (s1 & E1 & K).
  rewrite E in E1. inversion E1; subst s1; clear E1.
  destruct K as [(_ & Hdb & _)|[(_ & _ & Hc & Ht & Hn & _)|(_ & K)]].
  - unfold headers_linked. now rewrite Hdb.
  - unfold headers_linked. rewrite Hc, Ht, Hn. auto.
  - destruct K as (n & qb_lpo & lpo_number & db_lpo & x & _ & _ & _
                   & [(id & Hix) Hlx] & Hcm & Htx & Hnew1 & _).
    rewrite (all_nothing_pending _ Hnew) in Hcm.
    assert (Hl' : lpos (committed (db s')) =
                  (lpos (committed (db s)) ++ lpos x)%list).
    { rewrite Hcm. simpl. now rewrite Hl. }
    assert (Hi' : invoices (committed (db s')) =
                  (invoices (committed (db s))
                   ++ [new_invoice inv n db_lpo id])%list).
    { rewrite Hcm. simpl. now rewrite Hi, Hix. }
    assert (Hnn' : Forall lpo_not_null (lpos (committed (db s')))).
    { rewrite Hl'. apply Forall_app. split; [exact Hnn|].
      destruct Hlx as [[_ ->]|(_ & -> & sup & lid & ->)]; constructor;
        [|constructor].
      repeat split; discriminate. }
    assert (Hin : In db_lpo (lpos (committed (db s')))).
    { rewrite Hl'. apply in_or_app.
      destruct Hlx as [[Hf _]|(_ & -> & _)]; [left|right; now left].
      rewrite <- Hl. exact (proj1 (find_some _ _ Hf)). }
    split; [exact Hnew1|]. split; [now rewrite Htx|].
    split; [now rewrite Htx|]. split; [exact Hnn'|].
    intros r Hr. rewrite Hi' in Hr. apply in_app_or in Hr.
    destruct Hr as [Hr|[<-|[]]].
    + destruct (Hlink r Hr) as [H|H]; [now left|right].
      rewrite Hl'. now apply linked_to_order_mono.
    + right. exists db_lpo. split; [exact Hin|].
      rewrite Forall_forall in Hnn'. destruct (Hnn' _ Hin) as (N1 & N2 & N3).
      simpl. repeat split; assumption.
Qed.

Lemma for_each_headers_linked client blob dp du before invs :
  forall s s',
    headers_linked before s ->
    for_each invs (process_invoice client blob dp du) s = (Ok tt, s') ->
    headers_linked before s'.
Proof.
  induction invs as [|inv invs IH]; intros s s' H E.
  - now inversion E; subst.
  - simpl in E.
    destruct (process_invoice_cases client blob dp du inv s) as (s1 & E1 & _).
    erewrite bind_ok in E by exact E1.
    eapply IH; [|exact E].
    eapply process_invoice_headers_linked; eauto.
Qed.

Lemma find_app_found {A : Type} (p : A -> bool) l l' :
  find p l <> None -> find p (l ++ l')%list <> None.
Proof.
  destruct (find p l) as [x|] eqn:H; [|congruence].
  intros _. now rewrite (find_app_some _ _ l' H).
Qed.

Lemma import_all_cases client blob limit s r s' :
  new (db s) = empty_store ->
  import_all client blob limit s = (r, s') ->
  match r with
  | Diverge => True
  | Raise _ => committed (db s') = committed (db s) /\ counts s' = counts s
  | Ok _ =>
      exists dp du invs sE,
        reads_only (get_invoices client start_date end_date limit) invs /\
        committed (db sE) = committed (db s) /\
        counts sE = counts s /\
        new (db sE) = empty_store /\
        (exists y, txn (db sE) = store_app (txn (db s)) y /\ no_headers y) /\
        find is_default_project (projects (txn (db sE))) <> None /\
        find is_default_user (users (txn (db sE))) <> None /\
        for_each invs (process_invoice client blob dp du) sE = (Ok tt, s')
  end.
Proof.
  intros Hnew E. unfold import_all in E.
  apply bind_inv in E.
  destruct E as [(dp & sC & E1 & E)|[(e & E1 & ->)|(E1 & ->)]].
  2:{ now destruct (get_default_project_cases _ Hnew E1) as [H _]. }
  2:{ exact I. }
  destruct (get_default_project_cases _ Hnew E1)
    as [(C1 & K1 & N1 & y1 & Y1 & H1) P1].
  specialize (P1 dp eq_refl).
  apply bind_inv in E.
  destruct E as [(du & sD & E2 & E)|[(e & E2 & ->)|(E2 & ->)]].
  2:{ destruct (get_default_user_cases _ N1 E2) as [[H2 H3] _].
      split; congruence. }
  2:{ exact I. }
  destruct (get_default_user_cases _ N1 E2)
    as [(C2 & K2 & N2 & y2 & Y2 & H2) P2].
  specialize (P2 du eq_refl).
  destruct (reads_only_get_invoices client start_date end_date limit)
    as [Hd|[invs Hro]].
  { unfold bind at 1 in E. rewrite Hd in E. inversion E; subst. exact I. }
  destruct (Hro sD) as (sD' & E3 & D3 & K3).
  erewrite bind_ok in E by exact E3.
  unfold bind at 1 in E. unfold logger.info, logger.emit in E.
  set (sE := set_log _ sD') in E.
  destruct (for_each_process_invoice_total client blob dp du invs sE)
    as (sF & EF).
  rewrite EF in E. inversion E; subst r s'; clear E.
  exists dp, du, invs, sE.
  assert (DE : db sE = db sD) by (subst sE; simpl; exact D3).
  split; [exact Hro|]. rewrite DE.
  split; [congruence|].
  split; [subst sE; unfold counts in *; simpl; congruence|].
  split; [exact N2|]. split.
  - exists (store_app y1 y2). split.
    + now rewrite Y2, Y1, store_app_assoc.
    + now apply closed_no_headers.
  - split; [|split; [exact P2|exact EF]].
    rewrite Y2. simpl. now apply find_app_found.
Qed.

Lemma finish_spec s :
  exists s',
    finish s = (Ok tt, s') /\
    committed (db s') = committed (db s) /\ counts s' = counts s.
Proof. eexists. split; [reflexivity|]. now split. Qed.

Lemma critical_error_spec e s :
  exists s',
    critical_error e s = (Ok tt, s') /\
    committed (db s') = committed (db s) /\ counts s' = counts s.
Proof. eexists. split; [reflexivity|]. now split. Qed.

(** The run once QuickBooks is connected: the outer [try] with its handler
    and its [finally] block. *)
Lemma guarded_run_cases client blob limit s r s1 :
  new (db s) = empty_store ->
  try_finally (try_except (import_all client blob limit) critical_error)
              finish s = (r, s1) ->
  r = Diverge \/
  (r = Ok tt /\
   ((committed (db s1) = committed (db s) /\ counts s1 = counts s) \/
    (exists sF,
       import_all client blob limit s = (Ok tt, sF) /\
       committed (db s1) = committed (db sF) /\ counts s1 = counts sF))).
Proof.
  intros Hnew E. unfold try_finally, try_except in E.
  destruct (import_all client blob limit s) as [[[]|e|] sF] eqn:EA.
  - destruct (finish_spec sF) as (s2 & E2 & C2 & K2).
    rewrite E2 in E. inversion E; subst. right. split; [reflexivity|].
    right. exists sF. auto.
  - pose proof (import_all_cases _ _ _ _ Hnew EA) as [C1 K1].
    destruct (critical_error_spec e sF) as (s2 & E2 & C2 & K2).
    rewrite E2 in E.
    destruct (finish_spec s2) as (s3 & E3 & C3 & K3).
    rewrite E3 in E. inversion E; subst. right. split; [reflexivity|].
    left. split; congruence.
  - inversion E. now left.
Qed.

Lemma process_imports_connected limit s client blob :
  config.all_qb_keys_present cfg = true ->
  reads_only get_azure_blob_service_client blob ->
  reads_only get_qb_client (Some client) ->
  exists sB,
    db sB = opened (db s) /\
    counts sB = (0, 0, 0) /\
    process_imports limit s =
      try_finally (try_except (import_all client blob limit) critical_error)
                  finish sB.
Proof.
  intros Hk Hb Hq. unfold process_imports. rewrite Hk. cbn [negb].
  unfold bind at 1. unfold logger.info at 1, logger.emit at 1.
  unfold bind at 1. unfold logger.info at 1, logger.emit at 1.
  set (s1 := set_log _ (set_log _ s)).
  unfold bind at 1.
  assert (L : exists s2,
    match Py.nonzero limit with
    | Some l =>
        logger.warning ("*** TEST MODE: Importing at most " ++ Py.str l
                        ++ " invoices. ***")
    | None => ret tt
    end s1 = (Ok tt, s2) /\ db s2 = db s /\ counts s2 = counts s).
  { destruct (Py.nonzero limit); eexists; (split; [reflexivity|now split]). }
  destruct L as (s2 & -> & D2 & K2).
  unfold bind at 1. unfold SessionLocal at 1.
  set (s3 := set_db _ s2).
  assert (D3 : db s3 = opened (db s)).
  { subst s3. simpl. unfold opened. now rewrite D2. }
  destruct (reads_only_run (fun blob_service_client =>
      qb_client <- get_qb_client ;;
      match qb_client with
      | Some qb_client0 =>
          (fun s0 : State => (Ok tt, set_counts 0 0 0 s0)) ;;
          try_finally
            (try_except (import_all qb_client0 blob_service_client limit)
                        critical_error) finish
      | None =>
          logger.critical "Failed to connect to QuickBooks. Exiting." ;;
          session_close
      end) s3 Hb) as (s4 & -> & D4 & K4).
  destruct (reads_only_run (fun qb_client =>
      match qb_client with
      | Some qb_client0 =>
          (fun s0 : State => (Ok tt, set_counts 0 0 0 s0)) ;;
          try_finally
            (try_except (import_all qb_client0 blob limit)
                        critical_error) finish
      | None =>
          logger.critical "Failed to connect to QuickBooks. Exiting." ;;
          session_close
      end) s4 Hq) as (s5 & -> & D5 & K5).
  unfold bind at 1.
  exists (set_counts 0 0 0 s5). split; [simpl; congruence|].
  split; reflexivity.
Qed.

Lemma process_imports_not_connected limit s blob :
  config.all_qb_keys_present cfg = true ->
  reads_only get_azure_blob_service_client blob ->
  reads_only get_qb_client None ->
  exists s1,
    process_imports limit s = (Ok tt, s1) /\
    db s1 = opened (db s) /\ counts s1 = counts s.
Proof.
  intros Hk Hb Hq. unfold process_imports. rewrite Hk. cbn [negb].
  unfold bind at 1. unfold logger.info at 1, logger.emit at 1.
  unfold bind at 1. unfold logger.info at 1, logger.emit at 1.
  set (s1 := set_log _ (set_log _ s)).
  unfold bind at 1.
  assert (L : exists s2,
    match Py.nonzero limit with
    | Some l =>
        logger.warning ("*** TEST MODE: Importing at most " ++ Py.str l
                        ++ " invoices. ***")
    | None => ret tt
    end s1 = (Ok tt, s2) /\ db s2 = db s /\ counts s2 = counts s).
  { destruct (Py.nonzero limit); eexists; (split; [reflexivity|now split]). }
  destruct L as (s2 & -> & D2 & K2).
  unfold bind at 1. unfold SessionLocal at 1.
  set (s3 := set_db _ s2).
  assert (D3 : db s3 = opened (db s)).
  { subst s3. simpl. unfold opened. now rewrite D2. }
  destruct (reads_only_run (fun blob_service_client =>
      qb_client <- get_qb_client ;;
      match qb_client with
      | Some qb_client0 =>
          (fun s0 : State => (Ok tt, set_counts 0 0 0 s0)) ;;
          try_finally
            (try_except (import_all qb_client0 blob_service_client limit)
                        critical_error) finish
      | None =>
          logger.critical "Failed to connect to QuickBooks. Exiting." ;;
          session_close
      end) s3 Hb) as (s4 & -> & D4 & K4).
  destruct (reads_only_run (fun qb_client =>
      match qb_client with
      | Some qb_client0 =>
          (fun s0 : State => (Ok tt, set_counts 0 0 0 s0)) ;;
          try_finally
            (try_except (import_all qb_client0 blob limit)
                        critical_error) finish
      | None =>
          logger.critical "Failed to connect to QuickBooks. Exiting." ;;
          session_close
      end) s4 Hq) as (s5 & -> & D5 & K5).
  eexists. split; [reflexivity|]. simpl.
  split.
  - rewrite D5, D4, D3. reflexivity.
  - unfold counts in *. subst s3 s1. simpl in *. congruence.
Qed.

Lemma counts_inv s a b c :
  counts s = (a, b, c) ->
  success_count s = a /\ skipped_count s = b /\ fail_count s = c.
Proof. unfold counts. intros H. injection H. auto. Qed.

(** The run over a database that already holds the default rows and an
    invoice row, or another reason to skip, for every invoice pulled. *)
Lemma import_all_all_skipped client blob limit invs s :
  find is_default_project (projects (txn (db s))) <> None ->
  find is_default_user (users (txn (db s))) <> None ->
  reads_only (get_invoices client start_date end_date limit) invs ->
  Forall (fun inv => skips client (invoices (txn (db s))) inv = true) invs ->
  exists s',
    import_all client blob limit s = (Ok tt, s') /\
    db s' = db s /\
    counts s' = (success_count s,
                 skipped_count s + Z.of_nat (List.length invs),
                 fail_count s).
Proof.
  intros Hp Hu Hro F. unfold import_all.
  destruct (find is_default_project (projects (txn (db s)))) as [p|] eqn:Ep;
    [clear Hp|congruence].
  destruct (find is_default_user (users (txn (db s)))) as [u|] eqn:Eu;
    [clear Hu|congruence].
  erewrite bind_ok by (apply get_default_project_found; exact Ep).
  erewrite bind_ok by (apply get_default_user_found; exact Eu).
  destruct (Hro s) as (s1 & E1 & D1 & K1).
  erewrite bind_ok by exact E1.
  unfold bind at 1. unfold logger.info, logger.emit.
  set (s2 := set_log _ s1).
  assert (D2 : db s2 = db s) by (subst s2; simpl; exact D1).
  rewrite <- D2 in F.
  destruct (@for_each_all_skipped client blob p u invs s2 F)
    as (s' & E & D & C).
  exists s'. split; [exact E|]. split; [congruence|].
  rewrite C. unfold counts in K1. inversion K1 as [[A1 A2 A3]].
  subst s2. simpl. now rewrite A1, A2, A3.
Qed.

Lemma guarded_run_all_skipped client blob limit invs s :
  find is_default_project (projects (txn (db s))) <> None ->
  find is_default_user (users (txn (db s))) <> None ->
  reads_only (get_invoices client start_date end_date limit) invs ->
  Forall (fun inv => skips client (invoices (txn (db s))) inv = true) invs ->
  exists s',
    try_finally (try_except (import_all client blob limit) critical_error)
                finish s = (Ok tt, s') /\
    committed (db s') = committed (db s) /\
    counts s' = (success_count s,
                 skipped_count s + Z.of_nat (List.length invs),
                 fail_count s).
Proof.
  intros Hp Hu Hro F.
  destruct (@import_all_all_skipped client blob limit invs s Hp Hu Hro F)
    as (s1 & E1 & D1 & C1).
  destruct (finish_spec s1) as (s2 & E2 & D2 & C2).
  exists s2. unfold try_finally, try_except. rewrite E1, E2.
  split; [reflexivity|]. split; congruence.
Qed.

(** A second run over the database a first run left is the first run
    again when that run committed nothing. *)
Lemma second_run_identical limit database s1 :
  process_imports limit (initial_state database) = (Ok tt, s1) ->
  committed (db s1) = database ->
  success_count s1 = 0 ->
  fail_count s1 = 0 ->
  exists s2,
    process_imports limit (initial_state (committed (db s1))) = (Ok tt, s2) /\
    committed (db s2) = committed (db s1) /\
    success_count s2 = 0 /\ fail_count s2 = 0 /\
    skipped_count s2 = success_count s1 + skipped_count s1.
Proof.
  intros E D S F. exists s1. rewrite D. split; [exact E|].
  repeat split; auto. lia.
Qed.

Lemma second_run_all_skipped limit database s1 :
  process_imports limit (initial_state database) = (Ok tt, s1) ->
  fail_count s1 = 0 ->
  exists s2,
    process_imports limit (initial_state (committed (db s1))) = (Ok tt, s2) /\
    committed (db s2) = committed (db s1) /\
    success_count s2 = 0 /\ fail_count s2 = 0 /\
    skipped_count s2 = success_count s1 + skipped_count s1.
Proof.
  intros E Hf.
  destruct (config.all_qb_keys_present cfg) eqn:Hk.
  2:{ unfold process_imports in E. rewrite Hk in E.
      apply second_run_identical with (database := database); auto;
        [|injection E as <-; reflexivity..].
      unfold process_imports. now rewrite Hk. }
  destruct reads_only_blob as [blob Hb].
  destruct reads_only_qb_client as [[client|] Hq].
  2:{ destruct (process_imports_not_connected limit
                  (initial_state database) Hk Hb Hq) as (s & E' & D & C).
      rewrite E in E'. injection E' as <-.
      apply counts_inv in C. destruct C as (C1 & C2 & C3).
      apply second_run_identical with (database := database); auto.
      now rewrite D. }
  destruct (process_imports_connected limit (initial_state database)
              Hk Hb Hq) as (sB & DB & CB & EB).
  rewrite EB in E.
  assert (NB : new (db sB) = empty_store) by now rewrite DB.
  apply counts_inv in CB. destruct CB as (CB1 & CB2 & CB3).
  destruct (@guarded_run_cases client blob limit sB _ _ NB E)
    as [H|(_ & [[D1 C1]|(sF & EA & D1 & C1)])]; [discriminate| |].
  { apply counts_inv in C1. destruct C1 as (C11 & C12 & C13).
    apply second_run_identical with (database := database); auto.
    - now rewrite EB.
    - now rewrite D1, DB.
    - congruence. }
  pose proof (@import_all_cases client blob limit sB _ _ NB EA)
    as (dp & du & invs & sE & Hro & DE & CE & NE & (y & YE & _) & PE & UE
        & EL).
  apply counts_inv in CE. destruct CE as (CE1 & CE2 & CE3).
  apply counts_inv in C1. destruct C1 as (C11 & C12 & C13).
  pose proof (@for_each_process_invoice_counts client blob dp du invs sE sF EL)
    as (_ & _ & _ & Hsum).
  assert (HfF : fail_count sF = fail_count sE) by congruence.
  destruct (@for_each_no_failure client blob dp du invs sE sF NE EL HfF)
    as (NF & (z & ZF) & [[S1 S2]|[S1 S2]] & FF).
  { apply second_run_identical with (database := database); auto.
    - now rewrite EB.
    - rewrite D1, S2, DE, DB. reflexivity.
    - congruence. }
  (* something was imported: the second run finds it all *)
  set (D' := committed (db s1)).
  assert (TF : txn (db sF) = D') by (subst D'; congruence).
  destruct (process_imports_connected limit (initial_state D') Hk Hb Hq)
    as (sB' & DB' & CB' & EB').
  rewrite EB'.
  assert (TB' : txn (db sB') = D') by now rewrite DB'.
  apply counts_inv in CB'. destruct CB' as (B1 & B2 & B3).
  destruct (@guarded_run_all_skipped client blob limit invs sB')
    as (s2 & E2 & D2 & C2).
  - rewrite TB', <- TF, ZF. simpl. now apply find_app_found.
  - rewrite TB', <- TF, ZF. simpl. now apply find_app_found.
  - exact Hro.
  - now rewrite TB', <- TF.
  - exists s2. split; [exact E2|]. split; [now rewrite D2, DB'|].
    apply counts_inv in C2. destruct C2 as (A1 & A2 & A3).
    rewrite A1, A2, A3, B1, B2, B3.
    repeat split; lia.
Qed.

(** * The claims *)

(** C5: an invoice that has a document number, is not a duplicate and
    whose linked transactions hold no entry of type "PurchaseOrder" is
    recorded as Skipped and not as Failed: the skipped counter grows by
    one, the other two are unchanged, the warning is logged, and the
    session is untouched, so no Invoice row nor any other row is
    persisted for it. *)
Theorem C5_no_linked_order_is_skipped client blob dp du inv n s :
  Py.nonempty (qbo.Invoice.DocNumber inv) = Some n ->
  find (fun r => (models.Invoice.invoice_number r =? n)%string)
       (invoices (txn (db s))) = None ->
  Forall (fun txn => qbo.TxnType txn <> "PurchaseOrder")
         (qbo.Invoice.LinkedTxn inv) ->
  exists s',
    process_invoice client blob dp du inv s = (Ok tt, s') /\
    db s' = db s /\
    skipped_count s' = skipped_count s + 1 /\
    fail_count s' = fail_count s /\
    success_count s' = success_count s /\
    log s' = List.app (log s)
      [(WARNING, "Skipping Invoice " ++ n
                 ++ ": No related LPO (PurchaseOrder) found in QB.")].
Proof.
  intros Hn Hdup Hpo.
  pose proof (first_purchase_order_none Hpo) as Hf.
  eexists. split.
  - apply process_invoice_no_lpo with (n := n); [exact Hn|exact Hdup|].
    unfold linked_lpo. now rewrite Hf.
  - unfold linked_lpo_log. rewrite Hf. simpl. auto.
Qed.

(** C10: when the first linked transaction of type "PurchaseOrder" cannot
    be fetched (the remote call raises), [get_lpo_for_invoice] logs the
    error and returns [None] whatever linked transactions follow, and the
    orchestrator records the invoice as Skipped with the same warning as
    for an invoice without linked order: the failed counter is unchanged
    and the session is untouched. *)
Theorem C10_failed_order_fetch_is_skipped client blob dp du inv pre linked post
    e s :
  qbo.Invoice.LinkedTxn inv = List.app pre (linked :: post) ->
  Forall (fun t => qbo.TxnType t <> "PurchaseOrder") pre ->
  qbo.TxnType linked = "PurchaseOrder" ->
  PurchaseOrder_get client (qbo.TxnId linked) = inl e ->
  get_lpo_for_invoice client inv s =
    (Ok None,
     set_log (log s ++ [(ERROR, "QB: Error fetching linked LPO "
                                ++ qbo.TxnId linked ++ ": " ++ exn_msg e)]) s)
  /\
  forall n,
    Py.nonempty (qbo.Invoice.DocNumber inv) = Some n ->
    find (fun r => (models.Invoice.invoice_number r =? n)%string)
         (invoices (txn (db s))) = None ->
    exists s',
      process_invoice client blob dp du inv s = (Ok tt, s') /\
      db s' = db s /\
      skipped_count s' = skipped_count s + 1 /\
      fail_count s' = fail_count s /\
      success_count s' = success_count s /\
      log s' = List.app (log s)
        [(ERROR, "QB: Error fetching linked LPO "
                 ++ qbo.TxnId linked ++ ": " ++ exn_msg e);
         (WARNING, "Skipping Invoice " ++ n
                   ++ ": No related LPO (PurchaseOrder) found in QB.")].
Proof.
  intros Hl Hpre Ht He.
  pose proof (first_purchase_order_found linked post Hpre Ht) as Hf.
  assert (V : linked_lpo client inv = None).
  { unfold linked_lpo. now rewrite Hl, Hf, He. }
  assert (L : linked_lpo_log client inv =
              [(ERROR, "QB: Error fetching linked LPO "
                       ++ qbo.TxnId linked ++ ": " ++ exn_msg e)]).
  { unfold linked_lpo_log. now rewrite Hl, Hf, He. }
  split.
  - rewrite get_lpo_for_invoice_value. now rewrite V, L.
  - intros n Hn Hdup. eexists. split.
    + apply process_invoice_no_lpo with (n := n); assumption.
    + rewrite L. simpl. auto.
Qed.

(** C8, as amended: when one of the five credentials that
    [all_qb_keys_present] requires is absent (unset or empty),
    [process_imports] returns at once: the only effect is two CRITICAL
    log records.  The session, the counters and the uuid source are
    untouched, and the result does not depend on the QuickBooks service,
    on Blob Storage or on the database engine: none of them is contacted.
    The call returns normally, so the script ends with exit status 0: the
    CRITICAL records are the only signal of the aborted run. *)
Theorem C8_missing_credentials_abort_up_front key limit s :
  In key [config.QB_CLIENT_ID cfg; config.QB_CLIENT_SECRET cfg;
          config.QB_ACCESS_TOKEN cfg; config.QB_REFRESH_TOKEN cfg;
          config.QB_REALM_ID cfg] ->
  Py.truthy key = false ->
  let s' :=
    set_log
      (log s ++
       [(CRITICAL, "Missing QuickBooks credentials in .env file.");
        (CRITICAL, "Please run 'python get_oauth_tokens.py' first and copy the tokens to .env")])
      s in
  process_imports limit s = (Ok tt, s') /\
  main limit s = (Ok 0, s') /\
  db s' = db s /\ counts s' = counts s /\ uuids s' = uuids s.
Proof.
  intros Hin Hk.
  assert (A : config.all_qb_keys_present cfg = false).
  { unfold config.all_qb_keys_present.
    apply not_true_is_false. intros H.
    rewrite forallb_forall in H. specialize (H key Hin). congruence. }
  assert (E : process_imports limit s =
    (Ok tt,
     set_log
       (log s ++
        [(CRITICAL, "Missing QuickBooks credentials in .env file.");
         (CRITICAL, "Please run 'python get_oauth_tokens.py' first and copy the tokens to .env")])
       s)).
  { unfold process_imports. rewrite A. cbn.
    unfold logger.critical, logger.emit. cbn. now rewrite <- app_assoc. }
  cbv zeta. split; [exact E|]. split.
  - unfold main. now rewrite E.
  - now destruct s.
Qed.


(** C6: supplier resolution.  (a) A vendor whose display name is empty or
    missing makes it raise [ValueError] without touching the state.
    (b) When a Supplier row carries the display name, that row is returned
    and nothing is created.  (c) Otherwise, the engine accepting the
    flush, a new row with that name is created and flushed: it is returned
    with its key, it is among the rows the transaction sees and nothing
    is left pending.  (d) A later resolution of any vendor with the same
    display name returns that same row and creates nothing, so the table
    holds exactly one row of that name and both orders reference it. *)
Theorem C6_supplier_resolution qb_supplier s :
  (Py.nonempty (qbo.Vendor.DisplayName qb_supplier) = None ->
   get_or_create_supplier qb_supplier s =
     (Raise {| exn_class := ValueError;
               exn_msg := "QB Supplier ID " ++ qbo.Vendor.Id qb_supplier
                          ++ " has no DisplayName." |}, s)) /\
  (forall name row,
     Py.nonempty (qbo.Vendor.DisplayName qb_supplier) = Some name ->
     find (fun r => (models.Supplier.name r =? name)%string)
          (suppliers (txn (db s))) = Some row ->
     get_or_create_supplier qb_supplier s = (Ok row, s)) /\
  (forall name,
     Py.nonempty (qbo.Vendor.DisplayName qb_supplier) = Some name ->
     find (fun r => (models.Supplier.name r =? name)%string)
          (suppliers (txn (db s))) = None ->
     suppliers (new (db s)) = [] ->
     (forall pending, engine_rejects (txn (db s)) pending = None) ->
     exists row s',
       get_or_create_supplier qb_supplier s = (Ok row, s') /\
       models.Supplier.name row = name /\
       suppliers (txn (db s')) = List.app (suppliers (txn (db s))) [row] /\
       new (db s') = empty_store /\
       filter (fun r => (models.Supplier.name r =? name)%string)
              (suppliers (txn (db s'))) = [row] /\
       forall other,
         qbo.Vendor.DisplayName other = qbo.Vendor.DisplayName qb_supplier ->
         get_or_create_supplier other s' = (Ok row, s')).
Proof.
  split; [|split].
  - intros Hn. unfold get_or_create_supplier. now rewrite Hn.
  - intros name row Hn Hf. unfold get_or_create_supplier. rewrite Hn.
    unfold bind, query_first. simpl. now rewrite Hf.
  - intros name Hn Hf Hnew Hacc.
    unfold get_or_create_supplier at 1. rewrite Hn.
    unfold bind, query_first, session_add, session_flush. simpl.
    rewrite Hf. simpl. rewrite Hacc. simpl.
    eexists. eexists. split; [reflexivity|]. simpl.
    rewrite Hnew. simpl.
    assert (Hfind :
      find (fun r => (models.Supplier.name r =? name)%string)
           (suppliers (txn (db s)) ++
            [{| models.Supplier.id :=
                  next_id (map models.Supplier.id
                             (suppliers (txn (db s)) ++ []));
                models.Supplier.name := name;
                models.Supplier.email :=
                  match qbo.Vendor.PrimaryEmailAddr qb_supplier with
                  | Some a => qbo.Address a
                  | None => None
                  end;
                models.Supplier.phone :=
                  match qbo.Vendor.PrimaryPhone qb_supplier with
                  | Some p => qbo.FreeFormNumber p
                  | None => None
                  end |}])%list =
      Some {| models.Supplier.id :=
                next_id (map models.Supplier.id
                           (suppliers (txn (db s)) ++ []));
              models.Supplier.name := name;
              models.Supplier.email :=
                match qbo.Vendor.PrimaryEmailAddr qb_supplier with
                | Some a => qbo.Address a
                | None => None
                end;
              models.Supplier.phone :=
                match qbo.Vendor.PrimaryPhone qb_supplier with
                | Some p => qbo.FreeFormNumber p
                | None => None
                end |}).
    { rewrite find_app_none by exact Hf. simpl. now rewrite String.eqb_refl. }
    repeat split.
    + rewrite filter_app, (filter_find_none _ _ Hf). simpl.
      now rewrite String.eqb_refl.
    + intros other Ho. unfold get_or_create_supplier. rewrite Ho, Hn.
      unfold bind, query_first. simpl. now rewrite Hfind.
Qed.

(** C7: material resolution.  (a) The unit of a Material row it creates
    is a function of the remote item's type alone: "service" for
    'Service', "each" for 'Inventory', "nos" for anything else.  (b) When
    a Material row of the item's name exists, that row is returned as it
    is and the state is untouched, whatever the item's type: the unit is
    never refreshed.  (c) In particular, after a row was created, every
    later resolution of an item of that name, of any type, returns that
    row unchanged. *)
Theorem C7_material_resolution qb_item s :
  (forall name row s',
     Py.nonempty (qbo.Item.Name qb_item) = Some name ->
     find (fun r => (models.Material.name r =? name)%string)
          (materials (txn (db s))) = None ->
     get_or_create_material qb_item s = (Ok row, s') ->
     models.Material.name row = name /\
     (qbo.Item.Type_ qb_item = Some "Service" ->
        models.Material.unit row = "service") /\
     (qbo.Item.Type_ qb_item = Some "Inventory" ->
        models.Material.unit row = "each") /\
     (qbo.Item.Type_ qb_item <> Some "Service" ->
      qbo.Item.Type_ qb_item <> Some "Inventory" ->
        models.Material.unit row = "nos")) /\
  (forall name row,
     Py.nonempty (qbo.Item.Name qb_item) = Some name ->
     find (fun r => (models.Material.name r =? name)%string)
          (materials (txn (db s))) = Some row ->
     get_or_create_material qb_item s = (Ok row, s)) /\
  (forall name row s',
     Py.nonempty (qbo.Item.Name qb_item) = Some name ->
     find (fun r => (models.Material.name r =? name)%string)
          (materials (txn (db s))) = None ->
     materials (new (db s)) = [] ->
     get_or_create_material qb_item s = (Ok row, s') ->
     forall later,
       qbo.Item.Name later = qbo.Item.Name qb_item ->
       get_or_create_material later s' = (Ok row, s')).
Proof.
  split; [|split].
  - intros name row s' Hn Hf E. unfold get_or_create_material in E.
    rewrite Hn in E.
    unfold bind, query_first, session_add, session_flush in E. simpl in E.
    rewrite Hf in E. simpl in E.
    destruct (engine_rejects _ _); inversion E; subst; clear E. simpl.
    unfold Py.str_eq. destruct (qbo.Item.Type_ qb_item) as [ty|].
    + repeat split.
      * intros H. inversion H; subst. reflexivity.
      * intros H. inversion H; subst. reflexivity.
      * intros H1 H2.
        destruct (ty =? "Service")%string eqn:E1.
        { apply String.eqb_eq in E1. subst. now elim H1. }
        destruct (ty =? "Inventory")%string eqn:E2.
        { apply String.eqb_eq in E2. subst. now elim H2. }
        reflexivity.
    + repeat split; intros; try discriminate; reflexivity.
  - intros name row Hn Hf. unfold get_or_create_material. rewrite Hn.
    unfold bind, query_first. simpl. now rewrite Hf.
  - intros name row s' Hn Hf Hnew E later Hl.
    unfold get_or_create_material in E. rewrite Hn in E.
    unfold bind, query_first, session_add, session_flush in E. simpl in E.
    rewrite Hf in E. simpl in E.
    destruct (engine_rejects _ _); inversion E; subst; clear E.
    unfold get_or_create_material. rewrite Hl, Hn.
    unfold bind, query_first. simpl. rewrite Hnew. simpl.
    rewrite find_app_none by exact Hf. simpl. now rewrite String.eqb_refl.
Qed.



(** C9: every Invoice row a run of [process_imports] persists carries a
    non-null reference to a purchase-order row of the database, and its
    supplier, project and user references are non-null and equal to those
    of that purchase order.  The purchase orders the database already
    held are assumed to respect the NOT NULL constraints of models.py on
    these three columns.  An invoice without a resolvable linked order is
    not persisted: it is skipped (C5, C10). *)
Theorem C9_persisted_invoices_are_linked limit database s1 :
  Forall lpo_not_null (lpos database) ->
  process_imports limit (initial_state database) = (Ok tt, s1) ->
  forall row,
    In row (invoices (committed (db s1))) ->
    In row (invoices database) \/
    linked_to_order (lpos (committed (db s1))) row.
Proof.
  intros Hnn E row Hrow.
  destruct (config.all_qb_keys_present cfg) eqn:Hk.
  2:{ unfold process_imports in E. rewrite Hk in E.
      injection E as <-. now left. }
  destruct reads_only_blob as [blob Hb].
  destruct reads_only_qb_client as [[client|] Hq].
  2:{ destruct (process_imports_not_connected limit
                  (initial_state database) Hk Hb Hq) as (s & E' & D & _).
      rewrite E in E'. injection E' as <-. rewrite D in Hrow. now left. }
  destruct (process_imports_connected limit (initial_state database)
              Hk Hb Hq) as (sB & DB & _ & EB).
  rewrite EB in E.
  assert (NB : new (db sB) = empty_store) by now rewrite DB.
  destruct (@guarded_run_cases client blob limit sB _ _ NB E)
    as [H|(_ & [[D1 _]|(sF & EA & D1 & _)])]; [discriminate| |].
  { rewrite D1, DB in Hrow. now left. }
  pose proof (@import_all_cases client blob limit sB _ _ NB EA)
    as (dp & du & invs & sE & _ & DE & _ & NE & (y & YE & Hy1 & Hy2) & _ & _
        & EL).
  assert (CE : committed (db sE) = database) by now rewrite DE, DB.
  assert (TE : txn (db sB) = database) by now rewrite DB.
  assert (HL : headers_linked (invoices database) sE).
  { split; [exact NE|]. rewrite YE, TE, CE. simpl. rewrite Hy1, Hy2.
    rewrite !app_nil_r. repeat split; auto. }
  pose proof (for_each_headers_linked _ _ _ _ _ HL EL)
    as (_ & _ & _ & _ & K).
  rewrite D1 in *. now apply K.
Qed.

(** C1 (amended): the loop body records an invoice whose document number
    is the [invoice_number] of an Invoice row the transaction sees as
    Skipped ("Already exists"): the skipped counter grows by one, the
    warning is logged and the session is untouched, so no row is created
    or updated for it.  Consequently, when a first run reported no Failed
    invoice, a second run against the same remote data and the database
    the first run left commits no row, imports and fails nothing, and
    reports as Skipped every invoice the first run imported or skipped. *)
Theorem C1_rerun_skips_what_was_imported :
  (forall client blob dp du inv n row s,
     Py.nonempty (qbo.Invoice.DocNumber inv) = Some n ->
     find (fun r => (models.Invoice.invoice_number r =? n)%string)
          (invoices (txn (db s))) = Some row ->
     process_invoice client blob dp du inv s =
       (Ok tt,
        set_counts (success_count s) (skipped_count s + 1) (fail_count s)
          (set_log
             (List.app (log s)
                [(WARNING, "Skipping Invoice " ++ n
                           ++ ": Already exists in database.")])
             s))) /\
  (forall limit database s1,
     process_imports limit (initial_state database) = (Ok tt, s1) ->
     fail_count s1 = 0 ->
     exists s2,
       process_imports limit (initial_state (committed (db s1)))
         = (Ok tt, s2) /\
       committed (db s2) = committed (db s1) /\
       success_count s2 = 0 /\
       fail_count s2 = 0 /\
       skipped_count s2 = success_count s1 + skipped_count s1).
Proof.
  split.
  - intros client blob dp du inv n row s Hn Hdup.
    unfold process_invoice. rewrite Hn.
    unfold try_except, import_invoice.
    unfold bind at 1. unfold query_first at 1.
    change (rows tables.Invoice (txn (db s))) with (invoices (txn (db s))).
    rewrite Hdup. reflexivity.
  - apply second_run_all_skipped.
Qed.

(** * Further properties of the pipeline *)

(** ** Lemmas on whole runs *)

Lemma snoc2 {A : Type} (l : list A) a b :
  ((l ++ [a]) ++ [b] = l ++ [a; b])%list.
Proof. now rewrite <- app_assoc. Qed.

Lemma snoc4 {A : Type} (l : list A) a b c d :
  ((((l ++ [a]) ++ [b]) ++ [c]) ++ [d] = l ++ [a; b; c; d])%list.
Proof. now rewrite <- !app_assoc. Qed.

(** With a limit the invoice query is a single call. *)
Lemma get_invoices_limited client a b limit l :
  Py.nonzero limit = Some l ->
  exists v, reads_only (get_invoices client a b limit) v.
Proof.
  intros Hl. unfold get_invoices. rewrite Hl.
  destruct (Invoice_query client _) as [e|invoices].
  - exists []. apply reads_only_emit, reads_only_ret.
  - exists invoices. apply reads_only_emit, reads_only_ret.
Qed.

(** Only the unlimited invoice query can fail to terminate. *)
Lemma import_all_diverges client blob limit s s' :
  new (db s) = empty_store ->
  import_all client blob limit s = (Diverge, s') ->
  Py.nonzero limit = None.
Proof.
  intros Hnew E. unfold import_all in E.
  apply bind_inv in E.
  destruct E as [(dp & sC & E1 & E)|[(e & E1 & D)|(E1 & _)]];
    [|discriminate|now destruct (get_default_project_cases _ Hnew E1)].
  destruct (get_default_project_cases _ Hnew E1) as [(_ & _ & N1 & _) _].
  apply bind_inv in E.
  destruct E as [(du & sD & E2 & E)|[(e & E2 & D)|(E2 & _)]];
    [|discriminate|now destruct (get_default_user_cases _ N1 E2)].
  destruct (Py.nonzero limit) as [l|] eqn:Hl; [exfalso|reflexivity].
  destruct (get_invoices_limited client start_date end_date limit Hl)
    as [invs Hro].
  destruct (Hro sD) as (sD' & E3 & _).
  erewrite bind_ok in E by exact E3.
  unfold bind at 1 in E. unfold logger.info, logger.emit in E.
  match type of E with
  | for_each _ _ ?sE = _ =>
      destruct (for_each_process_invoice_total client blob dp du invs sE)
        as (sF & EF)
  end.
  rewrite EF in E. discriminate.
Qed.

(** The [finally] block closes the session and logs the summary. *)
Lemma finish_closes s :
  finish s =
    (Ok tt,
     set_log
       (log s ++
        [(INFO, "--- Import Process Finished ---");
         (INFO, "Summary: " ++ Py.str (success_count s) ++ " Succeeded, "
                ++ Py.str (skipped_count s) ++ " Skipped, "
                ++ Py.str (fail_count s) ++ " Failed.")])
       (set_db (opened (db s)) s)).
Proof.
  unfold finish, bind, session_close, session_rollback, logger.info,
    logger.emit. cbn. unfold set_log. cbn. now rewrite snoc2.
Qed.

(** The loop keeps the session consistent and only appends to the
    committed rows. *)
Lemma for_each_only_adds client blob dp du invs :
  forall s s',
    new (db s) = empty_store ->
    (exists y, txn (db s) = store_app (committed (db s)) y) ->
    for_each invs (process_invoice client blob dp du) s = (Ok tt, s') ->
    exists x, committed (db s') = store_app (committed (db s)) x.
Proof.
  induction invs as [|inv invs IH]; intros s s' Hnew [y Hy] E.
  - inversion E; subst. exists empty_store. now rewrite store_app_empty_r.
  - simpl in E.
    destruct (process_invoice_cases client blob dp du inv s)
      as (s1 & E1 & K).
    erewrite bind_ok in E by exact E1.
    destruct K as [(_ & D & _)|[(_ & _ & C & T & N & _)|(_ & K)]].
    + apply IH in E; [|now rewrite D|exists y; now rewrite D].
      now rewrite D in E.
    + apply IH in E;
        [|exact N|exists empty_store; now rewrite T, C, store_app_empty_r].
      now rewrite C in E.
    + destruct K as (n & qb_lpo & lpo_number & db_lpo & x & _ & _ & _ & _
                     & C & T & N & _).
      apply IH in E;
        [|exact N|exists empty_store; now rewrite T, store_app_empty_r].
      destruct E as [x' E]. exists (store_app (store_app y x) x').
      rewrite E, C. unfold all. rewrite Hnew, store_app_empty_r, Hy.
      now rewrite !store_app_assoc.
Qed.

Lemma get_qb_client_connected client infos :
  QuickBooks_connect = inr client ->
  CompanyInfo_all client = inr infos ->
  reads_only get_qb_client (Some client).
Proof.
  intros Hc Hi. unfold get_qb_client. rewrite Hc, Hi.
  destruct infos; apply reads_only_emit, reads_only_ret.
Qed.

(** X1: a run only adds rows.  Whatever [process_imports] does, the
    database it leaves is the database it found followed, table by table,
    by the rows it committed: no row is deleted or rewritten. *)
Theorem a_run_only_adds_rows limit s s1 :
  process_imports limit s = (Ok tt, s1) ->
  exists x, committed (db s1) = store_app (committed (db s)) x.
Proof.
  intros E.
  assert (Same : forall s',
            committed (db s') = committed (db s) ->
            exists x, committed (db s') = store_app (committed (db s)) x).
  { intros s' ->. exists empty_store. now rewrite store_app_empty_r. }
  destruct (config.all_qb_keys_present cfg) eqn:Hk.
  2:{ unfold process_imports in E. rewrite Hk in E. cbn in E.
      inversion E. apply Same. reflexivity. }
  destruct reads_only_blob as [blob Hb].
  destruct reads_only_qb_client as [[client|] Hq].
  2:{ destruct (process_imports_not_connected limit s Hk Hb Hq)
        as (s2 & E2 & D & _).
      rewrite E in E2. inversion E2; subst s2. apply Same. now rewrite D. }
  destruct (process_imports_connected limit s Hk Hb Hq)
    as (sB & DB & KB & EB).
  rewrite EB in E.
  assert (NB : new (db sB) = empty_store) by now rewrite DB.
  assert (CB : committed (db sB) = committed (db s)) by now rewrite DB.
  assert (TB : txn (db sB) = committed (db sB)) by now rewrite DB.
  destruct (@guarded_run_cases client blob limit sB _ _ NB E)
    as [D|[_ [[C _]|(sF & EF & C & _)]]]; [discriminate| |].
  - apply Same. congruence.
  - pose proof (import_all_cases _ _ _ _ NB EF)
      as (dp & du & invs & sE & _ & CE & _ & NE & (y & TE & _) & _ & _ & Loop).
    apply for_each_only_adds in Loop;
      [|exact NE|exists y; now rewrite TE, TB, CE].
    destruct Loop as [x Hx]. exists x. congruence.
Qed.

(** X2: no exception escapes [process_imports].  It returns normally, or
    the pagination of an unlimited invoice query does not end within
    [page_fuel] pages; and when the credentials are present and it
    returns, the session is closed: nothing flushed or pending is left
    uncommitted. *)
Theorem process_imports_never_raises limit s :
  let run := process_imports limit s in
  (fst run = Ok tt \/ (Py.nonzero limit = None /\ fst run = Diverge)) /\
  (config.all_qb_keys_present cfg = true ->
   fst run = Ok tt ->
   txn (db (snd run)) = committed (db (snd run)) /\
   new (db (snd run)) = empty_store).
Proof.
  cbv zeta.
  destruct (config.all_qb_keys_present cfg) eqn:Hk.
  2:{ split; [|discriminate]. left.
      unfold process_imports. rewrite Hk. reflexivity. }
  destruct reads_only_blob as [blob Hb].
  destruct reads_only_qb_client as [[client|] Hq].
  2:{ destruct (process_imports_not_connected limit s Hk Hb Hq)
        as (s2 & E2 & D & _).
      rewrite E2. cbn [fst snd]. rewrite D. split; [now left|now split]. }
  destruct (process_imports_connected limit s Hk Hb Hq)
    as (sB & DB & KB & EB).
  rewrite EB.
  assert (NB : new (db sB) = empty_store) by now rewrite DB.
  unfold try_finally, try_except.
  destruct (import_all client blob limit sB) as [[[]|e|] sF] eqn:EA.
  - rewrite finish_closes. cbn [fst snd]. split; [now left|now split].
  - unfold critical_error, bind, logger.critical, logger.emit,
      session_rollback.
    rewrite finish_closes. cbn [fst snd]. split; [now left|now split].
  - cbn [fst snd]. split; [|discriminate]. right.
    split; [|reflexivity]. exact (import_all_diverges _ _ _ _ NB EA).
Qed.

(** X3: the summary accounts for every invoice fetched.  When QuickBooks
    is reachable, a run that returns ends its log with the summary line
    carrying its three counters; unless a critical error stopped it (all
    three counters are then 0), their sum is the number of invoices
    [get_invoices] returned: each one is counted exactly once as
    Succeeded, Skipped or Failed. *)
Theorem summary_accounts_for_every_invoice client infos limit s s1 :
  config.all_qb_keys_present cfg = true ->
  QuickBooks_connect = inr client ->
  CompanyInfo_all client = inr infos ->
  process_imports limit s = (Ok tt, s1) ->
  exists before,
    log s1 =
      List.app before
        [(INFO, "--- Import Process Finished ---");
         (INFO, "Summary: " ++ Py.str (success_count s1) ++ " Succeeded, "
                ++ Py.str (skipped_count s1) ++ " Skipped, "
                ++ Py.str (fail_count s1) ++ " Failed.")] /\
    0 <= success_count s1 /\ 0 <= skipped_count s1 /\ 0 <= fail_count s1 /\
    ((exists invs,
        reads_only (get_invoices client start_date end_date limit) invs /\
        success_count s1 + skipped_count s1 + fail_count s1 = Py.len invs)
     \/
     (counts s1 = (0, 0, 0) /\
      exists e,
        In (CRITICAL, "A critical error occurred: " ++ exn_msg e
                      ++ ". Rolling back any pending changes.") before)).
Proof.
  intros Hk Hc Hi E.
  destruct reads_only_blob as [blob Hb].
  pose proof (get_qb_client_connected Hc Hi) as Hq.
  destruct (process_imports_connected limit s Hk Hb Hq)
    as (sB & DB & KB & EB).
  rewrite EB in E.
  assert (NB : new (db sB) = empty_store) by now rewrite DB.
  unfold counts in KB. injection KB as K1 K2 K3.
  unfold try_finally, try_except in E.
  destruct (import_all client blob limit sB) as [[[]|e|] sF] eqn:EA.
  - rewrite finish_closes in E. inversion E; subst s1; clear E.
    exists (log sF). cbn. split; [reflexivity|].
    pose proof (import_all_cases _ _ _ _ NB EA)
      as (dp & du & invs & sE & Hro & _ & KE & _ & _ & _ & _ & Loop).
    apply for_each_process_invoice_counts in Loop.
    unfold counts in KE. injection KE as L1 L2 L3.
    unfold Py.len.
    repeat split; try lia. left. exists invs. split; [exact Hro|lia].
  - pose proof (import_all_cases _ _ _ _ NB EA) as [_ KF].
    unfold counts in KF. injection KF as L1 L2 L3.
    unfold critical_error, bind, logger.critical, logger.emit,
      session_rollback in E.
    rewrite finish_closes in E. inversion E; subst s1; clear E.
    eexists. cbn. split; [reflexivity|].
    repeat split; try lia. right. split.
    + unfold counts. cbn. congruence.
    + exists e. apply in_or_app. left. apply in_or_app. right. now left.
  - discriminate.
Qed.

(** X4: when QuickBooks cannot be reached (the client cannot be built, or
    the CompanyInfo test call fails), [process_imports] logs the error
    and returns: the session is opened and closed without a write, no
    invoice is counted, no uuid is drawn, and the log ends with the
    CRITICAL record of the failed connection; the summary line is not
    logged. *)
Theorem quickbooks_unreachable_stops_the_run limit s e :
  config.all_qb_keys_present cfg = true ->
  match QuickBooks_connect with
  | inl e' => e' = e
  | inr client => CompanyInfo_all client = inl e
  end ->
  exists s1 before,
    process_imports limit s = (Ok tt, s1) /\
    db s1 = opened (db s) /\
    counts s1 = counts s /\
    uuids s1 = uuids s /\
    log s1 =
      List.app before
        [(ERROR, "Failed to initialize QuickBooks client: " ++ exn_msg e);
         (ERROR, "Please check your QB_... credentials in the .env file.");
         (ERROR, "If this is your first time, run 'python get_oauth_tokens.py' first.");
         (CRITICAL, "Failed to connect to QuickBooks. Exiting.")].
Proof.
  intros Hk Hq. unfold process_imports. rewrite Hk. cbn [negb].
  unfold get_qb_client, get_azure_blob_service_client.
  destruct QuickBooks_connect as [e'|client]; [subst e'|rewrite Hq];
    (destruct (Py.nonzero limit);
     (destruct (Py.nonempty (config.AZURE_CONNECTION_STRING cfg)) as [c|];
      [destruct (from_connection_string c)|]);
     cbn; eexists; eexists;
     (split; [reflexivity|]); cbn;
     (split; [reflexivity|]); (split; [reflexivity|]);
     (split; [reflexivity|]); apply snoc4).
Qed.

(** X5: when the default project is not in the database and the engine
    refuses every insertion (the database is read-only or down), the run
    stops at the first flush, before any invoice is fetched: the error is
    logged as critical, the session is rolled back and closed, and the
    summary reads 0 Succeeded, 0 Skipped, 0 Failed. *)
Theorem refused_default_project_is_critical client infos limit s e :
  config.all_qb_keys_present cfg = true ->
  QuickBooks_connect = inr client ->
  CompanyInfo_all client = inr infos ->
  find is_default_project (projects (committed (db s))) = None ->
  (forall pending, engine_rejects (committed (db s)) pending = Some e) ->
  exists s1 before,
    process_imports limit s = (Ok tt, s1) /\
    db s1 = opened (db s) /\
    counts s1 = (0, 0, 0) /\
    log s1 =
      List.app before
        [(INFO, "Creating 'Default Imported Project'");
         (CRITICAL, "A critical error occurred: " ++ exn_msg e
                    ++ ". Rolling back any pending changes.");
         (CRITICAL, format_exc e);
         (INFO, "--- Import Process Finished ---");
         (INFO, "Summary: 0 Succeeded, 0 Skipped, 0 Failed.")].
Proof.
  intros Hk Hc Hi Hf Hr.
  destruct reads_only_blob as [blob Hb].
  pose proof (get_qb_client_connected Hc Hi) as Hq.
  destruct (process_imports_connected limit s Hk Hb Hq)
    as (sB & DB & KB & EB).
  rewrite EB. unfold counts in KB. injection KB as K1 K2 K3.
  assert (EA : import_all client blob limit sB =
               (Raise e,
                set_db {| committed := committed (db s);
                          txn := committed (db s);
                          new := only tables.Project
                                   [{| models.Project.id :=
                                         next_id (map models.Project.id
                                           (projects (committed (db s))));
                                       models.Project.name :=
                                         "Default Imported Project" |}] |}
                  (set_log
                     (log sB ++ [(INFO, "Creating 'Default Imported Project'")])
                     sB))).
  { unfold import_all, get_default_project, bind at 1.
    unfold bind at 1, query_first. rewrite DB. cbn [opened txn rows tables.Project].
    fold is_default_project. rewrite Hf.
    unfold bind at 1, logger.info, logger.emit.
    unfold bind at 1, session_add. cbn.
    unfold bind at 1, session_flush. cbn. rewrite DB. cbn.
    rewrite Hr. rewrite app_nil_r. reflexivity. }
  unfold try_finally, try_except. rewrite EA.
  unfold critical_error, bind, logger.critical, logger.emit, session_rollback.
  rewrite finish_closes. cbn.
  eexists. exists (log sB).
  split; [reflexivity|]. unfold counts. cbn. rewrite K1, K2, K3.
  split; [reflexivity|]. split; [reflexivity|].
  now rewrite <- !app_assoc.
Qed.

(** ** Lemmas on the loop body *)

Lemma linked_lpo_found_logs_nothing client inv qb_lpo :
  linked_lpo client inv = Some qb_lpo -> linked_lpo_log client inv = [].
Proof.
  unfold linked_lpo, linked_lpo_log.
  destruct (first_purchase_order _) as [t|]; [|discriminate].
  now destruct (PurchaseOrder_get client (qbo.TxnId t)).
Qed.

Lemma closed_invoice_rows :
  closed (fun x => invoices x = [] /\ order_untouched x).
Proof.
  split; [repeat split|].
  intros a b (A1 & A2 & A3 & A4 & A5) (B1 & B2 & B3 & B4 & B5).
  unfold order_untouched. simpl.
  rewrite A1, A2, A3, A4, A5, B1, B2, B3, B4, B5. repeat split.
Qed.

(** The attachments of an invoice go to the table of invoice
    attachments. *)
Lemma helper_invoice_attachments (P : Store -> Prop) client blob object_id
    db_object :
  closed P ->
  (forall r, P (only tables.InvoiceAttachment [r])) ->
  helper (process_attachments client blob "Invoice" object_id db_object)
         (fun _ => P).
Proof.
  intros C HP. unfold process_attachments.
  apply helper_seq; [exact C|apply helper_get_attachments, C|intros atts].
  apply helper_for_each; [exact C|intros att].
  unfold process_attachment.
  destruct (Py.nonempty (qbo.Attachable.FileName att)); [|helper_tac C].
  apply helper_seq; [exact C|apply helper_download_attachment, C|intros fc].
  destruct (Py.nonempty fc); [|helper_tac C].
  apply helper_seq;
    [exact C|apply helper_upload_attachment_to_azure, C|intros url].
  destruct (Py.nonempty url); [|helper_tac C].
  change ("Invoice" =? "PurchaseOrder")%string with false.
  change ("Invoice" =? "Invoice")%string with true. cbv iota.
  helper_tac C. apply helper_add_closed; auto with tables.
Qed.

(** Creating the invoice of an order that is already known adds the
    invoice header and rows of the invoice only. *)
Lemma commits_invoice_rows client blob inv n db_lpo :
  commits
    (logger.info ("Creating new Invoice " ++ n) ;;
     db_invoice <- session_add tables.Invoice (new_invoice inv n db_lpo) ;;
     process_invoice_items client inv db_invoice ;;
     process_attachments client blob "Invoice" (qbo.Invoice.Id inv)
       (models.Invoice.id db_invoice) ;;
     session_commit ;;
     logger.info ("--- SUCCESSFULLY IMPORTED INVOICE " ++ n ++ " ---") ;;
     incr_success)
    (fun x => (exists id, invoices x = [new_invoice inv n db_lpo id]) /\
              order_untouched x).
Proof.
  pose proof closed_invoice_rows as C.
  assert (Join : forall x1 x2 id,
            invoices x1 = [new_invoice inv n db_lpo id] /\ order_untouched x1 ->
            invoices x2 = [] /\ order_untouched x2 ->
            (exists id', invoices (store_app x1 x2)
                         = [new_invoice inv n db_lpo id']) /\
            order_untouched (store_app x1 x2)).
  { intros x1 x2 id (A1 & A2 & A3 & A4 & A5) (B1 & B2 & B3 & B4 & B5).
    unfold order_untouched. simpl.
    rewrite A1, A2, A3, A4, A5, B1, B2, B3, B4, B5.
    split; [exists id; reflexivity|repeat split]. }
  eapply commits_then; [apply helper_emit, C| |].
  2:{ intros x1 x2 (A1 & A2 & A3 & A4 & A5) [(id & B1) (B2 & B3 & B4 & B5)].
      unfold order_untouched. simpl.
      rewrite A1, A2, A3, A4, A5, B1, B2, B3, B4, B5.
      split; [exists id; reflexivity|repeat split]. }
  intros _.
  eapply commits_bind with
    (Q2 := fun _ x => invoices x = [] /\ order_untouched x);
    [apply helper_add, law_Invoice| |].
  2:{ intros a x1 x2 [-> (id & ->)] H2.
      apply (Join _ _ id); [|exact H2]. repeat split. }
  intros db_invoice.
  eapply commits_then;
    [apply helper_process_invoice_items;
       [exact C|intros r; repeat split|intros r; repeat split]| |].
  2:{ intros x1 x2 H1 H2. now apply C. }
  intros _.
  eapply commits_then;
    [apply helper_invoice_attachments; [exact C|intros r; repeat split]| |].
  2:{ intros x1 x2 H1 H2. now apply C. }
  intros _. intros s r s' E. pose proof (@commits_commit _ _ _ _ E) as K.
  destruct r; auto. destruct K as (x & -> & K). exists empty_store.
  split; [apply C|exact K].
Qed.

(** X6: an invoice without a document number, and an invoice whose linked
    purchase order has none, are skipped: one WARNING record, one more
    Skipped, and nothing else changes (no query result is kept, no row is
    staged). *)
Theorem missing_numbers_are_skipped client blob dp du inv s :
  (Py.nonempty (qbo.Invoice.DocNumber inv) = None ->
   process_invoice client blob dp du inv s =
     (Ok tt,
      set_counts (success_count s) (skipped_count s + 1) (fail_count s)
        (set_log
           (log s ++
            [(WARNING, "Skipping QB Invoice ID " ++ qbo.Invoice.Id inv
                       ++ ": It has no Invoice Number (DocNumber).")])
           s))) /\
  (forall n qb_lpo,
     Py.nonempty (qbo.Invoice.DocNumber inv) = Some n ->
     find (fun r => (models.Invoice.invoice_number r =? n)%string)
          (invoices (txn (db s))) = None ->
     linked_lpo client inv = Some qb_lpo ->
     Py.nonempty (qbo.PurchaseOrder.DocNumber qb_lpo) = None ->
     process_invoice client blob dp du inv s =
       (Ok tt,
        set_counts (success_count s) (skipped_count s + 1) (fail_count s)
          (set_log
             (log s ++
              [(WARNING, "Skipping Invoice " ++ n ++ ": Linked LPO "
                         ++ qbo.PurchaseOrder.Id qb_lpo
                         ++ " has no LPO Number (DocNumber).")])
             s))).
Proof.
  split.
  - intros Hn. unfold process_invoice. now rewrite Hn.
  - intros n qb_lpo Hn Hdup Hl Hln. unfold process_invoice. rewrite Hn.
    unfold try_except, import_invoice.
    unfold bind at 1. unfold query_first at 1.
    change (rows tables.Invoice (txn (db s))) with (invoices (txn (db s))).
    rewrite Hdup. erewrite bind_ok by apply get_lpo_for_invoice_value.
    rewrite Hl, Hln, (linked_lpo_found_logs_nothing _ _ Hl).
    cbn. now rewrite app_nil_r.
Qed.

(** X7: an invoice whose purchase order is already in the database (a row
    with the order's document number) is linked to that row, and the
    order is neither re-created nor updated: the import commits the
    invoice header built on the stored row (its key and its supplier,
    project and user) and adds no supplier, order, order line or order
    attachment. *)
Theorem existing_order_is_linked_not_recreated client blob dp du inv n
    qb_lpo lpo_number row s s' :
  Py.nonempty (qbo.Invoice.DocNumber inv) = Some n ->
  find (fun r => (models.Invoice.invoice_number r =? n)%string)
       (invoices (txn (db s))) = None ->
  linked_lpo client inv = Some qb_lpo ->
  Py.nonempty (qbo.PurchaseOrder.DocNumber qb_lpo) = Some lpo_number ->
  find (fun r => (models.LPO.lpo_number r =? lpo_number)%string)
       (lpos (txn (db s))) = Some row ->
  process_invoice client blob dp du inv s = (Ok tt, s') ->
  success_count s' = success_count s + 1 ->
  exists x id,
    committed (db s') = store_app (all (db s)) x /\
    invoices x = [new_invoice inv n row id] /\
    order_untouched x.
Proof.
  intros Hn Hdup Hl Hln Hrow E Hs.
  unfold process_invoice in E. rewrite Hn in E. unfold try_except in E.
  destruct (import_invoice client blob dp du inv n s) as [r s1] eqn:EI.
  unfold import_invoice in EI.
  unfold bind at 1 in EI. unfold query_first at 1 in EI.
  change (rows tables.Invoice (txn (db s))) with (invoices (txn (db s)))
    in EI.
  rewrite Hdup in EI.
  erewrite bind_ok in EI by apply get_lpo_for_invoice_value.
  rewrite Hl, Hln in EI.
  set (s0 := set_log (log s ++ linked_lpo_log client inv) s) in *.
  unfold bind at 1 in EI. unfold query_first at 1 in EI.
  change (rows tables.LPO (txn (db s0))) with (lpos (txn (db s))) in EI.
  rewrite Hrow in EI.
  assert (K : commits
    (db_lpo0 <-
       (logger.info
          ("Found existing LPO " ++ lpo_number ++ " (ID: "
           ++ Py.str (models.LPO.id row) ++ "). Linking to it.") ;;
        ret row) ;;
     logger.info ("Creating new Invoice " ++ n) ;;
     db_invoice <- session_add tables.Invoice (new_invoice inv n db_lpo0) ;;
     process_invoice_items client inv db_invoice ;;
     process_attachments client blob "Invoice" (qbo.Invoice.Id inv)
       (models.Invoice.id db_invoice) ;;
     session_commit ;;
     logger.info ("--- SUCCESSFULLY IMPORTED INVOICE " ++ n ++ " ---") ;;
     incr_success)
    (fun x => (exists id, invoices x = [new_invoice inv n row id]) /\
              order_untouched x)).
  { pose proof closed_invoice_rows as C.
    eapply commits_bind with
      (Q1 := fun a x => (invoices x = [] /\ order_untouched x) /\ a = row)
      (Q2 := fun a x =>
         (exists id, invoices x = [new_invoice inv n a id]) /\
         order_untouched x).
    - eapply helper_then
        with (P := fun x => invoices x = [] /\ order_untouched x);
        [apply helper_emit, C| |].
      + intros _. apply helper_ret. split; [apply C|reflexivity].
      + intros b x1 x2 H1 [H2 ->]. split; [now apply C|reflexivity].
    - intros a. apply commits_invoice_rows.
    - intros a x1 x2 [(A1 & A2 & A3 & A4 & A5) ->]
        [(id & B1) (B2 & B3 & B4 & B5)].
      unfold order_untouched. simpl.
      rewrite A1, A2, A3, A4, A5, B1, B2, B3, B4, B5.
      split; [exists id; reflexivity|repeat split]. }
  specialize (K _ _ _ EI). destruct r as [[]|e|]; [| |contradiction].
  - inversion E; subst s1; clear E.
    destruct K as (x & ((id & Hi) & Hu) & Hcm & _).
    exists x, id. split; [exact Hcm|]. now split.
  - exfalso. destruct K as [_ K]. unfold counts in K. injection K as K1 _ _.
    unfold invoice_failed, bind, logger.error, logger.emit, session_rollback,
      incr_fail in E.
    inversion E; subst s'; clear E. cbn in Hs. cbn in K1. lia.
Qed.

(** X8: the header of an imported invoice.  The committed row carries the
    remote document number, dates and memos; its status is "Paid" when
    the remote balance is zero and "Pending" otherwise; its payment mode
    is empty. *)
Theorem imported_invoice_header client blob dp du inv s s' :
  process_invoice client blob dp du inv s = (Ok tt, s') ->
  success_count s' = success_count s + 1 ->
  exists x r,
    committed (db s') = store_app (all (db s)) x /\
    invoices x = [r] /\
    Py.nonempty (qbo.Invoice.DocNumber inv)
      = Some (models.Invoice.invoice_number r) /\
    models.Invoice.invoice_date r = qbo.Invoice.TxnDate inv /\
    models.Invoice.invoice_due_date r = qbo.Invoice.DueDate inv /\
    (Decimal.coefficient (qbo.Invoice.Balance inv) = 0 ->
     models.Invoice.status r = "Paid") /\
    (Decimal.coefficient (qbo.Invoice.Balance inv) <> 0 ->
     models.Invoice.status r = "Pending") /\
    models.Invoice.message_to_customer r = qbo.Invoice.CustomerMemo inv /\
    models.Invoice.memo r = qbo.Invoice.PrivateNote inv /\
    models.Invoice.payment_mode r = None.
Proof.
  intros E Hs.
  destruct (process_invoice_cases client blob dp du inv s) as (s1 & E1 & K).
  rewrite E in E1. inversion E1; subst s1; clear E1.
  destruct K as [(_ & _ & K)|[(_ & _ & _ & _ & _ & K)|(_ & K)]];
    try (unfold counts in K; inversion K; lia).
  destruct K as (n & qb_lpo & lpo_number & db_lpo & x & Hn & _ & _
                 & [(id & Hi) _] & Hcm & _).
  exists x, (new_invoice inv n db_lpo id).
  split; [exact Hcm|]. split; [exact Hi|]. split; [exact Hn|].
  cbn. unfold Decimal.is_zero. repeat split.
  - intros ->. reflexivity.
  - intros Hb. apply Z.eqb_neq in Hb. now rewrite Hb.
Qed.

(** ** The invoice query *)

(** The pagination loop over a remote service that answers the pages
    [pages], none of them empty, and then an empty page ([last] is
    [None]) or an error. *)
Lemma get_invoices_pages_spec client query (last : option Exn) :
  forall pages fuel start acc,
    Forall (fun p : list qbo.Invoice.t => p <> []) pages ->
    (forall i, (i < List.length pages)%nat ->
       Invoice_query client
         (query ++ " STARTPOSITION " ++ Py.str (start + 100 * Z.of_nat i)
            ++ " MAXRESULTS 100") = inr (nth i pages [])) ->
    Invoice_query client
      (query ++ " STARTPOSITION "
         ++ Py.str (start + 100 * Z.of_nat (List.length pages))
         ++ " MAXRESULTS 100") =
      match last with Some e => inl e | None => inr [] end ->
    (List.length pages < fuel)%nat ->
    get_invoices_pages fuel client query start acc =
      match last with
      | Some e => Raise e
      | None => Ok (List.app acc (List.concat pages))
      end.
Proof.
  induction pages as [|p pages IH]; intros fuel start acc Hne Hq Hlast Hfuel.
  - destruct fuel as [|fuel]; [inversion Hfuel|].
    cbn [List.length Z.of_nat] in Hlast.
    rewrite Z.mul_0_r, Z.add_0_r in Hlast.
    cbn [get_invoices_pages]. cbv zeta.
    change (" MAXRESULTS " ++ Py.str 100) with " MAXRESULTS 100". rewrite Hlast.
    destruct last as [e|]; [reflexivity|].
    cbn. now rewrite app_nil_r.
  - destruct fuel as [|fuel]; [inversion Hfuel|].
    cbn [get_invoices_pages]. cbv zeta.
    change (" MAXRESULTS " ++ Py.str 100) with " MAXRESULTS 100".
    pose proof (Hq 0%nat ltac:(cbn; lia)) as H0.
    cbn [Z.of_nat nth] in H0. rewrite Z.mul_0_r, Z.add_0_r in H0.
    rewrite H0. inversion Hne as [|p' ps' Hp Hps]; subst.
    destruct p as [|x xs]; [now elim Hp|].
    rewrite (IH fuel (start + 100) (List.app acc (x :: xs)) Hps).
    + destruct last; [reflexivity|].
      cbn [List.concat]. now rewrite <- !app_assoc.
    + intros i Hi. specialize (Hq (S i) ltac:(cbn; lia)).
      cbn [nth] in Hq.
      replace (start + 100 + 100 * Z.of_nat i)
        with (start + 100 * Z.of_nat (S i)) by lia.
      exact Hq.
    + cbn [List.length] in Hlast.
      replace (start + 100 + 100 * Z.of_nat (List.length pages))
        with (start + 100 * Z.of_nat (S (List.length pages))) by lia.
      exact Hlast.
    + cbn in Hfuel. lia.
Qed.

(** X9: the unlimited invoice query (no limit, or limit 0) follows the
    pages in steps of 100, from position 1, until an empty page, and
    returns the invoices of all pages in order. *)
Theorem unlimited_query_concatenates_pages client a b limit pages s :
  Py.nonzero limit = None ->
  Forall (fun p : list qbo.Invoice.t => p <> []) pages ->
  (forall i, (i <= List.length pages)%nat ->
     Invoice_query client
       (("SELECT * FROM Invoice WHERE TxnDate >= '" ++ a
           ++ "' AND TxnDate <= '" ++ b ++ "'")
          ++ " STARTPOSITION " ++ Py.str (1 + 100 * Z.of_nat i)
          ++ " MAXRESULTS 100") = inr (nth i pages [])) ->
  (List.length pages < page_fuel)%nat ->
  get_invoices client a b limit s =
    (Ok (List.concat pages),
     set_log
       (log s ++
        [(INFO, "QB: Found a total of " ++ Py.str (Py.len (List.concat pages))
                ++ " invoices.")])
       s).
Proof.
  intros Hl Hne Hq Hfuel. unfold get_invoices. rewrite Hl.
  rewrite (@get_invoices_pages_spec client _ None pages page_fuel 1 [] Hne).
  - reflexivity.
  - intros i Hi. apply Hq. lia.
  - rewrite (Hq _ (Nat.le_refl _)).
    now rewrite (nth_overflow pages [] (Nat.le_refl _)).
  - exact Hfuel.
Qed.

(** X10: when the query of a page fails, [get_invoices] logs the error
    and returns the empty list: the pages already fetched are
    discarded, and no exception reaches the caller. *)
Theorem failed_page_discards_the_pages_fetched client a b limit pages e s :
  Py.nonzero limit = None ->
  Forall (fun p : list qbo.Invoice.t => p <> []) pages ->
  (forall i, (i < List.length pages)%nat ->
     Invoice_query client
       (("SELECT * FROM Invoice WHERE TxnDate >= '" ++ a
           ++ "' AND TxnDate <= '" ++ b ++ "'")
          ++ " STARTPOSITION " ++ Py.str (1 + 100 * Z.of_nat i)
          ++ " MAXRESULTS 100") = inr (nth i pages [])) ->
  Invoice_query client
    (("SELECT * FROM Invoice WHERE TxnDate >= '" ++ a
        ++ "' AND TxnDate <= '" ++ b ++ "'")
       ++ " STARTPOSITION "
       ++ Py.str (1 + 100 * Z.of_nat (List.length pages))
       ++ " MAXRESULTS 100") = inl e ->
  (List.length pages < page_fuel)%nat ->
  get_invoices client a b limit s =
    (Ok [],
     set_log
       (log s ++ [(ERROR, "Error fetching invoices from QB: " ++ exn_msg e)])
       s).
Proof.
  intros Hl Hne Hq He Hfuel. unfold get_invoices. rewrite Hl.
  rewrite (@get_invoices_pages_spec client _ (Some e) pages page_fuel 1 []
             Hne).
  - reflexivity.
  - exact Hq.
  - exact He.
  - exact Hfuel.
Qed.

(** ** Attachments *)

Lemma download_attachment_reads client att s r s1 :
  download_attachment client att s = (r, s1) ->
  db s1 = db s /\ counts s1 = counts s /\ uuids s1 = uuids s.
Proof.
  unfold download_attachment.
  destruct (Py.nonempty (qbo.Attachable.FileAccessUri att)) as [url|].
  - destruct (session_get client url) as [e|response].
    + destruct (is_RequestException e); intros E; inversion E; subst;
        now cbn.
    + destruct (andb _ _); [|intros E; inversion E; subst; now cbn].
      match goal with
      | |- context [is_RequestException ?e] =>
          destruct (is_RequestException e)
      end; intros E; inversion E; subst; now cbn.
  - intros E. inversion E; subst. now cbn.
Qed.

Lemma process_attachment_without_blob client object_type object_id db_object
    att s r s1 :
  process_attachment client None object_type object_id db_object att s
    = (r, s1) ->
  db s1 = db s /\ counts s1 = counts s /\ uuids s1 = uuids s.
Proof.
  unfold process_attachment.
  destruct (Py.nonempty (qbo.Attachable.FileName att)) as [file_name|].
  2:{ intros E. inversion E; subst. now cbn. }
  intros E. apply bind_inv in E.
  destruct E as [(fc & s2 & D & E)|[(e & D & _)|(D & _)]];
    try exact (download_attachment_reads _ _ _ D).
  destruct (download_attachment_reads _ _ _ D) as (D1 & D2 & D3).
  destruct (Py.nonempty fc) as [content|].
  - cbn in E. inversion E; subst.
    unfold counts in *. cbn. rewrite D1, D3. now split.
  - inversion E; subst. now rewrite D1, D2, D3.
Qed.

(** X11: without a Blob Storage client (no connection string, or the
    connection failed) no attachment is stored: [process_attachments]
    may download the files, but it stages no row, draws no uuid and
    leaves the session and the counters as they are, whatever the
    attachments are. *)
Theorem without_blob_storage_no_attachment_is_stored client object_type
    object_id db_object s :
  let run :=
    process_attachments client None object_type object_id db_object s in
  db (snd run) = db s /\
  counts (snd run) = counts s /\
  uuids (snd run) = uuids s.
Proof.
  cbv zeta. unfold process_attachments.
  assert (Loop : forall atts s0 r s1,
    for_each atts
      (process_attachment client None object_type object_id db_object) s0
      = (r, s1) ->
    db s1 = db s0 /\ counts s1 = counts s0 /\ uuids s1 = uuids s0).
  { induction atts as [|att atts IH]; intros s0 r s1 E.
    - inversion E; subst. auto.
    - cbn [for_each] in E. apply bind_inv in E.
      destruct E as [(u & s2 & D & E)|[(e & D & _)|(D & _)]];
        try exact (process_attachment_without_blob _ _ _ _ _ _ D).
      destruct (process_attachment_without_blob _ _ _ _ _ _ D)
        as (D1 & D2 & D3).
      destruct (IH _ _ _ E) as (E1 & E2 & E3).
      repeat split; congruence. }
  unfold get_attachments.
  destruct (Attachable_where client _) as [e|atts].
  - cbn. auto.
  - unfold bind, ret.
    destruct (for_each atts _ s) as [r s1] eqn:E.
    exact (Loop _ _ _ _ E).
Qed.

(** ** The default project and the default user *)

(** X13: the default project and the default user are created once.
    After [get_default_project] (or [get_default_user]) returned a row,
    a further call returns the same row and changes nothing, so no
    second row of that name (or e-mail address) is ever added. *)
Theorem default_rows_are_created_once s :
  (forall p s1,
     new (db s) = empty_store ->
     get_default_project s = (Ok p, s1) ->
     models.Project.name p = "Default Imported Project" /\
     get_default_project s1 = (Ok p, s1)) /\
  (forall u s1,
     new (db s) = empty_store ->
     get_default_user s = (Ok u, s1) ->
     models.User.email u = "import_admin@yourcompany.com" /\
     get_default_user s1 = (Ok u, s1)).
Proof.
  split.
  - intros p s1 Hnew E. unfold get_default_project in E.
    unfold bind, query_first, session_add, session_flush in E. simpl in E.
    fold is_default_project in E.
    destruct (find is_default_project (projects (txn (db s)))) as [q|] eqn:Hf.
    + inversion E; subst; clear E. split.
      * apply find_some in Hf. now apply String.eqb_eq.
      * now apply get_default_project_found.
    + simpl in E. destruct (engine_rejects _ _); inversion E; subst; clear E.
      split; [reflexivity|].
      apply get_default_project_found. simpl. rewrite Hnew. simpl.
      rewrite find_app_none by exact Hf. reflexivity.
  - intros u s1 Hnew E. unfold get_default_user in E.
    unfold bind, query_first, session_add, session_flush in E. simpl in E.
    fold is_default_user in E.
    destruct (find is_default_user (users (txn (db s)))) as [q|] eqn:Hf.
    + inversion E; subst; clear E. split.
      * apply find_some in Hf. now apply String.eqb_eq.
      * now apply get_default_user_found.
    + simpl in E. destruct (engine_rejects _ _); inversion E; subst; clear E.
      split; [reflexivity|].
      apply get_default_user_found. simpl. rewrite Hnew. simpl.
      rewrite find_app_none by exact Hf. reflexivity.
Qed.

(** ** Line items *)

Lemma get_material_reads client item_id s r s1 :
  get_material client item_id s = (r, s1) ->
  db s1 = db s /\ exists v, r = Ok v.
Proof.
  unfold get_material. destruct (Item_get client item_id);
    intros E; inversion E; subst; cbn; eauto.
Qed.

(** The material [get_or_create_material] returns is a row of the
    session, named like the remote item. *)
Lemma get_or_create_material_row qb_item s m s1 :
  get_or_create_material qb_item s = (Ok m, s1) ->
  In m (materials (all (db s1))) /\
  Py.nonempty (qbo.Item.Name qb_item) = Some (models.Material.name m).
Proof.
  unfold get_or_create_material.
  destruct (Py.nonempty (qbo.Item.Name qb_item)) as [name|]; [|discriminate].
  unfold bind at 1, query_first at 1.
  change (rows tables.Material (txn (db s))) with (materials (txn (db s))).
  destruct (find _ (materials (txn (db s)))) as [found|] eqn:Hf.
  - intros E. inversion E; subst; clear E. apply find_some in Hf.
    destruct Hf as [Hin Hname]. apply String.eqb_eq in Hname.
    split; [|now rewrite Hname]. unfold all. simpl.
    apply in_or_app. now left.
  - unfold bind, logger.info, logger.emit, session_add, session_flush.
    cbn. destruct (engine_rejects _ _); [discriminate|].
    intros E. inversion E; subst; clear E. split; [|reflexivity].
    unfold all. cbn. rewrite app_nil_r. apply in_or_app. right.
    apply in_or_app. right. now left.
Qed.

(** One line of a purchase order: the row it may add points to the order
    and to a material of the session. *)
Lemma process_lpo_item_refs client db_lpo line s s' :
  process_lpo_item client db_lpo line s = (Ok tt, s') ->
  exists x,
    all (db s') = store_app (all (db s)) x /\
    forall r, In r (lpo_items x) ->
      models.LPOItem.lpo_id r = Some (models.LPO.id db_lpo) /\
      exists m, In m (materials (all (db s'))) /\
                models.LPOItem.material_id r = Some (models.Material.id m).
Proof.
  assert (Nothing : forall s0 s1,
            db s1 = db s0 ->
            exists x,
              all (db s1) = store_app (all (db s0)) x /\
              forall r, In r (lpo_items x) ->
                models.LPOItem.lpo_id r = Some (models.LPO.id db_lpo) /\
                exists m, In m (materials (all (db s1))) /\
                  models.LPOItem.material_id r
                    = Some (models.Material.id m)).
  { intros s0 s1 ->. exists empty_store.
    split; [now rewrite store_app_empty_r|intros r []]. }
  unfold process_lpo_item.
  destruct (qbo.DetailType line =? "ItemBasedExpenseLineDetail")%string.
  2:{ intros E. inversion E; subst. now apply Nothing. }
  destruct (qbo.ItemBasedExpenseLineDetail line) as [detail|];
    [|discriminate].
  destruct (item_ref_value detail) as [item_id|].
  2:{ intros E. inversion E; subst. now apply Nothing. }
  intros E. apply bind_inv in E.
  destruct E as [(qb_item & s1 & G & E)|[(e & _ & D)|(_ & D)]];
    try discriminate.
  destruct (get_material_reads _ _ _ G) as [D1 _].
  destruct qb_item as [qb_item|].
  2:{ inversion E; subst.
      destruct (Nothing s (set_log (log s1 ++
        [(ERROR, "Could not find QB Item " ++ item_id
                 ++ ". Skipping LPO item.")]) s1) D1) as (x & X & Q).
      exists x. split; [exact X|exact Q]. }
  apply bind_inv in E.
  destruct E as [(m & s2 & Em & E)|[(e & _ & D)|(_ & D)]];
    try discriminate.
  destruct (get_or_create_material_row _ _ Em) as [Hm _].
  assert (Hx : helper (get_or_create_material qb_item)
                      (fun _ x => lpo_items x = [])).
  { apply helper_get_or_create_material; [|reflexivity].
    split; [reflexivity|]. intros a b Ha Hb. simpl. now rewrite Ha, Hb. }
  destruct (helper_ok Hx Em) as (_ & xm & Xm & Am).
  apply bind_inv in E.
  destruct E as [(row & s3 & Ea & E)|[(e & _ & D)|(_ & D)]];
    try discriminate.
  inversion E; subst s3; clear E.
  destruct (helper_ok (@helper_add _ _ _ law_LPOItem) Ea)
    as (_ & xr & (-> & id & ->) & Ar).
  exists (store_app xm (only tables.LPOItem
            [new_lpo_item line detail (line_tax_rate detail) db_lpo m id])).
  split.
  - rewrite Ar, Am. unfold all. now rewrite D1, store_app_assoc.
  - intros r Hr. simpl in Hr. rewrite Xm in Hr.
    destruct Hr as [<-|[]]. split; [reflexivity|].
    exists m. split; [|reflexivity].
    rewrite Ar. simpl. apply in_or_app. now left.
Qed.

Lemma process_lpo_items_refs client db_lpo lines :
  forall s s',
    for_each lines (process_lpo_item client db_lpo) s = (Ok tt, s') ->
    exists x,
      all (db s') = store_app (all (db s)) x /\
      forall r, In r (lpo_items x) ->
        models.LPOItem.lpo_id r = Some (models.LPO.id db_lpo) /\
        exists m, In m (materials (all (db s'))) /\
                  models.LPOItem.material_id r
                    = Some (models.Material.id m).
Proof.
  induction lines as [|line lines IH]; intros s s' E.
  - inversion E; subst. exists empty_store.
    split; [now rewrite store_app_empty_r|intros r []].
  - cbn [for_each] in E. apply bind_inv in E.
    destruct E as [([] & s1 & E1 & E)|[(e & _ & D)|(_ & D)]];
      try discriminate.
    destruct (process_lpo_item_refs _ _ _ _ E1) as (x1 & X1 & Q1).
    destruct (IH _ _ E) as (x2 & X2 & Q2).
    exists (store_app x1 x2). split.
    + now rewrite X2, X1, store_app_assoc.
    + intros r Hr. simpl in Hr. apply in_app_or in Hr.
      destruct Hr as [Hr|Hr]; [|now apply Q2].
      destruct (Q1 r Hr) as (L & m & Hm & M). split; [exact L|].
      exists m. split; [|exact M].
      rewrite X2. simpl. apply in_or_app. now left.
Qed.

(** One line of an invoice: the row it may add points to the invoice
    and to a material of the session. *)
Lemma process_invoice_item_refs client db_invoice line s s' :
  process_invoice_item client db_invoice line s = (Ok tt, s') ->
  exists x,
    all (db s') = store_app (all (db s)) x /\
    forall r, In r (invoice_items x) ->
      models.InvoiceItem.invoice_id r = Some (models.Invoice.id db_invoice) /\
      exists m, In m (materials (all (db s'))) /\
                models.InvoiceItem.material_id r = Some (models.Material.id m).
Proof.
  assert (Nothing : forall s0 s1,
            db s1 = db s0 ->
            exists x,
              all (db s1) = store_app (all (db s0)) x /\
              forall r, In r (invoice_items x) ->
                models.InvoiceItem.invoice_id r = Some (models.Invoice.id db_invoice) /\
                exists m, In m (materials (all (db s1))) /\
                  models.InvoiceItem.material_id r
                    = Some (models.Material.id m)).
  { intros s0 s1 ->. exists empty_store.
    split; [now rewrite store_app_empty_r|intros r []]. }
  unfold process_invoice_item.
  destruct (qbo.DetailType line =? "SalesItemLineDetail")%string.
  2:{ intros E. inversion E; subst. now apply Nothing. }
  destruct (qbo.SalesItemLineDetail line) as [detail|];
    [|discriminate].
  destruct (item_ref_value detail) as [item_id|].
  2:{ intros E. inversion E; subst. now apply Nothing. }
  intros E. apply bind_inv in E.
  destruct E as [(qb_item & s1 & G & E)|[(e & _ & D)|(_ & D)]];
    try discriminate.
  destruct (get_material_reads _ _ _ G) as [D1 _].
  destruct qb_item as [qb_item|].
  2:{ inversion E; subst.
      destruct (Nothing s (set_log (log s1 ++
        [(ERROR, "Could not find QB Item " ++ item_id
                 ++ ". Skipping Invoice item.")]) s1) D1) as (x & X & Q).
      exists x. split; [exact X|exact Q]. }
  apply bind_inv in E.
  destruct E as [(m & s2 & Em & E)|[(e & _ & D)|(_ & D)]];
    try discriminate.
  destruct (get_or_create_material_row _ _ Em) as [Hm _].
  assert (Hx : helper (get_or_create_material qb_item)
                      (fun _ x => invoice_items x = [])).
  { apply helper_get_or_create_material; [|reflexivity].
    split; [reflexivity|]. intros a b Ha Hb. simpl. now rewrite Ha, Hb. }
  destruct (helper_ok Hx Em) as (_ & xm & Xm & Am).
  apply bind_inv in E.
  destruct E as [(row & s3 & Ea & E)|[(e & _ & D)|(_ & D)]];
    try discriminate.
  inversion E; subst s3; clear E.
  destruct (helper_ok (@helper_add _ _ _ law_InvoiceItem) Ea)
    as (_ & xr & (-> & id & ->) & Ar).
  exists (store_app xm (only tables.InvoiceItem
            [new_invoice_item line detail (line_tax_rate detail) db_invoice m id])).
  split.
  - rewrite Ar, Am. unfold all. now rewrite D1, store_app_assoc.
  - intros r Hr. simpl in Hr. rewrite Xm in Hr.
    destruct Hr as [<-|[]]. split; [reflexivity|].
    exists m. split; [|reflexivity].
    rewrite Ar. simpl. apply in_or_app. now left.
Qed.

Lemma process_invoice_items_refs client db_invoice lines :
  forall s s',
    for_each lines (process_invoice_item client db_invoice) s = (Ok tt, s') ->
    exists x,
      all (db s') = store_app (all (db s)) x /\
      forall r, In r (invoice_items x) ->
        models.InvoiceItem.invoice_id r = Some (models.Invoice.id db_invoice) /\
        exists m, In m (materials (all (db s'))) /\
                  models.InvoiceItem.material_id r
                    = Some (models.Material.id m).
Proof.
  induction lines as [|line lines IH]; intros s s' E.
  - inversion E; subst. exists empty_store.
    split; [now rewrite store_app_empty_r|intros r []].
  - cbn [for_each] in E. apply bind_inv in E.
    destruct E as [([] & s1 & E1 & E)|[(e & _ & D)|(_ & D)]];
      try discriminate.
    destruct (process_invoice_item_refs _ _ _ _ E1) as (x1 & X1 & Q1).
    destruct (IH _ _ E) as (x2 & X2 & Q2).
    exists (store_app x1 x2). split.
    + now rewrite X2, X1, store_app_assoc.
    + intros r Hr. simpl in Hr. apply in_app_or in Hr.
      destruct Hr as [Hr|Hr]; [|now apply Q2].
      destruct (Q1 r Hr) as (L & m & Hm & M). split; [exact L|].
      exists m. split; [|exact M].
      rewrite X2. simpl. apply in_or_app. now left.
Qed.

(** X12: every line item staged by [process_lpo_items] or
    [process_invoice_items] has its two references set: the key of the
    purchase order (or of the invoice) it belongs to, and the key of a
    material that is a row of the session when the function returns. *)
Theorem line_items_reference_order_and_material client :
  (forall qb_lpo db_lpo s s',
     process_lpo_items client qb_lpo db_lpo s = (Ok tt, s') ->
     exists x,
       all (db s') = store_app (all (db s)) x /\
       forall r, In r (lpo_items x) ->
         models.LPOItem.lpo_id r = Some (models.LPO.id db_lpo) /\
         exists m, In m (materials (all (db s'))) /\
                   models.LPOItem.material_id r
                     = Some (models.Material.id m)) /\
  (forall qb_invoice db_invoice s s',
     process_invoice_items client qb_invoice db_invoice s = (Ok tt, s') ->
     exists x,
       all (db s') = store_app (all (db s)) x /\
       forall r, In r (invoice_items x) ->
         models.InvoiceItem.invoice_id r
           = Some (models.Invoice.id db_invoice) /\
         exists m, In m (materials (all (db s'))) /\
                   models.InvoiceItem.material_id r
                     = Some (models.Material.id m)).
Proof.
  split.
  - intros qb_lpo db_lpo s s'. apply process_lpo_items_refs.
  - intros qb_invoice db_invoice s s'. apply process_invoice_items_refs.
Qed.

(** ** Document numbers *)

Lemma NoDup_snoc {A : Type} (l : list A) (a : A) :
  NoDup l -> ~ In a l -> NoDup (l ++ [a])%list.
Proof.
  induction l as [|b l IH]; intros Hl Ha; simpl.
  - constructor; [intros []|constructor].
  - inversion Hl as [|b' l' Hb Hl']; subst. constructor.
    + intros H. apply in_app_or in H. destruct H as [H|[H|[]]].
      * now apply Hb.
      * apply Ha. now left.
    + apply IH; [exact Hl'|]. intros H. apply Ha. now right.
Qed.

Lemma find_none_not_in {A : Type} (f : A -> string) (n : string) l :
  find (fun r => (f r =? n)%string) l = None -> ~ In n (map f l).
Proof.
  induction l as [|a l IH]; simpl; [tauto|].
  destruct (f a =? n)%string eqn:H; [discriminate|].
  intros Hf [Ha|Hin]; [|now apply IH].
  apply String.eqb_neq in H. now apply H.
Qed.

(** A step of the loop keeps the document numbers distinct. *)
Lemma process_invoice_numbers_unique client blob dp du inv s s' :
  new (db s) = empty_store ->
  invoices (txn (db s)) = invoices (committed (db s)) ->
  lpos (txn (db s)) = lpos (committed (db s)) ->
  numbers_unique (committed (db s)) ->
  process_invoice client blob dp du inv s = (Ok tt, s') ->
  new (db s') = empty_store /\
  invoices (txn (db s')) = invoices (committed (db s')) /\
  lpos (txn (db s')) = lpos (committed (db s')) /\
  numbers_unique (committed (db s')).
Proof.
  intros Hnew Hi Hl [Ui Ul] E.
  destruct (process_invoice_cases client blob dp du inv s) as (s1 & E1 & K).
  rewrite E in E1. inversion E1; subst s1; clear E1.
  destruct K as [(_ & D & _)|[(_ & _ & C & T & N & _)|(Hs & K)]].
  - rewrite D. repeat split; assumption.
  - rewrite T, C. repeat split; assumption.
  - destruct K as (n & qb_lpo & lpo_number & db_lpo & x & Hn & _ & _
                   & [(id & Hx) Hlpo] & C & T & N & _).
    rewrite (all_nothing_pending _ Hnew) in C.
    split; [exact N|]. split; [now rewrite T|]. split; [now rewrite T|].
    rewrite C. unfold numbers_unique. simpl. rewrite Hx, Hi, Hl. split.
    + rewrite map_app. apply NoDup_snoc; [exact Ui|].
      rewrite <- Hi. apply find_none_not_in.
      unfold skips in Hs. rewrite Hn in Hs.
      now destruct (find _ (invoices (txn (db s)))).
    + destruct Hlpo as [[_ ->]|(Hf & -> & sup & lid & ->)].
      * now rewrite app_nil_r.
      * rewrite map_app. apply NoDup_snoc; [exact Ul|].
        rewrite <- Hl. now apply find_none_not_in.
Qed.

Lemma for_each_numbers_unique client blob dp du invs :
  forall s s',
    new (db s) = empty_store ->
    invoices (txn (db s)) = invoices (committed (db s)) ->
    lpos (txn (db s)) = lpos (committed (db s)) ->
    numbers_unique (committed (db s)) ->
    for_each invs (process_invoice client blob dp du) s = (Ok tt, s') ->
    numbers_unique (committed (db s')).
Proof.
  induction invs as [|inv invs IH]; intros s s' Hnew Hi Hl U E.
  - now inversion E; subst.
  - simpl in E.
    destruct (process_invoice_cases client blob dp du inv s)
      as (s1 & E1 & _).
    erewrite bind_ok in E by exact E1.
    destruct (@process_invoice_numbers_unique client blob dp du inv s s1
              Hnew Hi Hl U E1)
      as (N1 & I1 & L1 & U1).
    exact (IH _ _ N1 I1 L1 U1 E).
Qed.

(** X14: document numbers stay unique.  If no two invoice rows of the
    database share an invoice number and no two purchase orders a
    document number, the same holds of the database a run leaves: the
    duplicate checks of the loop guard every row it commits, also against
    the rows committed earlier in the same run. *)
Theorem document_numbers_stay_unique limit s s1 :
  numbers_unique (committed (db s)) ->
  process_imports limit s = (Ok tt, s1) ->
  numbers_unique (committed (db s1)).
Proof.
  intros U E.
  destruct (config.all_qb_keys_present cfg) eqn:Hk.
  2:{ unfold process_imports in E. rewrite Hk in E. cbn in E.
      inversion E. exact U. }
  destruct reads_only_blob as [blob Hb].
  destruct reads_only_qb_client as [[client|] Hq].
  2:{ destruct (process_imports_not_connected limit s Hk Hb Hq)
        as (s2 & E2 & D & _).
      rewrite E in E2. inversion E2; subst s2. now rewrite D. }
  destruct (process_imports_connected limit s Hk Hb Hq)
    as (sB & DB & KB & EB).
  rewrite EB in E.
  assert (NB : new (db sB) = empty_store) by now rewrite DB.
  assert (CB : committed (db sB) = committed (db s)) by now rewrite DB.
  assert (TB : txn (db sB) = committed (db sB)) by now rewrite DB.
  destruct (@guarded_run_cases client blob limit sB _ _ NB E)
    as [D|[_ [[C _]|(sF & EF & C & _)]]]; [discriminate| |].
  - now rewrite C, CB.
  - pose proof (import_all_cases _ _ _ _ NB EF)
      as (dp & du & invs & sE & _ & CE & _ & NE & (y & TE & Y1 & Y2) & _ & _
          & Loop).
    rewrite C.
    apply (@for_each_numbers_unique client blob dp du invs sE sF NE) in Loop;
      [exact Loop| | |now rewrite CE, CB].
    + rewrite TE, CE, TB. simpl. now rewrite Y1, app_nil_r.
    + rewrite TE, CE, TB. simpl. now rewrite Y2, app_nil_r.
Qed.

(** X15: two invoices linked to the same remote purchase order, imported
    one after the other, share one order row: the first import creates
    it, the second finds it by its document number and links to it. *)
Theorem two_invoices_share_one_order client blob dp du inv1 inv2 qb_lpo
    lpo_number s s1 s2 :
  new (db s) = empty_store ->
  linked_lpo client inv1 = Some qb_lpo ->
  linked_lpo client inv2 = Some qb_lpo ->
  Py.nonempty (qbo.PurchaseOrder.DocNumber qb_lpo) = Some lpo_number ->
  find (fun r => (models.LPO.lpo_number r =? lpo_number)%string)
       (lpos (txn (db s))) = None ->
  process_invoice client blob dp du inv1 s = (Ok tt, s1) ->
  success_count s1 = success_count s + 1 ->
  process_invoice client blob dp du inv2 s1 = (Ok tt, s2) ->
  success_count s2 = success_count s1 + 1 ->
  exists l r1 r2,
    lpos (committed (db s2)) = (lpos (txn (db s)) ++ [l])%list /\
    models.LPO.lpo_number l = lpo_number /\
    invoices (committed (db s2))
      = (invoices (txn (db s)) ++ [r1; r2])%list /\
    Py.nonempty (qbo.Invoice.DocNumber inv1)
      = Some (models.Invoice.invoice_number r1) /\
    Py.nonempty (qbo.Invoice.DocNumber inv2)
      = Some (models.Invoice.invoice_number r2) /\
    models.Invoice.lpo_id r1 = Some (models.LPO.id l) /\
    models.Invoice.lpo_id r2 = Some (models.LPO.id l).
Proof.
  intros Hnew Hl1 Hl2 Hln Hf E1 S1 E2 S2.
  destruct (process_invoice_cases client blob dp du inv1 s) as (t1 & F1 & K1).
  rewrite E1 in F1. inversion F1; subst t1; clear F1.
  destruct K1 as [(_ & _ & K)|[(_ & _ & _ & _ & _ & K)|(_ & K1)]];
    try (unfold counts in K; inversion K; lia).
  destruct K1 as (n1 & po1 & ln1 & l & x1 & Hn1 & P1 & L1
                  & [(id1 & Hx1) Hlpo1] & C1 & T1 & N1 & _).
  rewrite Hl1 in P1. inversion P1; subst po1; clear P1.
  rewrite Hln in L1. inversion L1; subst ln1; clear L1.
  destruct Hlpo1 as [[Hf1 _]|(_ & Hlx1 & sup & lid & Hrow)];
    [congruence|].
  rewrite (all_nothing_pending _ Hnew) in C1.
  destruct (process_invoice_cases client blob dp du inv2 s1)
    as (t2 & F2 & K2).
  rewrite E2 in F2. inversion F2; subst t2; clear F2.
  destruct K2 as [(_ & _ & K)|[(_ & _ & _ & _ & _ & K)|(_ & K2)]];
    try (unfold counts in K; inversion K; lia).
  destruct K2 as (n2 & po2 & ln2 & l2 & x2 & Hn2 & P2 & L2
                  & [(id2 & Hx2) Hlpo2] & C2 & T2 & N2 & _).
  rewrite Hl2 in P2. inversion P2; subst po2; clear P2.
  rewrite Hln in L2. inversion L2; subst ln2; clear L2.
  rewrite (all_nothing_pending _ N1) in C2.
  assert (Found : find (fun r => (models.LPO.lpo_number r =? lpo_number)%string)
                       (lpos (txn (db s1))) = Some l).
  { rewrite T1, C1. simpl. rewrite Hlx1.
    rewrite find_app_none by exact Hf. simpl.
    rewrite Hrow. simpl. now rewrite String.eqb_refl. }
  destruct Hlpo2 as [[Hf2 Hlx2]|(Hf2 & _)]; [|congruence].
  rewrite Found in Hf2. inversion Hf2; subst l2; clear Hf2.
  exists l, (new_invoice inv1 n1 l id1), (new_invoice inv2 n2 l id2).
  rewrite C2, T1, C1. simpl. rewrite Hlx1, Hlx2, Hx1, Hx2.
  split; [now rewrite app_nil_r|]. split; [now rewrite Hrow|].
  split; [now rewrite <- app_assoc|]. repeat split; assumption.
Qed.

(** ** Purchase orders that cannot be created *)

(** X19: a new purchase order needs its supplier.  When the order of an
    invoice is not in the database yet and it names no vendor, or the
    vendor it names cannot be fetched, the invoice is counted Failed:
    the error is logged with the invoice number, the session is rolled
    back to the committed rows, and no row of the invoice or of the
    order is kept. *)
Theorem order_without_supplier_fails_the_invoice client blob dp du inv n
    qb_lpo lpo_number s :
  Py.nonempty (qbo.Invoice.DocNumber inv) = Some n ->
  find (fun r => (models.Invoice.invoice_number r =? n)%string)
       (invoices (txn (db s))) = None ->
  linked_lpo client inv = Some qb_lpo ->
  Py.nonempty (qbo.PurchaseOrder.DocNumber qb_lpo) = Some lpo_number ->
  find (fun r => (models.LPO.lpo_number r =? lpo_number)%string)
       (lpos (txn (db s))) = None ->
  let vendor :=
    match qbo.PurchaseOrder.VendorRef qb_lpo with
    | Some ref => Py.nonempty (qbo.value ref)
    | None => None
    end in
  let failed (records : list (Level * string)) (msg : string) :=
    process_invoice client blob dp du inv s =
      (Ok tt,
       set_counts (success_count s) (skipped_count s) (fail_count s + 1)
         (set_db {| committed := committed (db s);
                    txn := committed (db s);
                    new := empty_store |}
            (set_log
               (log s ++
                [(INFO, "LPO " ++ lpo_number
                        ++ " not found. Creating new LPO.")] ++
                records ++
                [(ERROR, "--- FAILED to process Invoice " ++ n ++ ": "
                         ++ msg ++ " ---");
                 (ERROR, format_exc {| exn_class := Exception;
                                       exn_msg := msg |})])
               s))) in
  (vendor = None ->
   failed [] ("LPO " ++ lpo_number ++ " has no Supplier (VendorRef).")) /\
  (forall vendor_id e,
     vendor = Some vendor_id ->
     Supplier_get client vendor_id = inl e ->
     failed
       [(ERROR, "QB: Error fetching Supplier " ++ vendor_id ++ ": "
                ++ exn_msg e)]
       ("Supplier ID " ++ vendor_id ++ " not found in QB.")).
Proof.
  intros Hn Hdup Hl Hln Hf. cbv zeta.
  split; [intros Hv|intros vendor_id e Hv He];
    (unfold process_invoice; rewrite Hn;
     unfold try_except, import_invoice;
     unfold bind at 1; unfold query_first at 1;
     change (rows tables.Invoice (txn (db s)))
       with (invoices (txn (db s)));
     rewrite Hdup; erewrite bind_ok by apply get_lpo_for_invoice_value;
     rewrite Hl, Hln, (linked_lpo_found_logs_nothing _ _ Hl), app_nil_r,
       set_log_same;
     unfold bind at 1; unfold query_first at 1;
     change (rows tables.LPO (txn (db s))) with (lpos (txn (db s)));
     rewrite Hf; unfold bind at 1; unfold create_lpo;
     unfold bind at 1; unfold logger.info at 1, logger.emit at 1;
     rewrite Hv).
  - cbn. now rewrite <- !app_assoc.
  - unfold get_supplier. rewrite He. cbn. now rewrite <- !app_assoc.
Qed.

(** ** Attachment rows *)

Lemma nonempty_some (o : option string) (v : string) :
  Py.nonempty o = Some v -> o = Some v /\ v <> "".
Proof.
  destruct o as [x|]; [|discriminate]. simpl.
  destruct (x =? "")%string eqn:E; [discriminate|].
  intros H. inversion H; subst. split; [reflexivity|].
  now apply String.eqb_neq.
Qed.

(** X20: every attachment row staged by [process_attachments] points to
    the row it was called for and to an uploaded file: for a purchase
    order only rows of [lpo_attachments] are added, for an invoice only
    rows of [invoice_attachments]; each carries the key of its owner, a
    non-empty blob URL and a non-empty file name. *)
Theorem attachment_rows_point_to_their_owner client blob object_id
    db_object s s' :
  (process_attachments client blob "PurchaseOrder" object_id db_object s
     = (Ok tt, s') ->
   exists x,
     all (db s') = store_app (all (db s)) x /\
     invoice_attachments x = [] /\
     forall r, In r (lpo_attachments x) ->
       models.LPOAttachment.lpo_id r = Some db_object /\
       models.LPOAttachment.blob_url r <> "" /\
       exists name,
         models.LPOAttachment.file_name r = Some name /\ name <> "") /\
  (process_attachments client blob "Invoice" object_id db_object s
     = (Ok tt, s') ->
   exists x,
     all (db s') = store_app (all (db s)) x /\
     lpo_attachments x = [] /\
     forall r, In r (invoice_attachments x) ->
       models.InvoiceAttachment.invoice_id r = Some db_object /\
       models.InvoiceAttachment.blob_url r <> "" /\
       exists name,
         models.InvoiceAttachment.file_name r = Some name /\ name <> "").
Proof.
  split; intros E.
  - set (P := fun x : Store =>
      invoice_attachments x = [] /\
      forall r, In r (lpo_attachments x) ->
        models.LPOAttachment.lpo_id r = Some db_object /\
        models.LPOAttachment.blob_url r <> "" /\
        exists name,
          models.LPOAttachment.file_name r = Some name /\ name <> "").
    assert (C : closed P).
    { split; [split; [reflexivity|intros r []]|].
      intros a b [A1 A2] [B1 B2]. split; simpl; [now rewrite A1, B1|].
      intros r Hr. apply in_app_or in Hr. destruct Hr; auto. }
    assert (H : helper (process_attachments client blob "PurchaseOrder"
                          object_id db_object) (fun _ => P)).
    { unfold process_attachments.
      apply helper_seq; [exact C|apply helper_get_attachments, C|intros atts].
      apply helper_for_each; [exact C|intros att].
      unfold process_attachment.
      destruct (Py.nonempty (qbo.Attachable.FileName att)) as [name|] eqn:Hn;
        [|helper_tac C].
      apply helper_seq;
        [exact C|apply helper_download_attachment, C|intros fc].
      destruct (Py.nonempty fc); [|helper_tac C].
      apply helper_seq;
        [exact C|apply helper_upload_attachment_to_azure, C|intros url].
      destruct (Py.nonempty url) as [blob_url|] eqn:Hu; [|helper_tac C].
      change ("PurchaseOrder" =? "PurchaseOrder")%string with true.
      cbv iota.
      apply helper_seq; [exact C| |intros ?; apply helper_unit, C].
      eapply helper_weaken; [apply helper_add, law_LPOAttachment|].
      intros a x [-> (id & ->)]. split; [reflexivity|].
      intros r [<-|[]]. simpl. split; [reflexivity|].
      split; [exact (proj2 (nonempty_some _ Hu))|].
      exists name. split; [reflexivity|exact (proj2 (nonempty_some _ Hn))]. }
    destruct (helper_ok H E) as (_ & x & [P1 P2] & X). eauto.
  - set (P := fun x : Store =>
      lpo_attachments x = [] /\
      forall r, In r (invoice_attachments x) ->
        models.InvoiceAttachment.invoice_id r = Some db_object /\
        models.InvoiceAttachment.blob_url r <> "" /\
        exists name,
          models.InvoiceAttachment.file_name r = Some name /\ name <> "").
    assert (C : closed P).
    { split; [split; [reflexivity|intros r []]|].
      intros a b [A1 A2] [B1 B2]. split; simpl; [now rewrite A1, B1|].
      intros r Hr. apply in_app_or in Hr. destruct Hr; auto. }
    assert (H : helper (process_attachments client blob "Invoice"
                          object_id db_object) (fun _ => P)).
    { unfold process_attachments.
      apply helper_seq; [exact C|apply helper_get_attachments, C|intros atts].
      apply helper_for_each; [exact C|intros att].
      unfold process_attachment.
      destruct (Py.nonempty (qbo.Attachable.FileName att)) as [name|] eqn:Hn;
        [|helper_tac C].
      apply helper_seq;
        [exact C|apply helper_download_attachment, C|intros fc].
      destruct (Py.nonempty fc); [|helper_tac C].
      apply helper_seq;
        [exact C|apply helper_upload_attachment_to_azure, C|intros url].
      destruct (Py.nonempty url) as [blob_url|] eqn:Hu; [|helper_tac C].
      change ("Invoice" =? "PurchaseOrder")%string with false.
      change ("Invoice" =? "Invoice")%string with true.
      cbv iota.
      apply helper_seq; [exact C| |intros ?; apply helper_unit, C].
      eapply helper_weaken; [apply helper_add, law_InvoiceAttachment|].
      intros a x [-> (id & ->)]. split; [reflexivity|].
      intros r [<-|[]]. simpl. split; [reflexivity|].
      split; [exact (proj2 (nonempty_some _ Hu))|].
      exists name. split; [reflexivity|exact (proj2 (nonempty_some _ Hn))]. }
    destruct (helper_ok H E) as (_ & x & [P1 P2] & X). eauto.
Qed.

End Pipeline.

(** * The token file *)

Module env_file_facts.

Import env_file.





Lemma rewritten_other a r line :
  is_token_line line = false -> rewritten a r line = line.
Proof.
  unfold is_token_line, rewritten. intros H.
  apply orb_false_iff in H. destruct H as [-> ->]. reflexivity.
Qed.




(** X16: [update_env_file] persists a token only into a line that is
    already there.  When no line of [.env] starts with [QB_ACCESS_TOKEN=]
    or [QB_REFRESH_TOKEN=], the file is written back as it was, the new
    tokens are in none of its lines, and the function still logs that
    the file was updated. *)
Theorem tokens_are_not_added_to_a_file_without_them a r lines :
  forallb (fun line => negb (is_token_line line)) lines = true ->
  update_env_file no_error a r (Some lines) =
    (Some lines,
     [(INFO, "Successfully updated .env file with new refresh token.")]).
Proof.
  intros H. unfold update_env_file, no_error. cbn.
  do 2 f_equal. induction lines as [|line lines IH]; [reflexivity|].
  cbn in H. apply andb_true_iff in H. destruct H as [Hl H].
  apply negb_true_iff in Hl. cbn [map].
  now rewrite (rewritten_other _ _ _ Hl), (IH H).
Qed.


End env_file_facts.

(** * The OAuth script *)

Module get_oauth_tokens_facts.

Import get_oauth_tokens.

(** X18: the authorization code is exchanged exactly after a complete
    redirect.  A run of the script calls [get_bearer_token] only when the
    three settings of the initial authentication are present, the server
    started, and the one request it handled carried both [code] and
    [realmId]; it then answers 200 and exchanges the first value of each.
    Conversely, after such a request with non-empty values the exchange
    is made once, and a request lacking one of the two is answered 400
    and followed by no exchange. *)
Theorem code_is_exchanged_after_a_complete_redirect cfg auth_client parse_qs
    server :
  let run := main cfg auth_client parse_qs server in
  (forall code realm,
     In (code, realm) (exchanges run) ->
     config.auth_keys_present cfg = true /\
     exists path more_codes more_realms,
       server = Request path /\
       lookup "code" (parse_qs path) = Some (code, more_codes) /\
       lookup "realmId" (parse_qs path) = Some (realm, more_realms) /\
       exchanges run = [(code, realm)] /\
       map status (responses run) = [200]) /\
  (forall path code realm more_codes more_realms,
     config.auth_keys_present cfg = true ->
     server = Request path ->
     lookup "code" (parse_qs path) = Some (code, more_codes) ->
     lookup "realmId" (parse_qs path) = Some (realm, more_realms) ->
     code <> "" -> realm <> "" ->
     exchanges run = [(code, realm)] /\
     map status (responses run) = [200]) /\
  (forall path,
     config.auth_keys_present cfg = true ->
     server = Request path ->
     lookup "code" (parse_qs path) = None \/
     lookup "realmId" (parse_qs path) = None ->
     exchanges run = [] /\
     map status (responses run) = [400] /\
     globals run = {| auth_code := None; realm_id := None |}).
Proof.
  cbv zeta. unfold main, get_tokens.
  destruct (config.auth_keys_present cfg); cbn [negb].
  2:{ split; [intros code realm []|]. split; discriminate. }
  destruct server as [e|e|path].
  1,2: split; [intros code realm []|]; split; discriminate.
  unfold do_GET.
  destruct (lookup "code" (parse_qs path)) as [[c cs]|] eqn:Hc;
    [destruct (lookup "realmId" (parse_qs path)) as [[m ms]|] eqn:Hm|].
  - cbn [auth_code realm_id Py.nonempty].
    destruct (c =? "")%string eqn:Ec;
      [|destruct (m =? "")%string eqn:Em].
    + split; [intros code realm []|]. split.
      * intros p code realm mc mr _ E H1 H2 Hcode _.
        inversion E; subst p. rewrite Hc in H1. inversion H1; subst.
        apply String.eqb_eq in Ec. contradiction.
      * intros p _ E [H|H]; inversion E; subst p; congruence.
    + split; [intros code realm []|]. split.
      * intros p code realm mc mr _ E H1 H2 _ Hrealm.
        inversion E; subst p. rewrite Hm in H2. inversion H2; subst.
        apply String.eqb_eq in Em. contradiction.
      * intros p _ E [H|H]; inversion E; subst p; congruence.
    + destruct (get_bearer_token auth_client c m) as [e1|tokens];
        cbn [exchanges responses map status];
        (split;
         [intros code realm [Hin|[]]; inversion Hin; subst;
          split; [reflexivity|]; exists path, cs, ms; now repeat split
         |split;
          [intros p code realm mc mr _ E H1 H2 _ _;
           inversion E; subst p; rewrite Hc in H1; rewrite Hm in H2;
           inversion H1; inversion H2; subst; now split
          |intros p _ E [H|H]; inversion E; subst p; congruence]]).
  - cbn. split; [intros code realm []|]. split.
    + intros p code realm mc mr _ E H1 H2. inversion E; subst p. congruence.
    + intros p _ E _. now repeat split.
  - cbn. split; [intros code realm []|]. split.
    + intros p code realm mc mr _ E H1 H2. inversion E; subst p. congruence.
    + intros p _ E _. now repeat split.
Qed.

End get_oauth_tokens_facts.

(** * The claims on the example data *)

(** Abbreviations: the pipeline on the example data, with the engine that
    accepts every flush. *)
Abbreviation on_example f :=
  (f Example.accepts Example.uuid4 Example.format_exc Example.cfg)
  (only parsing).
Abbreviation example_invoice qb_client :=
  (on_example process_invoice qb_client (Some Example.blob)
     Example.default_project Example.default_user)
  (only parsing).
Abbreviation example_run f cfg qb_client database :=
  (f Example.accepts Example.uuid4 Example.format_exc cfg
     Example.from_connection_string (inr qb_client) 5%nat (Some 10%Z)
     (initial_state database))
  (only parsing).
Abbreviation start := (initial_state empty_store) (only parsing).

(** C5 on INV-2, whose only linked transaction is a bill. *)
Lemma C5_bill_only_invoice :
  exists s',
    example_invoice Example.clean Example.inv_2 start = (Ok tt, s') /\
    db s' = db start /\
    skipped_count s' = 1%Z /\
    fail_count s' = 0%Z /\
    success_count s' = 0%Z /\
    log s' =
      [(WARNING,
        "Skipping Invoice INV-2: No related LPO (PurchaseOrder) found in QB."%string)].
Proof.
  apply (@C5_no_linked_order_is_skipped Example.accepts Example.uuid4
           Example.format_exc Example.cfg Example.clean (Some Example.blob)
           Example.default_project Example.default_user Example.inv_2
           "INV-2"%string start).
  - reflexivity.
  - reflexivity.
  - repeat constructor; discriminate.
Defined.

(** C10 on INV-4: purchase order 404 cannot be fetched, and purchase order
    201, linked after it, is not tried. *)
Lemma C10_unfetchable_order :
  get_lpo_for_invoice Example.clean Example.inv_4 start =
    (Ok None,
     set_log
       [(ERROR,
         "QB: Error fetching linked LPO 404: PurchaseOrder 404 not found"%string)]
       start) /\
  exists s',
    example_invoice Example.clean Example.inv_4 start = (Ok tt, s') /\
    db s' = db start /\
    counts s' = (0, 1, 0)%Z.
Proof.
  destruct (@C10_failed_order_fetch_is_skipped Example.accepts Example.uuid4
              Example.format_exc Example.cfg Example.clean (Some Example.blob)
              Example.default_project Example.default_user Example.inv_4
              [Example.linked "77" "Bill"]
              (Example.linked "404" "PurchaseOrder")
              [Example.linked "201" "PurchaseOrder"]
              (Example.not_found "PurchaseOrder" "404") start)
    as [L K].
  - reflexivity.
  - repeat constructor; discriminate.
  - reflexivity.
  - reflexivity.
  - split; [exact L|].
    destruct (K "INV-4"%string eq_refl eq_refl) as (s' & E & D & A & B & C & _).
    exists s'. split; [exact E|]. split; [exact D|].
    unfold counts. now rewrite A, B, C.
Defined.


(** C8 with QB_REALM_ID unset: two CRITICAL records, nothing else, and
    exit status 0. *)
Lemma C8_realm_id_unset :
  example_run process_imports Example.cfg_without_realm Example.clean
    empty_store =
    (Ok tt,
     set_log
       [(CRITICAL, "Missing QuickBooks credentials in .env file."%string);
        (CRITICAL, "Please run 'python get_oauth_tokens.py' first and copy the tokens to .env"%string)]
       start) /\
  fst (example_run main Example.cfg_without_realm Example.clean empty_store)
    = Ok 0%Z.
Proof.
  destruct (@C8_missing_credentials_abort_up_front Example.accepts
              Example.uuid4 Example.format_exc Example.cfg_without_realm
              Example.from_connection_string (inr Example.clean) 5%nat
              None (Some 10%Z) start)
    as (E & X & _).
  - simpl. tauto.
  - reflexivity.
  - split; [exact E|]. now rewrite X.
Defined.

(** The exit status the claim C8 expects to be non-zero is 0: the one of
    a complete run. *)
Lemma C8_exit_status_is_zero :
  fst (example_run main Example.cfg_without_realm Example.clean empty_store)
    = Ok 0%Z /\
  fst (example_run main Example.cfg Example.clean empty_store) = Ok 0%Z.
Proof. split; vm_compute; reflexivity. Qed.


(** C9 on a whole run over the clean data set: every invoice of the
    database it leaves is linked to an order of that database. *)
Lemma C9_clean_run :
  let s1 :=
    snd (example_run process_imports Example.cfg Example.clean empty_store) in
  invoices (committed (db s1)) <> [] /\
  Forall (linked_to_order (lpos (committed (db s1))))
         (invoices (committed (db s1))).
Proof.
  cbv zeta. split; [vm_compute; discriminate|].
  assert (E : example_run process_imports Example.cfg Example.clean
                empty_store =
              (Ok tt,
               snd (example_run process_imports Example.cfg Example.clean
                      empty_store)))
    by (vm_compute; reflexivity).
  apply Forall_forall. intros row Hrow.
  destruct (@C9_persisted_invoices_are_linked Example.accepts Example.uuid4
              Example.format_exc Example.cfg Example.from_connection_string
              (inr Example.clean) 5%nat (Some 10%Z) empty_store _
              (Forall_nil _) E row Hrow)
    as [[]|H].
  exact H.
Defined.

(** C1 on the clean data set: the second run commits nothing and skips
    the four invoices. *)
Lemma C1_second_clean_run :
  let first :=
    example_run process_imports Example.cfg Example.clean empty_store in
  let second :=
    example_run process_imports Example.cfg Example.clean
      (committed (db (snd first))) in
  counts (snd first) = (1, 3, 0)%Z /\
  fst second = Ok tt /\
  committed (db (snd second)) = committed (db (snd first)) /\
  counts (snd second) = (0, 4, 0)%Z.
Proof.
  cbv zeta. split; [vm_compute; reflexivity|].
  destruct (@C1_rerun_skips_what_was_imported Example.accepts Example.uuid4
              Example.format_exc Example.cfg Example.from_connection_string
              (inr Example.clean) 5%nat)
    as [_ Again].
  destruct (Again (Some 10%Z) empty_store
              (snd (example_run process_imports Example.cfg Example.clean
                      empty_store)))
    as (s2 & E & C & A & B & D).
  - vm_compute. reflexivity.
  - vm_compute. reflexivity.
  - rewrite E. cbn [fst snd]. split; [reflexivity|]. split; [exact C|].
    unfold counts. rewrite A, B, D. vm_compute. reflexivity.
Defined.

(** The claim C1 fails on a data set whose one invoice fails: the first
    run leaves no row of it, and the second run reports it Failed again,
    not Skipped. *)
Lemma C1_failed_invoice_is_not_skipped :
  let first :=
    example_run process_imports Example.cfg Example.with_failure
      empty_store in
  let second :=
    example_run process_imports Example.cfg Example.with_failure
      (committed (db (snd first))) in
  fst first = Ok tt /\ counts (snd first) = (0, 0, 1)%Z /\
  fst second = Ok tt /\ counts (snd second) = (0, 0, 1)%Z /\
  skipped_count (snd second) <> 1%Z /\
  last (log (snd second)) (INFO, ""%string) =
    (INFO, "Summary: 0 Succeeded, 0 Skipped, 1 Failed."%string).
Proof. vm_compute. repeat split; discriminate. Qed.

(** C6 on two vendor records named Acme Supplies: the first call creates
    the one row, the second returns it. *)
Lemma C6_same_display_name :
  exists row s',
    get_or_create_supplier Example.accepts Example.acme start
      = (Ok row, s') /\
    suppliers (txn (db s')) = [row] /\
    models.Supplier.name row = "Acme Supplies"%string /\
    get_or_create_supplier Example.accepts Example.acme_again s'
      = (Ok row, s').
Proof.
  destruct (@C6_supplier_resolution Example.accepts Example.acme start)
    as (_ & _ & Create).
  destruct (Create "Acme Supplies"%string eq_refl eq_refl eq_refl
              (fun _ => eq_refl))
    as (row & s' & E & N & T & _ & _ & Same).
  exists row, s'. split; [exact E|]. split; [exact T|]. split; [exact N|].
  apply Same. reflexivity.
Defined.

(** C7 on Cement, an inventory item: its unit is "each", and stays so
    when the item comes back as a service. *)
Lemma C7_inventory_then_service :
  let r := get_or_create_material Example.accepts Example.cement start in
  exists row,
    fst r = Ok row /\
    models.Material.unit row = "each"%string /\
    get_or_create_material Example.accepts Example.cement_as_service (snd r)
      = (Ok row, snd r).
Proof.
  cbv zeta.
  destruct (@C7_material_resolution Example.accepts Example.cement start)
    as (Unit & _ & Later).
  assert (E : get_or_create_material Example.accepts Example.cement start =
              (Ok {| models.Material.id := 1;
                     models.Material.name := "Cement";
                     models.Material.unit := "each" |},
               snd (get_or_create_material Example.accepts Example.cement
                      start)))
    by (vm_compute; reflexivity).
  eexists. split; [rewrite E; reflexivity|].
  split.
  - apply (Unit "Cement"%string _ _ eq_refl eq_refl E). reflexivity.
  - apply (Later "Cement"%string _ _ eq_refl eq_refl eq_refl E).
    reflexivity.
Defined.

(** * Further properties on the example data *)

(** X1 on a second data set imported into the database the clean run
    left. *)
Lemma rows_added_after_a_first_run :
  let s :=
    initial_state
      (committed (db (snd (example_run process_imports Example.cfg
                             Example.clean empty_store)))) in
  let s1 :=
    snd (process_imports Example.accepts Example.uuid4 Example.format_exc
           Example.cfg Example.from_connection_string
           (inr (Example.client [Example.inv_5])) 5 (Some 10%Z) s) in
  exists x, committed (db s1) = store_app (committed (db s)) x.
Proof.
  cbv zeta.
  apply (@a_run_only_adds_rows Example.accepts Example.uuid4
           Example.format_exc Example.cfg Example.from_connection_string
           (inr (Example.client [Example.inv_5])) 5%nat (Some 10%Z)).
  vm_compute. reflexivity.
Defined.

(** X3 on the clean run: 1 Succeeded, 3 Skipped, 0 Failed for the four
    invoices fetched. *)
Lemma summary_of_the_clean_run :
  let s1 :=
    snd (example_run process_imports Example.cfg Example.clean
           empty_store) in
  exists before,
    log s1 =
      List.app before
        [(INFO, "--- Import Process Finished ---"%string);
         (INFO, "Summary: 1 Succeeded, 3 Skipped, 0 Failed."%string)].
Proof.
  cbv zeta.
  assert (E : example_run process_imports Example.cfg Example.clean
                empty_store =
              (Ok tt,
               snd (example_run process_imports Example.cfg Example.clean
                      empty_store)))
    by (vm_compute; reflexivity).
  destruct (@summary_accounts_for_every_invoice Example.accepts
              Example.uuid4 Example.format_exc Example.cfg
              Example.from_connection_string (inr Example.clean) 5%nat
              Example.clean [{| qbo.CompanyName := "Sandbox Company" |}]
              (Some 10%Z) start _ eq_refl eq_refl eq_refl E)
    as (before & L & _).
  exists before. etransitivity; [exact L|].
  f_equal; vm_compute; reflexivity.
Defined.

(** X4 when the credentials are refused. *)
Lemma run_with_refused_credentials :
  exists s1,
    process_imports Example.accepts Example.uuid4 Example.format_exc
      Example.cfg Example.from_connection_string
      (inl Example.unauthorized) 5 (Some 10%Z) start = (Ok tt, s1) /\
    db s1 = opened (db start) /\
    counts s1 = counts start.
Proof.
  destruct (@quickbooks_unreachable_stops_the_run Example.accepts
              Example.uuid4 Example.format_exc Example.cfg
              Example.from_connection_string (inl Example.unauthorized)
              5%nat (Some 10%Z) start Example.unauthorized eq_refl eq_refl)
    as (s1 & before & E & D & K & _).
  exists s1. now repeat split.
Defined.

(** X5 on a read-only database. *)
Lemma run_on_a_read_only_database :
  exists s1,
    process_imports Example.read_only Example.uuid4 Example.format_exc
      Example.cfg Example.from_connection_string (inr Example.clean) 5
      (Some 10%Z) start = (Ok tt, s1) /\
    db s1 = opened (db start) /\
    counts s1 = (0, 0, 0)%Z.
Proof.
  destruct (@refused_default_project_is_critical Example.read_only
              Example.uuid4 Example.format_exc Example.cfg
              Example.from_connection_string (inr Example.clean) 5%nat
              Example.clean [{| qbo.CompanyName := "Sandbox Company" |}]
              (Some 10%Z) start
              {| exn_class := IntegrityError;
                 exn_msg := "attempt to write a readonly database" |}
              eq_refl eq_refl eq_refl eq_refl (fun _ => eq_refl))
    as (s1 & before & E & D & K & _).
  exists s1. now repeat split.
Defined.

(** X7 on INV-5, imported after INV-1 created the order PO-1001. *)
Lemma second_invoice_of_an_order :
  let row :=
    new_lpo Example.po_1001 "PO-1001" Example.acme_row
      Example.default_project Example.default_user 1 in
  let s := snd (example_invoice Example.clean Example.inv_1 start) in
  let s' := snd (example_invoice Example.clean Example.inv_5 s) in
  exists x id,
    committed (db s') = store_app (all (db s)) x /\
    invoices x = [new_invoice Example.inv_5 "INV-5" row id] /\
    order_untouched x.
Proof.
  cbv zeta.
  apply (@existing_order_is_linked_not_recreated Example.accepts
           Example.uuid4 Example.format_exc Example.cfg Example.clean
           (Some Example.blob) Example.default_project Example.default_user
           Example.inv_5 "INV-5"%string Example.po_1001 "PO-1001"%string).
  - reflexivity.
  - vm_compute. reflexivity.
  - reflexivity.
  - reflexivity.
  - vm_compute. reflexivity.
  - vm_compute. reflexivity.
  - vm_compute. reflexivity.
Defined.

(** X8 on INV-1, whose balance is 0.00. *)
Lemma header_of_a_paid_invoice :
  let s' := snd (example_invoice Example.clean Example.inv_1 start) in
  exists r,
    invoices (committed (db s')) = [r] /\
    models.Invoice.invoice_number r = "INV-1"%string /\
    models.Invoice.status r = "Paid"%string /\
    models.Invoice.payment_mode r = None.
Proof.
  cbv zeta.
  destruct (@imported_invoice_header Example.accepts Example.uuid4
              Example.format_exc Example.cfg Example.clean
              (Some Example.blob) Example.default_project
              Example.default_user Example.inv_1 start
              (snd (example_invoice Example.clean Example.inv_1 start)))
    as (x & r & C & I & N & _ & _ & Paid & _ & _ & _ & Mode).
  - vm_compute. reflexivity.
  - vm_compute. reflexivity.
  - exists r. rewrite C. simpl. rewrite I.
    split; [reflexivity|]. split.
    + change (Py.nonempty (qbo.Invoice.DocNumber Example.inv_1))
        with (Some "INV-1"%string) in N.
      now injection N as <-.
    + split; [now apply Paid|exact Mode].
Defined.

(** X9 on a remote service with one page of four invoices. *)
Lemma one_page_of_invoices :
  get_invoices 5 Example.clean "2025-04-01" "2025-09-30" None start =
    (Ok (List.concat
           [[Example.inv_1; Example.inv_2; Example.inv_4; Example.inv_1]]),
     set_log
       (log start ++
        [(INFO,
          "QB: Found a total of "
          ++ Py.str (Py.len (List.concat
               [[Example.inv_1; Example.inv_2; Example.inv_4;
                 Example.inv_1]]))
          ++ " invoices.")%string])
       start).
Proof.
  apply (@unlimited_query_concatenates_pages 5%nat Example.clean
           "2025-04-01" "2025-09-30" None
           [[Example.inv_1; Example.inv_2; Example.inv_4; Example.inv_1]]
           start).
  - reflexivity.
  - repeat constructor; discriminate.
  - intros [|[|i]] Hi; [vm_compute; reflexivity|vm_compute; reflexivity|].
    cbn in Hi. lia.
  - cbn. lia.
Defined.

(** X10 on a remote service whose second page times out: the two
    invoices of the first page are lost. *)
Lemma second_page_times_out :
  get_invoices 5 Example.second_page_fails "2025-04-01" "2025-09-30" None
    start =
    (Ok [],
     set_log
       (log start ++
        [(ERROR, "Error fetching invoices from QB: Read timed out."%string)])
       start).
Proof.
  apply (@failed_page_discards_the_pages_fetched 5%nat
           Example.second_page_fails "2025-04-01" "2025-09-30" None
           [[Example.inv_1; Example.inv_2]] Example.timed_out start).
  - reflexivity.
  - repeat constructor; discriminate.
  - intros [|i] Hi; [vm_compute; reflexivity|]. cbn in Hi. lia.
  - vm_compute. reflexivity.
  - cbn. lia.
Defined.

(** X14 on the clean run, which fetches INV-1 twice. *)
Lemma numbers_unique_after_the_clean_run :
  numbers_unique
    (committed
       (db (snd (example_run process_imports Example.cfg Example.clean
                   empty_store)))).
Proof.
  apply (@document_numbers_stay_unique Example.accepts Example.uuid4
           Example.format_exc Example.cfg Example.from_connection_string
           (inr Example.clean) 5%nat (Some 10%Z) start).
  - split; constructor.
  - vm_compute. reflexivity.
Defined.

(** X15 on INV-1 and INV-5, both linked to the purchase order 201. *)
Lemma two_invoices_of_PO_1001 :
  let s1 := snd (example_invoice Example.clean Example.inv_1 start) in
  let s2 := snd (example_invoice Example.clean Example.inv_5 s1) in
  exists l r1 r2,
    lpos (committed (db s2)) = (lpos (txn (db start)) ++ [l])%list /\
    models.LPO.lpo_number l = "PO-1001"%string /\
    invoices (committed (db s2))
      = (invoices (txn (db start)) ++ [r1; r2])%list /\
    Py.nonempty (qbo.Invoice.DocNumber Example.inv_1)
      = Some (models.Invoice.invoice_number r1) /\
    Py.nonempty (qbo.Invoice.DocNumber Example.inv_5)
      = Some (models.Invoice.invoice_number r2) /\
    models.Invoice.lpo_id r1 = Some (models.LPO.id l) /\
    models.Invoice.lpo_id r2 = Some (models.LPO.id l).
Proof.
  cbv zeta.
  apply (@two_invoices_share_one_order Example.accepts Example.uuid4
           Example.format_exc Example.cfg Example.clean (Some Example.blob)
           Example.default_project Example.default_user Example.inv_1
           Example.inv_5 Example.po_1001 "PO-1001"%string start
           (snd (example_invoice Example.clean Example.inv_1 start))
           (snd (example_invoice Example.clean Example.inv_5
                   (snd (example_invoice Example.clean Example.inv_1
                           start))))).
  - reflexivity.
  - reflexivity.
  - reflexivity.
  - reflexivity.
  - reflexivity.
  - vm_compute. reflexivity.
  - vm_compute. reflexivity.
  - vm_compute. reflexivity.
  - vm_compute. reflexivity.
Defined.

(** X16 on a file that holds no token line. *)
Lemma file_without_token_lines :
  env_file.update_env_file env_file.no_error (Some "new-access"%string)
    (Some "new-refresh"%string) (Some Example.dotenv_without_tokens) =
    (Some Example.dotenv_without_tokens,
     [(INFO, "Successfully updated .env file with new refresh token."%string)]).
Proof.
  apply env_file_facts.tokens_are_not_added_to_a_file_without_them.
  reflexivity.
Defined.

(** X19 on INV-3, whose purchase order PO-1002 names no vendor. *)
Lemma invoice_of_an_order_without_vendor :
  process_invoice Example.accepts Example.uuid4 Example.format_exc
    Example.cfg Example.with_failure (Some Example.blob)
    Example.default_project Example.default_user Example.inv_3 start =
    (Ok tt,
     set_counts 0 0 1
       (set_log
          [(INFO, "LPO PO-1002 not found. Creating new LPO."%string);
           (ERROR,
            "--- FAILED to process Invoice INV-3: LPO PO-1002 has no Supplier (VendorRef). ---"%string);
           (ERROR,
            "Traceback (most recent call last): LPO PO-1002 has no Supplier (VendorRef)."%string)]
          start)).
Proof.
  destruct (@order_without_supplier_fails_the_invoice Example.accepts
              Example.uuid4 Example.format_exc Example.cfg
              Example.with_failure (Some Example.blob)
              Example.default_project Example.default_user Example.inv_3
              "INV-3"%string Example.po_1002 "PO-1002"%string start
              eq_refl eq_refl eq_refl eq_refl eq_refl)
    as [H _].
  exact (H eq_refl).
Defined.

(** X18 on a complete redirect and on a refused authorization. *)
Lemma redirect_with_code_and_realm :
  let granted :=
    get_oauth_tokens.main Example.cfg_with_redirect Example.auth_client
      Example.parse_qs
      (get_oauth_tokens.Request "/callback?code=abc&realmId=4620816365") in
  let denied :=
    get_oauth_tokens.main Example.cfg_with_redirect Example.auth_client
      Example.parse_qs
      (get_oauth_tokens.Request "/callback?error=access_denied") in
  (get_oauth_tokens.exchanges granted
     = [("abc"%string, "4620816365"%string)] /\
   map get_oauth_tokens.status (get_oauth_tokens.responses granted)
     = [200%Z]) /\
  (get_oauth_tokens.exchanges denied = [] /\
   map get_oauth_tokens.status (get_oauth_tokens.responses denied)
     = [400%Z]).
Proof.
  cbv zeta. split.
  - destruct (get_oauth_tokens_facts.code_is_exchanged_after_a_complete_redirect
                Example.cfg_with_redirect Example.auth_client
                Example.parse_qs
                (get_oauth_tokens.Request
                   "/callback?code=abc&realmId=4620816365"))
      as (_ & Granted & _).
    apply (Granted "/callback?code=abc&realmId=4620816365"%string
             "abc"%string "4620816365"%string [] []);
      try reflexivity; discriminate.
  - destruct (get_oauth_tokens_facts.code_is_exchanged_after_a_complete_redirect
                Example.cfg_with_redirect Example.auth_client
                Example.parse_qs
                (get_oauth_tokens.Request "/callback?error=access_denied"))
      as (_ & _ & Denied).
    destruct (Denied "/callback?error=access_denied"%string eq_refl eq_refl
                (or_introl eq_refl)) as (E & R & _).
    now split.
Defined.
